(** * MonGuard compliance contracts: a shallow embedding and its properties

    The five Solidity contracts of the repository (RiskRegistry,
    ComplianceOracle, TransactionMonitor, ComplianceEnforcement and
    RegulatoryNFT) are embedded as pure state-passing functions.

    - [uint256], [address] and [bytes32] values are binary naturals [N];
      Solidity 0.8 arithmetic is checked, so [+] on [uint256] is
      [checked_add], which reverts with a panic when the sum leaves the
      256-bit range.
    - A Solidity [mapping] is a [gmap] read with the total lookup [!!!],
      the [Inhabited] instance of the value type being the all-zero value
      an unwritten slot holds.
    - An external call returns [result]: [Ok] with the new state, or
      [Revert] with the message of the failing [require].  A reverted call
      leaves every contract untouched, so only [Ok] carries a state.
    - [msg.sender] and [block.timestamp] are explicit arguments
      ([sender], [now]).
    - OpenZeppelin's AccessControl is outside the repository; it is
      embedded as a set of (role, account) pairs with [onlyRole].
    - [emit] statements only append to the transaction log, which no
      contract reads; they are left out of the state. *)

From Stdlib Require Import NArith String Lia Bool.
From stdpp Require Import base option gmap strings list.

Local Open Scope string_scope.
Local Open Scope N_scope.

Abbreviation address := N (only parsing).
Abbreviation uint256 := N (only parsing).
Abbreviation bytes32 := N (only parsing).

(** ** Call results *)

Inductive result (A : Type) : Type :=
| Ok (a : A)
| Revert (reason : string).
Arguments Ok {A} a.
Arguments Revert {A} reason.

#[global] Instance result_ret : MRet result := fun _ a => Ok a.
#[global] Instance result_bind : MBind result := fun _ _ f r =>
  match r with
  | Ok a => f a
  | Revert e => Revert e
  end.

Definition is_ok {A} (r : result A) : bool :=
  match r with Ok _ => true | Revert _ => false end.

Definition require (c : bool) (msg : string) : result unit :=
  if c then Ok tt else Revert msg.

(** ** Checked 256-bit arithmetic *)

Definition MAX_UINT256 : N := Eval cbv in 2 ^ 256 - 1.

Definition PANIC_OVERFLOW : string := "Panic(0x11)".

Definition checked_add (a b : uint256) : result uint256 :=
  if a + b <=? MAX_UINT256 then Ok (a + b) else Revert PANIC_OVERFLOW.

Definition ONE_DAY : uint256 := 86400.
Definition ONE_ETHER : uint256 := 1000000000000000000.

(** ** AccessControl (OpenZeppelin), as far as the contracts use it *)

Module AccessControl.

(** A role is named by the string whose hash the contract takes. *)
Definition DEFAULT_ADMIN_ROLE : string := "DEFAULT_ADMIN_ROLE".

Definition hasRole (roles : gset (string * address)) (role : string)
    (account : address) : bool :=
  bool_decide ((role, account) ∈ roles).

Definition _grantRole (roles : gset (string * address)) (role : string)
    (account : address) : gset (string * address) :=
  {[ (role, account) ]} ∪ roles.

Definition onlyRole (roles : gset (string * address)) (role : string)
    (sender : address) : result unit :=
  require (hasRole roles role sender) "AccessControlUnauthorizedAccount".

End AccessControl.

(** ** RiskRegistry *)

Module RiskRegistry.
Import AccessControl.

Definition ORACLE_ROLE : string := "ORACLE_ROLE".
Definition AUDITOR_ROLE : string := "AUDITOR_ROLE".

Inductive RiskLevel : Type := NONE | LOW | MEDIUM | HIGH | CRITICAL.

#[global] Instance RiskLevel_eq_dec : EqDecision RiskLevel.
Proof. solve_decision. Defined.

Definition RiskLevel_to_nat (l : RiskLevel) : nat :=
  match l with NONE => 0 | LOW => 1 | MEDIUM => 2 | HIGH => 3 | CRITICAL => 4 end.

Definition RiskLevel_of_nat (n : nat) : RiskLevel :=
  match n with
  | O => NONE | 1%nat => LOW | 2%nat => MEDIUM | 3%nat => HIGH | _ => CRITICAL
  end.

#[global] Instance RiskLevel_countable : Countable RiskLevel.
Proof.
  apply (inj_countable' RiskLevel_to_nat RiskLevel_of_nat).
  intros []; reflexivity.
Defined.

Record RiskAssessment : Type := mkRiskAssessment {
  level : RiskLevel;
  score : uint256;
  timestamp : uint256;
  reason : string;
  assessor : address;
  active : bool
}.

#[global] Instance RiskAssessment_inhabited : Inhabited RiskAssessment :=
  populate (mkRiskAssessment NONE 0 0 "" 0 false).

Record State : Type := mkState {
  riskAssessments : gmap address RiskAssessment;
  addressesByRisk : gmap RiskLevel (list address);
  totalAssessments : uint256;
  roles : gset (string * address)
}.

(** The constructor grants the three roles to the deployer. *)
Definition constructor (sender : address) : State :=
  mkState ∅ ∅ 0
    (_grantRole (_grantRole (_grantRole ∅ DEFAULT_ADMIN_ROLE sender)
       ORACLE_ROLE sender) AUDITOR_ROLE sender).

(** [grantRole] of AccessControl: the admin of every role is the
    default admin role. *)
Definition grantRole (st : State) (sender : address) (role : string)
    (account : address) : result State :=
  onlyRole (roles st) DEFAULT_ADMIN_ROLE sender;;
  Ok (mkState (riskAssessments st) (addressesByRisk st) (totalAssessments st)
        (_grantRole (roles st) role account)).

Definition _scoreToLevel (score : uint256) : RiskLevel :=
  if 90 <=? score then CRITICAL
  else if 70 <=? score then HIGH
  else if 40 <=? score then MEDIUM
  else if 10 <=? score then LOW
  else NONE.

Definition push (m : gmap RiskLevel (list address)) (l : RiskLevel)
    (a : address) : gmap RiskLevel (list address) :=
  <[ l := ((m !!! l) ++ [a])%list ]> m.

Definition assessRisk (st : State) (sender : address) (now : uint256)
    (target : address) (lvl : RiskLevel) (sc : uint256) (rsn : string)
    : result State :=
  onlyRole (roles st) ORACLE_ROLE sender;;
  require (negb (target =? 0)) "Invalid target address";;
  require (sc <=? 100) "Score must be 0-100";;
  require (0 <? N.of_nat (String.length rsn)) "Reason required";;
  let oldLevel := level (riskAssessments st !!! target) in
  let assessment := mkRiskAssessment lvl sc now rsn sender true in
  total ← (if decide (oldLevel = NONE)
           then checked_add (totalAssessments st) 1
           else Ok (totalAssessments st));
  Ok (mkState (<[ target := assessment ]> (riskAssessments st))
        (push (addressesByRisk st) lvl target)
        total
        (roles st)).

Definition updateRiskScore (st : State) (sender : address) (now : uint256)
    (target : address) (newScore : uint256) : result State :=
  onlyRole (roles st) ORACLE_ROLE sender;;
  require (newScore <=? 100) "Score must be 0-100";;
  let a := riskAssessments st !!! target in
  require (active a) "No active assessment";;
  let oldLevel := level a in
  let newLevel := _scoreToLevel newScore in
  if decide (newLevel <> oldLevel) then
    Ok (mkState
          (<[ target := mkRiskAssessment newLevel newScore now (reason a)
                          (assessor a) (active a) ]> (riskAssessments st))
          (push (addressesByRisk st) newLevel target)
          (totalAssessments st) (roles st))
  else
    Ok (mkState
          (<[ target := mkRiskAssessment oldLevel newScore now (reason a)
                          (assessor a) (active a) ]> (riskAssessments st))
          (addressesByRisk st) (totalAssessments st) (roles st)).

Definition clearRisk (st : State) (sender : address) (target : address)
    : result State :=
  onlyRole (roles st) AUDITOR_ROLE sender;;
  let a := riskAssessments st !!! target in
  require (active a) "No active assessment";;
  Ok (mkState
        (<[ target := mkRiskAssessment (level a) (score a) (timestamp a)
                        (reason a) (assessor a) false ]> (riskAssessments st))
        (addressesByRisk st) (totalAssessments st) (roles st)).

Definition getRiskAssessment (st : State) (target : address) : RiskAssessment :=
  riskAssessments st !!! target.

Definition isHighRisk (st : State) (target : address) : bool :=
  let a := riskAssessments st !!! target in
  active a && (bool_decide (level a = HIGH) || bool_decide (level a = CRITICAL)).

Definition getRiskLevel (st : State) (target : address) : RiskLevel :=
  if active (riskAssessments st !!! target)
  then level (riskAssessments st !!! target)
  else NONE.

Definition getRiskScore (st : State) (target : address) : uint256 :=
  if active (riskAssessments st !!! target)
  then score (riskAssessments st !!! target)
  else 0.

Definition getAddressesByRiskLevel (st : State) (l : RiskLevel) : list address :=
  addressesByRisk st !!! l.

End RiskRegistry.


(** ** ComplianceOracle *)

Module ComplianceOracle.
Import AccessControl.

Definition ORACLE_UPDATER_ROLE : string := "ORACLE_UPDATER_ROLE".
Definition VALIDATOR_ROLE : string := "VALIDATOR_ROLE".

Record DataSource : Type := mkDataSource {
  name : string;
  endpoint : string;
  lastUpdate : uint256;
  active : bool
}.

#[global] Instance DataSource_inhabited : Inhabited DataSource :=
  populate (mkDataSource "" "" 0 false).

Record ComplianceCheck : Type := mkComplianceCheck {
  isSanctioned_ : bool;
  isPEP : bool;
  jurisdiction : string;
  timestamp : uint256;
  dataSourceId : bytes32
}.

#[global] Instance ComplianceCheck_inhabited : Inhabited ComplianceCheck :=
  populate (mkComplianceCheck false false "" 0 0).

Record State : Type := mkState {
  sanctionedAddresses : gmap address bool;
  sanctionedJurisdictions : gmap string bool;
  dataSources : gmap bytes32 DataSource;
  dataSourceIds : list bytes32;
  complianceChecks : gmap address ComplianceCheck;
  roles : gset (string * address)
}.

Definition constructor (sender : address) (_riskRegistry : address)
    : result State :=
  require (negb (_riskRegistry =? 0)) "Invalid registry address";;
  Ok (mkState ∅ ∅ ∅ [] ∅
        (_grantRole (_grantRole (_grantRole ∅ DEFAULT_ADMIN_ROLE sender)
           ORACLE_UPDATER_ROLE sender) VALIDATOR_ROLE sender)).

Definition grantRole (st : State) (sender : address) (role : string)
    (account : address) : result State :=
  onlyRole (roles st) DEFAULT_ADMIN_ROLE sender;;
  Ok (mkState (sanctionedAddresses st) (sanctionedJurisdictions st)
        (dataSources st) (dataSourceIds st) (complianceChecks st)
        (_grantRole (roles st) role account)).

Section Hashing.

(** [keccak256(abi.encodePacked(name, block.timestamp))] *)
Variable keccak256_name_time : string -> uint256 -> bytes32.

Definition registerDataSource (st : State) (sender : address) (now : uint256)
    (nm ep : string) : result (State * bytes32) :=
  onlyRole (roles st) DEFAULT_ADMIN_ROLE sender;;
  let sourceId := keccak256_name_time nm now in
  Ok (mkState (sanctionedAddresses st) (sanctionedJurisdictions st)
        (<[ sourceId := mkDataSource nm ep now true ]> (dataSources st))
        (dataSourceIds st ++ [sourceId])%list
        (complianceChecks st) (roles st),
      sourceId).

End Hashing.

(** [this] is the oracle's own address: it is [msg.sender] of the call
    into the registry, which checks it for [ORACLE_ROLE]. *)
Definition sanctionAddress (this : address) (reg : RiskRegistry.State)
    (st : State) (sender : address) (now : uint256)
    (target : address) (srcId : bytes32) (rsn : string)
    : result (State * RiskRegistry.State) :=
  onlyRole (roles st) ORACLE_UPDATER_ROLE sender;;
  require (negb (target =? 0)) "Invalid address";;
  require (active (dataSources st !!! srcId)) "Invalid data source";;
  let st' := mkState (<[ target := true ]> (sanctionedAddresses st))
               (sanctionedJurisdictions st) (dataSources st)
               (dataSourceIds st) (complianceChecks st) (roles st) in
  reg' ← RiskRegistry.assessRisk reg this now target RiskRegistry.CRITICAL 100 rsn;
  Ok (st', reg').

Definition clearSanction (st : State) (sender : address) (target : address)
    : result State :=
  onlyRole (roles st) VALIDATOR_ROLE sender;;
  require (default false (sanctionedAddresses st !! target))
    "Address not sanctioned";;
  Ok (mkState (<[ target := false ]> (sanctionedAddresses st))
        (sanctionedJurisdictions st) (dataSources st)
        (dataSourceIds st) (complianceChecks st) (roles st)).

Definition performComplianceCheck (this : address) (reg : RiskRegistry.State)
    (st : State) (sender : address) (now : uint256)
    (target : address) (jur : string) (pep : bool) (srcId : bytes32)
    : result (State * RiskRegistry.State) :=
  onlyRole (roles st) ORACLE_UPDATER_ROLE sender;;
  require (active (dataSources st !!! srcId)) "Invalid data source";;
  let sanctioned := default false (sanctionedAddresses st !! target)
                    || default false (sanctionedJurisdictions st !! jur) in
  let src := dataSources st !!! srcId in
  let st' := mkState (sanctionedAddresses st) (sanctionedJurisdictions st)
               (<[ srcId := mkDataSource (name src) (endpoint src) now
                              (active src) ]> (dataSources st))
               (dataSourceIds st)
               (<[ target := mkComplianceCheck sanctioned pep jur now srcId ]>
                  (complianceChecks st))
               (roles st) in
  if sanctioned || pep then
    let riskScore := if sanctioned then 100 else 75 in
    let lvl := if sanctioned then RiskRegistry.CRITICAL else RiskRegistry.HIGH in
    reg' ← RiskRegistry.assessRisk reg this now target lvl riskScore
             (if sanctioned then "Sanctioned entity" else "PEP identified");
    Ok (st', reg')
  else Ok (st', reg).

Definition sanctionJurisdiction (st : State) (sender : address) (jur : string)
    : result State :=
  onlyRole (roles st) ORACLE_UPDATER_ROLE sender;;
  Ok (mkState (sanctionedAddresses st)
        (<[ jur := true ]> (sanctionedJurisdictions st)) (dataSources st)
        (dataSourceIds st) (complianceChecks st) (roles st)).

Definition isSanctioned (st : State) (target : address) : bool :=
  default false (sanctionedAddresses st !! target).

Definition getComplianceCheck (st : State) (target : address) : ComplianceCheck :=
  complianceChecks st !!! target.

Definition isCompliant (st : State) (target : address) : bool :=
  let check := complianceChecks st !!! target in
  negb (isSanctioned_ check)
  && negb (default false (sanctionedJurisdictions st !! jurisdiction check)).

Definition getDataSources (st : State) : list bytes32 := dataSourceIds st.

Definition getDataSource (st : State) (sourceId : bytes32) : DataSource :=
  dataSources st !!! sourceId.

End ComplianceOracle.

(** ** TransactionMonitor *)

Module TransactionMonitor.
Import AccessControl.

Definition MONITOR_ROLE : string := "MONITOR_ROLE".
Definition AI_ORACLE_ROLE : string := "AI_ORACLE_ROLE".

Inductive PatternType : Type :=
| NORMAL | STRUCTURING | RAPID_MOVEMENT | MIXING | HIGH_VOLUME
| SANCTION_INTERACTION.

#[global] Instance PatternType_eq_dec : EqDecision PatternType.
Proof. solve_decision. Defined.

Inductive AlertSeverity : Type := INFO | LOW | MEDIUM | HIGH | CRITICAL.

#[global] Instance AlertSeverity_eq_dec : EqDecision AlertSeverity.
Proof. solve_decision. Defined.

Record TransactionAnalysis : Type := mkTransactionAnalysis {
  txHash : bytes32;
  from : address;
  to : address;
  amount : uint256;
  pattern : PatternType;
  severity : AlertSeverity;
  anomalyScore : uint256;
  timestamp : uint256;
  flagged : bool;
  notes : string
}.

#[global] Instance TransactionAnalysis_inhabited : Inhabited TransactionAnalysis :=
  populate (mkTransactionAnalysis 0 0 0 0 NORMAL INFO 0 0 false "").

Record Alert : Type := mkAlert {
  id : uint256;
  target : address;
  alertPattern : PatternType;
  alertSeverity : AlertSeverity;
  description : string;
  alertTimestamp : uint256;
  resolved : bool;
  resolver : address
}.

#[global] Instance Alert_inhabited : Inhabited Alert :=
  populate (mkAlert 0 0 NORMAL INFO "" 0 false 0).

Record State : Type := mkState {
  transactionAnalyses : gmap bytes32 TransactionAnalysis;
  addressTransactions : gmap address (list bytes32);
  alerts : gmap uint256 Alert;
  alertCounter : uint256;
  flaggedTransactionCount : uint256;
  highRiskThreshold : uint256;
  criticalRiskThreshold : uint256;
  rapidMovementWindow : uint256;
  highVolumeThreshold : uint256;
  roles : gset (string * address)
}.

Definition constructor (sender : address) (_riskRegistry _complianceOracle : address)
    : result State :=
  require (negb (_riskRegistry =? 0)) "Invalid registry";;
  require (negb (_complianceOracle =? 0)) "Invalid oracle";;
  Ok (mkState ∅ ∅ ∅ 0 0 70 90 3600 (100 * ONE_ETHER)
        (_grantRole (_grantRole (_grantRole ∅ DEFAULT_ADMIN_ROLE sender)
           MONITOR_ROLE sender) AI_ORACLE_ROLE sender)).

Definition grantRole (st : State) (sender : address) (role : string)
    (account : address) : result State :=
  onlyRole (roles st) DEFAULT_ADMIN_ROLE sender;;
  Ok (mkState (transactionAnalyses st) (addressTransactions st) (alerts st)
        (alertCounter st) (flaggedTransactionCount st) (highRiskThreshold st)
        (criticalRiskThreshold st) (rapidMovementWindow st)
        (highVolumeThreshold st) (_grantRole (roles st) role account)).

Definition _calculateSeverity (st : State) (score : uint256) (p : PatternType)
    : AlertSeverity :=
  if bool_decide (p = SANCTION_INTERACTION) || (criticalRiskThreshold st <=? score)
  then CRITICAL
  else if bool_decide (p = MIXING) || (highRiskThreshold st <=? score)
  then HIGH
  else if bool_decide (p = RAPID_MOVEMENT) || (50 <=? score)
  then MEDIUM
  else if bool_decide (p <> NORMAL) || (25 <=? score)
  then LOW
  else INFO.

Definition _scoreToRiskLevel (score : uint256) : RiskRegistry.RiskLevel :=
  if 90 <=? score then RiskRegistry.CRITICAL
  else if 70 <=? score then RiskRegistry.HIGH
  else if 40 <=? score then RiskRegistry.MEDIUM
  else if 10 <=? score then RiskRegistry.LOW
  else RiskRegistry.NONE.

Definition pushTx (m : gmap address (list bytes32)) (a : address) (h : bytes32)
    : gmap address (list bytes32) :=
  <[ a := ((m !!! a) ++ [h])%list ]> m.

Definition _createAlert (st : State) (now : uint256) (tgt : address)
    (p : PatternType) (sev : AlertSeverity) (descr : string) : result State :=
  counter ← checked_add (alertCounter st) 1;
  Ok (mkState (transactionAnalyses st) (addressTransactions st)
        (<[ counter := mkAlert counter tgt p sev descr now false 0 ]> (alerts st))
        counter (flaggedTransactionCount st) (highRiskThreshold st)
        (criticalRiskThreshold st) (rapidMovementWindow st)
        (highVolumeThreshold st) (roles st)).

(** Both writes go to the registry with the monitor ([this]) as caller. *)
Definition _updateRiskScores (this : address) (reg : RiskRegistry.State)
    (orc : ComplianceOracle.State) (now : uint256)
    (frm to_ : address) (anomaly : uint256) : result RiskRegistry.State :=
  let currentFromRisk := RiskRegistry.getRiskScore reg frm in
  sum ← checked_add currentFromRisk anomaly;
  let newFromRisk := sum / 2 in
  reg1 ← RiskRegistry.assessRisk reg this now frm
           (_scoreToRiskLevel newFromRisk) newFromRisk
           "Automated risk update from transaction monitoring";
  if ComplianceOracle.isSanctioned orc to_ then
    RiskRegistry.assessRisk reg1 this now frm RiskRegistry.CRITICAL 100
      "Interaction with sanctioned address"
  else Ok reg1.

Definition analyzeTransaction (this : address) (reg : RiskRegistry.State)
    (orc : ComplianceOracle.State) (st : State) (sender : address)
    (now : uint256) (hash : bytes32) (frm to_ : address) (amt : uint256)
    (p : PatternType) (anomaly : uint256) (nts : string)
    : result (State * RiskRegistry.State) :=
  onlyRole (roles st) AI_ORACLE_ROLE sender;;
  require (anomaly <=? 100) "Invalid anomaly score";;
  let sev := _calculateSeverity st anomaly p in
  let flag := (highRiskThreshold st <=? anomaly) || bool_decide (p <> NORMAL) in
  let analysis := mkTransactionAnalysis hash frm to_ amt p sev anomaly now
                    flag nts in
  let st1 := mkState (<[ hash := analysis ]> (transactionAnalyses st))
               (pushTx (pushTx (addressTransactions st) frm hash) to_ hash)
               (alerts st) (alertCounter st) (flaggedTransactionCount st)
               (highRiskThreshold st) (criticalRiskThreshold st)
               (rapidMovementWindow st) (highVolumeThreshold st) (roles st) in
  if flag then
    count ← checked_add (flaggedTransactionCount st1) 1;
    let st2 := mkState (transactionAnalyses st1) (addressTransactions st1)
                 (alerts st1) (alertCounter st1) count
                 (highRiskThreshold st1) (criticalRiskThreshold st1)
                 (rapidMovementWindow st1) (highVolumeThreshold st1)
                 (roles st1) in
    st3 ← _createAlert st2 now frm p sev nts;
    reg' ← _updateRiskScores this reg orc now frm to_ anomaly;
    Ok (st3, reg')
  else Ok (st1, reg).

Definition resolveAlert (st : State) (sender : address) (alertId : uint256)
    : result State :=
  onlyRole (roles st) MONITOR_ROLE sender;;
  let a := alerts st !!! alertId in
  require (negb (resolved a)) "Alert already resolved";;
  Ok (mkState (transactionAnalyses st) (addressTransactions st)
        (<[ alertId := mkAlert (id a) (target a) (alertPattern a)
                         (alertSeverity a) (description a) (alertTimestamp a)
                         true sender ]> (alerts st))
        (alertCounter st) (flaggedTransactionCount st) (highRiskThreshold st)
        (criticalRiskThreshold st) (rapidMovementWindow st)
        (highVolumeThreshold st) (roles st)).

Definition updateThresholds (st : State) (sender : address)
    (newHighRisk newCritical : uint256) : result State :=
  onlyRole (roles st) DEFAULT_ADMIN_ROLE sender;;
  require (newHighRisk <? newCritical) "Invalid thresholds";;
  require (newCritical <=? 100) "Threshold too high";;
  Ok (mkState (transactionAnalyses st) (addressTransactions st) (alerts st)
        (alertCounter st) (flaggedTransactionCount st) newHighRisk newCritical
        (rapidMovementWindow st) (highVolumeThreshold st) (roles st)).

Definition getTransactionAnalysis (st : State) (hash : bytes32)
    : TransactionAnalysis :=
  transactionAnalyses st !!! hash.

Definition getAddressTransactions (st : State) (account : address)
    : list bytes32 :=
  addressTransactions st !!! account.

Definition getAlert (st : State) (alertId : uint256) : Alert :=
  alerts st !!! alertId.

End TransactionMonitor.

(** ** ComplianceEnforcement *)

Module ComplianceEnforcement.
Import AccessControl.

Definition ENFORCER_ROLE : string := "ENFORCER_ROLE".
Definition WHITELIST_MANAGER_ROLE : string := "WHITELIST_MANAGER_ROLE".

Inductive EnforcementAction : Type :=
| NONE | WARN | DELAY | LIMIT | BLOCK | FREEZE.

#[global] Instance EnforcementAction_eq_dec : EqDecision EnforcementAction.
Proof. solve_decision. Defined.

Record AccountStatus : Type := mkAccountStatus {
  frozen : bool;
  whitelisted : bool;
  defaultAction : EnforcementAction;
  dailyLimit : uint256;
  dailySpent : uint256;
  lastResetTimestamp : uint256;
  freezeTimestamp : uint256;
  freezeInitiator : address;
  freezeReason : string
}.

#[global] Instance AccountStatus_inhabited : Inhabited AccountStatus :=
  populate (mkAccountStatus false false NONE 0 0 0 0 0 "").

Record DelayedTransaction : Type := mkDelayedTransaction {
  txId : bytes32;
  from : address;
  to : address;
  amount : uint256;
  data : list Byte.byte;
  delayUntil : uint256;
  executed : bool;
  approved : bool;
  reviewer : address
}.

#[global] Instance DelayedTransaction_inhabited : Inhabited DelayedTransaction :=
  populate (mkDelayedTransaction 0 0 0 0 [] 0 false false 0).

Record State : Type := mkState {
  accountStatuses : gmap address AccountStatus;
  delayedTransactions : gmap bytes32 DelayedTransaction;
  accountDelayedTxs : gmap address (list bytes32);
  defaultDailyLimit : uint256;
  delayPeriod : uint256;
  enforcementEnabled : bool;
  roles : gset (string * address)
}.

Definition constructor (sender : address)
    (_riskRegistry _complianceOracle _transactionMonitor : address)
    : result State :=
  require (negb (_riskRegistry =? 0)) "Invalid risk registry";;
  require (negb (_complianceOracle =? 0)) "Invalid compliance oracle";;
  require (negb (_transactionMonitor =? 0)) "Invalid transaction monitor";;
  Ok (mkState ∅ ∅ ∅ (1000 * ONE_ETHER) ONE_DAY true
        (_grantRole (_grantRole (_grantRole ∅ DEFAULT_ADMIN_ROLE sender)
           ENFORCER_ROLE sender) WHITELIST_MANAGER_ROLE sender)).

Definition grantRole (st : State) (sender : address) (role : string)
    (account : address) : result State :=
  onlyRole (roles st) DEFAULT_ADMIN_ROLE sender;;
  Ok (mkState (accountStatuses st) (delayedTransactions st)
        (accountDelayedTxs st) (defaultDailyLimit st) (delayPeriod st)
        (enforcementEnabled st) (_grantRole (roles st) role account)).

(** Writing one account's status slot. *)
Definition setStatus (st : State) (account : address) (s : AccountStatus)
    : State :=
  mkState (<[ account := s ]> (accountStatuses st)) (delayedTransactions st)
    (accountDelayedTxs st) (defaultDailyLimit st) (delayPeriod st)
    (enforcementEnabled st) (roles st).

(** Writing one delayed-transaction slot. *)
Definition setDelayed (st : State) (i : bytes32) (d : DelayedTransaction)
    : State :=
  mkState (accountStatuses st) (<[ i := d ]> (delayedTransactions st))
    (accountDelayedTxs st) (defaultDailyLimit st) (delayPeriod st)
    (enforcementEnabled st) (roles st).

Definition _checkDailyLimit (st : State) (now : uint256) (account : address)
    (amt : uint256) : result bool :=
  let status := accountStatuses st !!! account in
  let limit := if 0 <? dailyLimit status then dailyLimit status
               else defaultDailyLimit st in
  windowEnd ← checked_add (lastResetTimestamp status) ONE_DAY;
  if windowEnd <=? now then Ok (limit <? amt)
  else
    total ← checked_add (dailySpent status) amt;
    Ok (limit <? total).

Definition checkTransaction (reg : RiskRegistry.State)
    (orc : ComplianceOracle.State) (st : State) (now : uint256)
    (frm to_ : address) (amt : uint256)
    : result (bool * EnforcementAction * string) :=
  if negb (enforcementEnabled st) then Ok (true, NONE, "")
  else
    let fromStatus := accountStatuses st !!! frm in
    let toStatus := accountStatuses st !!! to_ in
    if whitelisted fromStatus then Ok (true, NONE, "Whitelisted")
    else if frozen fromStatus then Ok (false, FREEZE, "Account frozen")
    else if frozen toStatus then Ok (false, BLOCK, "Recipient frozen")
    else if ComplianceOracle.isSanctioned orc frm
    then Ok (false, FREEZE, "Sender sanctioned")
    else if ComplianceOracle.isSanctioned orc to_
    then Ok (false, BLOCK, "Recipient sanctioned")
    else
      let fromRisk := RiskRegistry.getRiskLevel reg frm in
      let toRisk := RiskRegistry.getRiskLevel reg to_ in
      if bool_decide (fromRisk = RiskRegistry.CRITICAL)
      then Ok (false, FREEZE, "Critical risk - sender")
      else if bool_decide (toRisk = RiskRegistry.CRITICAL)
      then Ok (false, BLOCK, "Critical risk - recipient")
      else if bool_decide (fromRisk = RiskRegistry.HIGH)
      then Ok (false, DELAY, "High risk - requires review")
      else
        exceeded ← _checkDailyLimit st now frm amt;
        if (exceeded : bool) then Ok (false, LIMIT, "Daily limit exceeded")
        else Ok (true, NONE, "").

Definition freezeAccount (st : State) (sender : address) (now : uint256)
    (account : address) (rsn : string) : result State :=
  onlyRole (roles st) ENFORCER_ROLE sender;;
  let s := accountStatuses st !!! account in
  require (negb (frozen s)) "Already frozen";;
  Ok (setStatus st account
        (mkAccountStatus true (whitelisted s) (defaultAction s) (dailyLimit s)
           (dailySpent s) (lastResetTimestamp s) now sender rsn)).

Definition unfreezeAccount (st : State) (sender : address) (account : address)
    : result State :=
  onlyRole (roles st) ENFORCER_ROLE sender;;
  let s := accountStatuses st !!! account in
  require (frozen s) "Not frozen";;
  Ok (setStatus st account
        (mkAccountStatus false (whitelisted s) (defaultAction s) (dailyLimit s)
           (dailySpent s) (lastResetTimestamp s) (freezeTimestamp s)
           (freezeInitiator s) (freezeReason s))).

Definition whitelistAccount (st : State) (sender : address) (account : address)
    : result State :=
  onlyRole (roles st) WHITELIST_MANAGER_ROLE sender;;
  let s := accountStatuses st !!! account in
  Ok (setStatus st account
        (mkAccountStatus (frozen s) true (defaultAction s) (dailyLimit s)
           (dailySpent s) (lastResetTimestamp s) (freezeTimestamp s)
           (freezeInitiator s) (freezeReason s))).

Definition removeFromWhitelist (st : State) (sender : address)
    (account : address) : result State :=
  onlyRole (roles st) WHITELIST_MANAGER_ROLE sender;;
  let s := accountStatuses st !!! account in
  Ok (setStatus st account
        (mkAccountStatus (frozen s) false (defaultAction s) (dailyLimit s)
           (dailySpent s) (lastResetTimestamp s) (freezeTimestamp s)
           (freezeInitiator s) (freezeReason s))).

Section Hashing.

(** [keccak256(abi.encodePacked(from, to, amount, block.timestamp))] *)
Variable keccak256_delayed : address -> address -> uint256 -> uint256 -> bytes32.

Definition createDelayedTransaction (st : State) (sender : address)
    (now : uint256) (frm to_ : address) (amt : uint256) (dat : list Byte.byte)
    : result (State * bytes32) :=
  onlyRole (roles st) ENFORCER_ROLE sender;;
  let i := keccak256_delayed frm to_ amt now in
  until ← checked_add now (delayPeriod st);
  Ok (mkState (accountStatuses st)
        (<[ i := mkDelayedTransaction i frm to_ amt dat until false false 0 ]>
           (delayedTransactions st))
        (<[ frm := ((accountDelayedTxs st !!! frm) ++ [i])%list ]>
           (accountDelayedTxs st))
        (defaultDailyLimit st) (delayPeriod st) (enforcementEnabled st)
        (roles st),
      i).

End Hashing.

Definition approveDelayedTransaction (st : State) (sender : address)
    (i : bytes32) : result State :=
  onlyRole (roles st) ENFORCER_ROLE sender;;
  let dtx := delayedTransactions st !!! i in
  require (negb (executed dtx)) "Already executed";;
  require (negb (approved dtx)) "Already approved";;
  Ok (setDelayed st i
        (mkDelayedTransaction (txId dtx) (from dtx) (to dtx) (amount dtx)
           (data dtx) (delayUntil dtx) (executed dtx) true sender)).

(** [nonReentrant] never fires: the body makes no external call. *)
Definition executeDelayedTransaction (st : State) (now : uint256)
    (i : bytes32) : result State :=
  let dtx := delayedTransactions st !!! i in
  require (approved dtx) "Not approved";;
  require (negb (executed dtx)) "Already executed";;
  require (delayUntil dtx <=? now) "Still delayed";;
  Ok (setDelayed st i
        (mkDelayedTransaction (txId dtx) (from dtx) (to dtx) (amount dtx)
           (data dtx) (delayUntil dtx) true (approved dtx) (reviewer dtx))).

Definition setDailyLimit (st : State) (sender : address) (account : address)
    (limit : uint256) : result State :=
  onlyRole (roles st) ENFORCER_ROLE sender;;
  let s := accountStatuses st !!! account in
  Ok (setStatus st account
        (mkAccountStatus (frozen s) (whitelisted s) (defaultAction s) limit
           (dailySpent s) (lastResetTimestamp s) (freezeTimestamp s)
           (freezeInitiator s) (freezeReason s))).

Definition setEnforcementEnabled (st : State) (sender : address)
    (enabled : bool) : result State :=
  onlyRole (roles st) DEFAULT_ADMIN_ROLE sender;;
  Ok (mkState (accountStatuses st) (delayedTransactions st)
        (accountDelayedTxs st) (defaultDailyLimit st) (delayPeriod st)
        enabled (roles st)).

Definition recordSpending (st : State) (sender : address) (now : uint256)
    (account : address) (amt : uint256) : result State :=
  onlyRole (roles st) ENFORCER_ROLE sender;;
  let s := accountStatuses st !!! account in
  windowEnd ← checked_add (lastResetTimestamp s) ONE_DAY;
  if windowEnd <=? now then
    Ok (setStatus st account
          (mkAccountStatus (frozen s) (whitelisted s) (defaultAction s)
             (dailyLimit s) amt now (freezeTimestamp s) (freezeInitiator s)
             (freezeReason s)))
  else
    spent ← checked_add (dailySpent s) amt;
    Ok (setStatus st account
          (mkAccountStatus (frozen s) (whitelisted s) (defaultAction s)
             (dailyLimit s) spent (lastResetTimestamp s) (freezeTimestamp s)
             (freezeInitiator s) (freezeReason s))).

Definition getAccountStatus (st : State) (account : address) : AccountStatus :=
  accountStatuses st !!! account.

Definition getAccountDelayedTransactions (st : State) (account : address)
    : list bytes32 :=
  accountDelayedTxs st !!! account.

End ComplianceEnforcement.

(** ** RegulatoryNFT *)

Module RegulatoryNFT.
Import AccessControl.

Definition AUDITOR_ROLE : string := "AUDITOR_ROLE".
Definition COMPLIANCE_OFFICER_ROLE : string := "COMPLIANCE_OFFICER_ROLE".

Inductive ReportType : Type :=
| SUSPICIOUS_ACTIVITY | COMPLIANCE_AUDIT | RISK_ASSESSMENT
| TRANSACTION_REVIEW | KYC_VERIFICATION | SANCTION_SCREENING.

Inductive ReportStatus : Type :=
| DRAFT | SUBMITTED | UNDER_REVIEW | APPROVED | REJECTED | ARCHIVED.

#[global] Instance ReportStatus_eq_dec : EqDecision ReportStatus.
Proof. solve_decision. Defined.

Record ComplianceReport : Type := mkComplianceReport {
  tokenId : uint256;
  reportType : ReportType;
  status : ReportStatus;
  subject : address;
  issuer : address;
  timestamp : uint256;
  reviewTimestamp : uint256;
  reviewer : address;
  ipfsHash : string;
  dataHash : bytes32;
  isSealed : bool
}.

#[global] Instance ComplianceReport_inhabited : Inhabited ComplianceReport :=
  populate (mkComplianceReport 0 SUSPICIOUS_ACTIVITY DRAFT 0 0 0 0 0 "" 0 false).

(** [owners] is the token-owner table of the inherited ERC721 (OpenZeppelin,
    outside the repository); an absent key is the zero owner of a token
    that was never minted.  The token URI the contract also stores there is
    a rendering of the report and no part of [ComplianceReport]; it is not
    kept. *)
Record State : Type := mkState {
  reports : gmap uint256 ComplianceReport;
  subjectReports : gmap address (list uint256);
  issuerReports : gmap address (list uint256);
  _tokenIdCounter : uint256;
  owners : gmap uint256 address;
  roles : gset (string * address)
}.

Definition constructor (sender : address) : State :=
  mkState ∅ ∅ ∅ 0 ∅
    (_grantRole (_grantRole (_grantRole ∅ DEFAULT_ADMIN_ROLE sender)
       AUDITOR_ROLE sender) COMPLIANCE_OFFICER_ROLE sender).

Definition grantRole (st : State) (sender : address) (role : string)
    (account : address) : result State :=
  onlyRole (roles st) DEFAULT_ADMIN_ROLE sender;;
  Ok (mkState (reports st) (subjectReports st) (issuerReports st)
        (_tokenIdCounter st) (owners st) (_grantRole (roles st) role account)).

Definition _ownerOf (st : State) (i : uint256) : address :=
  default 0 (owners st !! i).

(** ERC721 [ownerOf]: reverts for a token without owner. *)
Definition ownerOf (st : State) (i : uint256) : result address :=
  require (negb (_ownerOf st i =? 0)) "ERC721NonexistentToken";;
  Ok (_ownerOf st i).

(** Writing one report slot. *)
Definition setReport (st : State) (i : uint256) (r : ComplianceReport) : State :=
  mkState (<[ i := r ]> (reports st)) (subjectReports st) (issuerReports st)
    (_tokenIdCounter st) (owners st) (roles st).

Definition pushId (m : gmap address (list uint256)) (a : address) (i : uint256)
    : gmap address (list uint256) :=
  <[ a := ((m !!! a) ++ [i])%list ]> m.

(** The first half of [createReport]: the guards, the counter and
    [_safeMint]'s mint.  The mint is ERC721's (OpenZeppelin, outside the
    repository): the receiver must not be the zero address and the token
    must not exist yet; it records the owner.  The report slot is not
    written yet. *)
Definition mintReport (st : State) (sender : address) (subj : address)
    (ipfs : string) (dh : bytes32) : result (State * uint256) :=
  onlyRole (roles st) COMPLIANCE_OFFICER_ROLE sender;;
  require (negb (subj =? 0)) "Invalid subject";;
  require (0 <? N.of_nat (String.length ipfs)) "IPFS hash required";;
  require (negb (dh =? 0)) "Data hash required";;
  i ← checked_add (_tokenIdCounter st) 1;
  require (negb (sender =? 0)) "ERC721InvalidReceiver";;
  require (_ownerOf st i =? 0) "ERC721InvalidSender";;
  Ok (mkState (reports st) (subjectReports st) (issuerReports st) i
        (<[ i := sender ]> (owners st)) (roles st),
      i).

(** The second half: the report and the two index entries, written to
    the state the receiver callback left. *)
Definition writeReport (st : State) (sender : address) (now : uint256)
    (rt : ReportType) (subj : address) (ipfs : string) (dh : bytes32)
    (i : uint256) : State :=
  mkState
    (<[ i := mkComplianceReport i rt DRAFT subj sender now 0 0 ipfs dh false ]>
       (reports st))
    (pushId (subjectReports st) subj i)
    (pushId (issuerReports st) sender i)
    (_tokenIdCounter st) (owners st) (roles st).

(** A caller that is an externally owned account: [_safeMint] makes no
    callback. *)
Definition noReceiverHook (st : State) : result State := Ok st.

(** [createReport].  Between the mint and the write of the report,
    [_safeMint] calls [onERC721Received] on a caller that is a contract.
    The callback is the caller's code: [onERC721Received] is what it does
    to this contract, seen from the state after the mint; it reverts when
    the caller does not accept the token.  For an externally owned caller
    it is [noReceiverHook]. *)
Definition createReport (onERC721Received : State -> result State)
    (st : State) (sender : address) (now : uint256)
    (rt : ReportType) (subj : address) (ipfs : string) (dh : bytes32)
    : result (State * uint256) :=
  m ← mintReport st sender subj ipfs dh;
  st2 ← onERC721Received m.1;
  Ok (writeReport st2 sender now rt subj ipfs dh m.2, m.2).

Definition submitReport (st : State) (sender : address) (i : uint256)
    : result State :=
  let report := reports st !!! i in
  owner ← ownerOf st i;
  require (owner =? sender) "Not report owner";;
  require (bool_decide (status report = DRAFT)) "Report already submitted";;
  require (negb (isSealed report)) "Report is sealed";;
  Ok (setReport st i
        (mkComplianceReport (tokenId report) (reportType report) SUBMITTED
           (subject report) (issuer report) (timestamp report)
           (reviewTimestamp report) (reviewer report) (ipfsHash report)
           (dataHash report) (isSealed report))).

Definition reviewReport (st : State) (sender : address) (now : uint256)
    (i : uint256) (approve : bool) : result State :=
  onlyRole (roles st) AUDITOR_ROLE sender;;
  let report := reports st !!! i in
  require (bool_decide (status report = SUBMITTED)
           || bool_decide (status report = UNDER_REVIEW))
    "Report not ready for review";;
  require (negb (isSealed report)) "Report is sealed";;
  Ok (setReport st i
        (mkComplianceReport (tokenId report) (reportType report)
           (if approve then APPROVED else REJECTED)
           (subject report) (issuer report) (timestamp report)
           now sender (ipfsHash report) (dataHash report) (isSealed report))).

Definition sealReport (st : State) (sender : address) (i : uint256)
    : result State :=
  onlyRole (roles st) AUDITOR_ROLE sender;;
  let report := reports st !!! i in
  require (bool_decide (status report = APPROVED)) "Report must be approved";;
  require (negb (isSealed report)) "Report already sealed";;
  Ok (setReport st i
        (mkComplianceReport (tokenId report) (reportType report)
           (status report) (subject report) (issuer report) (timestamp report)
           (reviewTimestamp report) (reviewer report) (ipfsHash report)
           (dataHash report) true)).

Definition updateReportData (st : State) (sender : address) (i : uint256)
    (newIpfsHash : string) (newDataHash : bytes32) : result State :=
  let report := reports st !!! i in
  owner ← ownerOf st i;
  require (owner =? sender) "Not report owner";;
  require (negb (isSealed report)) "Report is sealed";;
  require (0 <? N.of_nat (String.length newIpfsHash)) "IPFS hash required";;
  Ok (setReport st i
        (mkComplianceReport (tokenId report) (reportType report)
           (status report) (subject report) (issuer report) (timestamp report)
           (reviewTimestamp report) (reviewer report) newIpfsHash newDataHash
           (isSealed report))).

Definition getSubjectReports (st : State) (subj : address) : list uint256 :=
  subjectReports st !!! subj.

Definition getIssuerReports (st : State) (iss : address) : list uint256 :=
  issuerReports st !!! iss.

Definition getReport (st : State) (i : uint256) : result ComplianceReport :=
  require (negb (_ownerOf st i =? 0)) "Report does not exist";;
  Ok (reports st !!! i).

Section Hashing.

(** [keccak256] of a byte string. *)
Variable keccak256 : list Byte.byte -> bytes32.

Definition verifyReportData (st : State) (i : uint256)
    (dataToVerify : list Byte.byte) : bool :=
  keccak256 dataToVerify =? dataHash (reports st !!! i).

End Hashing.

(** One successful state-changing call of the contract, and any number
    of them.  Whatever a receiver callback does to the contract it does
    through such calls, so a [createReport] is its mint, the calls made
    from the callback, and its write. *)
Inductive step : State -> State -> Prop :=
| step_grantRole st sender role account st' :
    grantRole st sender role account = Ok st' -> step st st'
| step_createReport st sender now rt subj ipfs dh mid i st2 :
    mintReport st sender subj ipfs dh = Ok (mid, i) ->
    steps mid st2 ->
    step st (writeReport st2 sender now rt subj ipfs dh i)
| step_submitReport st sender i st' :
    submitReport st sender i = Ok st' -> step st st'
| step_reviewReport st sender now i approve st' :
    reviewReport st sender now i approve = Ok st' -> step st st'
| step_sealReport st sender i st' :
    sealReport st sender i = Ok st' -> step st st'
| step_updateReportData st sender i ipfs dh st' :
    updateReportData st sender i ipfs dh = Ok st' -> step st st'
| step_erc721 st owners' :
    (* inherited token calls (transfers, approvals) move existing tokens
       between owners: no token appears or disappears; what a transfer's
       own receiver callback does are further calls *)
    (forall i, default 0 (owners' !! i) = 0 <-> _ownerOf st i = 0) ->
    step st (mkState (reports st) (subjectReports st) (issuerReports st)
               (_tokenIdCounter st) owners' (roles st))
| step_accessControl st roles' :
    (* inherited role calls (revoke, renounce) touch the role table only *)
    step st (mkState (reports st) (subjectReports st) (issuerReports st)
               (_tokenIdCounter st) (owners st) roles')
with steps : State -> State -> Prop :=
| steps_refl st : steps st st
| steps_cons st st' st'' : step st st' -> steps st' st'' -> steps st st''.

Scheme step_mutual := Minimality for step Sort Prop
  with steps_mutual := Minimality for steps Sort Prop.

Combined Scheme step_steps_mutual from step_mutual, steps_mutual.

(** The states the contract is in between calls: the deployed state and
    whatever completed calls lead to. *)
Inductive reachable : State -> Prop :=
| reachable_deployed deployer : reachable (constructor deployer)
| reachable_step st st' : reachable st -> step st st' -> reachable st'.

End RegulatoryNFT.

(** ** The decision list, as the specification words it

    The specification gives [checkTransaction] as an ordered list of rules
    of which the first that applies decides.  This module writes the list
    down in those terms, with unbounded arithmetic, to compare the
    contract's function with. *)

Module DecisionList.
Import ComplianceEnforcement.

Inductive Rule : Type :=
| EnforcementDisabled
| SenderWhitelisted
| SenderFrozen
| ReceiverFrozen
| SenderSanctioned
| ReceiverSanctioned
| SenderCritical
| ReceiverCritical
| SenderHigh
| DailyLimitExceeded
| Otherwise.

Definition precedence : list Rule :=
  [ EnforcementDisabled; SenderWhitelisted; SenderFrozen; ReceiverFrozen;
    SenderSanctioned; ReceiverSanctioned; SenderCritical; ReceiverCritical;
    SenderHigh; DailyLimitExceeded; Otherwise ].

Definition effectiveLimit (st : State) (account : address) : uint256 :=
  let s := accountStatuses st !!! account in
  if 0 <? dailyLimit s then dailyLimit s else defaultDailyLimit st.

Definition windowElapsed (st : State) (now : uint256) (account : address) : bool :=
  lastResetTimestamp (accountStatuses st !!! account) + ONE_DAY <=? now.

Definition comparedAmount (st : State) (now : uint256) (account : address)
    (amt : uint256) : N :=
  if windowElapsed st now account then amt
  else dailySpent (accountStatuses st !!! account) + amt.

Definition limitExceeded (st : State) (now : uint256) (account : address)
    (amt : uint256) : bool :=
  effectiveLimit st account <? comparedAmount st now account amt.

Definition applies (reg : RiskRegistry.State) (orc : ComplianceOracle.State)
    (st : State) (now : uint256) (frm to_ : address) (amt : uint256)
    (r : Rule) : bool :=
  match r with
  | EnforcementDisabled => negb (enforcementEnabled st)
  | SenderWhitelisted => whitelisted (accountStatuses st !!! frm)
  | SenderFrozen => frozen (accountStatuses st !!! frm)
  | ReceiverFrozen => frozen (accountStatuses st !!! to_)
  | SenderSanctioned => ComplianceOracle.isSanctioned orc frm
  | ReceiverSanctioned => ComplianceOracle.isSanctioned orc to_
  | SenderCritical =>
      bool_decide (RiskRegistry.getRiskLevel reg frm = RiskRegistry.CRITICAL)
  | ReceiverCritical =>
      bool_decide (RiskRegistry.getRiskLevel reg to_ = RiskRegistry.CRITICAL)
  | SenderHigh =>
      bool_decide (RiskRegistry.getRiskLevel reg frm = RiskRegistry.HIGH)
  | DailyLimitExceeded => limitExceeded st now frm amt
  | Otherwise => true
  end.

Definition verdict (r : Rule) : bool * EnforcementAction * string :=
  match r with
  | EnforcementDisabled => (true, NONE, "")
  | SenderWhitelisted => (true, NONE, "Whitelisted")
  | SenderFrozen => (false, FREEZE, "Account frozen")
  | ReceiverFrozen => (false, BLOCK, "Recipient frozen")
  | SenderSanctioned => (false, FREEZE, "Sender sanctioned")
  | ReceiverSanctioned => (false, BLOCK, "Recipient sanctioned")
  | SenderCritical => (false, FREEZE, "Critical risk - sender")
  | ReceiverCritical => (false, BLOCK, "Critical risk - recipient")
  | SenderHigh => (false, DELAY, "High risk - requires review")
  | DailyLimitExceeded => (false, LIMIT, "Daily limit exceeded")
  | Otherwise => (true, NONE, "")
  end.

Definition firstMatch (reg : RiskRegistry.State) (orc : ComplianceOracle.State)
    (st : State) (now : uint256) (frm to_ : address) (amt : uint256) : Rule :=
  default Otherwise
    (List.find (applies reg orc st now frm to_ amt) precedence).

(** The two rules that look at the spending window. *)
Definition readsSpending (r : Rule) : bool :=
  match r with
  | DailyLimitExceeded | Otherwise => true
  | _ => false
  end.

(** The sums the limit check forms stay within 256 bits. *)
Definition sumsFit (st : State) (now : uint256) (account : address)
    (amt : uint256) : bool :=
  let s := accountStatuses st !!! account in
  (lastResetTimestamp s + ONE_DAY <=? MAX_UINT256)
  && (windowElapsed st now account || (dailySpent s + amt <=? MAX_UINT256)).

End DecisionList.

(** ** Call sequences of the registry and of the monitor

    The calls that change a contract, as one step relation each, and the
    states a deployed contract can be in. *)

Module RiskRegistrySteps.
Import RiskRegistry.

Inductive step (st : State) : State -> Prop :=
| step_grantRole sender role account st' :
    grantRole st sender role account = Ok st' -> step st st'
| step_assessRisk sender now target lvl sc rsn st' :
    assessRisk st sender now target lvl sc rsn = Ok st' -> step st st'
| step_updateRiskScore sender now target sc st' :
    updateRiskScore st sender now target sc = Ok st' -> step st st'
| step_clearRisk sender target st' :
    clearRisk st sender target = Ok st' -> step st st'
| step_accessControl roles' :
    (* inherited role calls (revoke, renounce) touch the role table only *)
    step st (mkState (riskAssessments st) (addressesByRisk st)
               (totalAssessments st) roles').

Inductive reachable : State -> Prop :=
| reachable_deployed deployer : reachable (constructor deployer)
| reachable_step st st' : reachable st -> step st st' -> reachable st'.

End RiskRegistrySteps.

Module TransactionMonitorSteps.
Import TransactionMonitor.

(** The registry and the oracle a call meets are whatever they are at
    that moment. *)
Inductive step (st : State) : State -> Prop :=
| step_grantRole sender role account st' :
    grantRole st sender role account = Ok st' -> step st st'
| step_analyzeTransaction this reg orc sender now hash frm to_ amt p anomaly
    nts st' reg' :
    analyzeTransaction this reg orc st sender now hash frm to_ amt p anomaly
      nts = Ok (st', reg') -> step st st'
| step_resolveAlert sender alertId st' :
    resolveAlert st sender alertId = Ok st' -> step st st'
| step_updateThresholds sender high critical st' :
    updateThresholds st sender high critical = Ok st' -> step st st'
| step_accessControl roles' :
    step st (mkState (transactionAnalyses st) (addressTransactions st)
               (alerts st) (alertCounter st) (flaggedTransactionCount st)
               (highRiskThreshold st) (criticalRiskThreshold st)
               (rapidMovementWindow st) (highVolumeThreshold st) roles').

Inductive reachable : State -> Prop :=
| reachable_deployed deployer registryAddr oracleAddr st :
    constructor deployer registryAddr oracleAddr = Ok st -> reachable st
| reachable_step st st' : reachable st -> step st st' -> reachable st'.

End TransactionMonitorSteps.

Module ComplianceOracleSteps.
Import ComplianceOracle.

Section Hashing.

Variable keccak256_name_time : string -> uint256 -> bytes32.

Inductive step (st : State) : State -> Prop :=
| step_grantRole sender role account st' :
    grantRole st sender role account = Ok st' -> step st st'
| step_registerDataSource sender now nm ep st' i :
    registerDataSource keccak256_name_time st sender now nm ep = Ok (st', i) ->
    step st st'
| step_sanctionAddress this reg sender now target srcId rsn st' reg' :
    sanctionAddress this reg st sender now target srcId rsn = Ok (st', reg') ->
    step st st'
| step_clearSanction sender target st' :
    clearSanction st sender target = Ok st' -> step st st'
| step_performComplianceCheck this reg sender now target jur pep srcId st' reg' :
    performComplianceCheck this reg st sender now target jur pep srcId
    = Ok (st', reg') -> step st st'
| step_sanctionJurisdiction sender jur st' :
    sanctionJurisdiction st sender jur = Ok st' -> step st st'
| step_accessControl roles' :
    step st (mkState (sanctionedAddresses st) (sanctionedJurisdictions st)
               (dataSources st) (dataSourceIds st) (complianceChecks st)
               roles').

End Hashing.

End ComplianceOracleSteps.

(** ** The deployment of the integration tests

    [beforeEach] of the integration tests deploys the five contracts from
    one owner account and lets the oracle and the monitor write to the
    registry.  The test accounts and contract addresses are small numbers
    here.  Scenarios below start from this deployment. *)

Module Deployment.

Definition owner : address := 1.
Definition user1 : address := 2.
Definition user2 : address := 3.
Definition sanctioned : address := 4.

Definition registryAddress : address := 10.
Definition oracleAddress : address := 20.
Definition monitorAddress : address := 30.

Record World : Type := mkWorld {
  registry : RiskRegistry.State;
  oracle : ComplianceOracle.State;
  monitor : TransactionMonitor.State;
  enforcement : ComplianceEnforcement.State;
  nft : RegulatoryNFT.State
}.

Definition beforeEach : result World :=
  let reg := RiskRegistry.constructor owner in
  orc ← ComplianceOracle.constructor owner registryAddress;
  mon ← TransactionMonitor.constructor owner registryAddress oracleAddress;
  enf ← ComplianceEnforcement.constructor owner registryAddress oracleAddress
          monitorAddress;
  reg ← RiskRegistry.grantRole reg owner RiskRegistry.ORACLE_ROLE oracleAddress;
  reg ← RiskRegistry.grantRole reg owner RiskRegistry.ORACLE_ROLE monitorAddress;
  mon ← TransactionMonitor.grantRole mon owner TransactionMonitor.AI_ORACLE_ROLE
          owner;
  orc ← ComplianceOracle.grantRole orc owner ComplianceOracle.ORACLE_UPDATER_ROLE
          owner;
  Ok (mkWorld reg orc mon enf (RegulatoryNFT.constructor owner)).

(** A contract account that deployed the report contract, and so holds
    its three roles, and whose [onERC721Received] submits, approves and
    seals the token it is handed.  [m] is the report contract's state
    when the callback runs; the token is the one just counted. *)
Definition reportDesk : address := 60.

Definition reportDesk_onERC721Received (now : uint256)
    (m : RegulatoryNFT.State) : result RegulatoryNFT.State :=
  let tokenId := RegulatoryNFT._tokenIdCounter m in
  s1 ← RegulatoryNFT.submitReport m reportDesk tokenId;
  s2 ← RegulatoryNFT.reviewReport s1 reportDesk now tokenId true;
  RegulatoryNFT.sealReport s2 reportDesk tokenId.

(** Stand-ins for keccak256, which the scenarios need only as some
    function of the hashed fields. *)
Definition hash_name_time (nm : string) (t : uint256) : bytes32 :=
  N.of_nat (String.length nm) + t.

Definition hash_delayed (frm to_ : address) (amt t : uint256) : bytes32 :=
  ((frm * 1000 + to_) * 1000 + amt) * 1000 + t.

End Deployment.

(** * Properties *)

(** ** Reasoning about call results *)

Lemma require_ok c msg : require c msg = Ok tt <-> c = true.
Proof. destruct c; simpl; split; intros; congruence. Qed.

Lemma is_ok_inv {A} (r : result A) : is_ok r = true -> exists a, r = Ok a.
Proof. destruct r as [a|e]; simpl; [eauto | discriminate]. Qed.

Lemma bind_ok_inv {A B} (r : result A) (f : A -> result B) (b : B) :
  (r ≫= f) = Ok b -> exists a, r = Ok a /\ f a = Ok b.
Proof. destruct r as [a|e]; simpl; [eauto | discriminate]. Qed.

Lemma require_bind_inv {B} c msg (k : result B) (b : B) :
  (require c msg;; k) = Ok b -> c = true /\ k = Ok b.
Proof. destruct c; simpl; [auto | discriminate]. Qed.

Lemma require_bind_true {B} c msg (k : result B) :
  c = true -> (require c msg;; k) = k.
Proof. intros ->. reflexivity. Qed.

Lemma require_bind_false {B} c msg (k : result B) :
  c = false -> (require c msg;; k) = Revert msg.
Proof. intros ->. reflexivity. Qed.

Lemma checked_add_ok a b : a + b <= MAX_UINT256 -> checked_add a b = Ok (a + b).
Proof. intros H. unfold checked_add. apply N.leb_le in H. now rewrite H. Qed.

Lemma checked_add_inv a b c :
  checked_add a b = Ok c -> c = a + b /\ a + b <= MAX_UINT256.
Proof.
  unfold checked_add. destruct (a + b <=? MAX_UINT256) eqn:E; intros H; inversion H.
  split; [reflexivity | now apply N.leb_le].
Qed.

Lemma checked_add_overflow a b :
  MAX_UINT256 < a + b -> checked_add a b = Revert PANIC_OVERFLOW.
Proof. intros H. unfold checked_add. apply N.leb_gt in H. now rewrite H. Qed.

(** Peel the guards off a call known to have succeeded. *)
Ltac inv_ok :=
  repeat match goal with
  | H : (require _ _;; _) = Ok _ |- _ =>
      apply require_bind_inv in H; destruct H as [? H]
  | H : (AccessControl.onlyRole _ _ _;; _) = Ok _ |- _ =>
      apply require_bind_inv in H; destruct H as [? H]
  | H : (_ ≫= _) = Ok _ |- _ =>
      apply bind_ok_inv in H; destruct H as (? & ? & H)
  | H : Ok _ = Ok _ |- _ => injection H as H; subst
  | H : Revert _ = Ok _ |- _ => discriminate H
  | H : (if ?c then _ else _) = Ok _ |- _ => destruct c eqn:?
  end.

(** What a successful run lets one observe can be found by running it. *)
Lemma run_observe {A B} (r : result A) (f : A -> B) (a : A) (v : B) :
  r = Ok a -> (x ← r; Ok (f x)) = Ok v -> f a = v.
Proof. intros ->. simpl. congruence. Qed.

Ltac observe H :=
  match type of H with
  | ?r = Ok ?a =>
      match goal with
      | |- ?lhs = ?v =>
          let p := eval pattern a in lhs in
          match p with
          | ?F a => refine (run_observe r F a v H _); vm_compute; reflexivity
          end
      end
  end.

Lemma hasRole_grant roles role account :
  AccessControl.hasRole (AccessControl._grantRole roles role account) role account
  = true.
Proof.
  unfold AccessControl.hasRole, AccessControl._grantRole.
  apply bool_decide_eq_true. set_solver.
Qed.

(** ** RiskRegistry: what an assessment stores *)

Module RiskRegistryFacts.
Import RiskRegistry.

Lemma scoreToLevel_CRITICAL s : _scoreToLevel s = CRITICAL <-> 90 <= s.
Proof.
  unfold _scoreToLevel.
  repeat match goal with |- context [?a <=? ?b] => destruct (N.leb_spec a b) end;
    split; intros; try discriminate; try reflexivity; lia.
Qed.

Lemma scoreToLevel_HIGH s : _scoreToLevel s = HIGH <-> 70 <= s < 90.
Proof.
  unfold _scoreToLevel.
  repeat match goal with |- context [?a <=? ?b] => destruct (N.leb_spec a b) end;
    split; intros; try discriminate; try reflexivity; lia.
Qed.

Lemma scoreToLevel_MEDIUM s : _scoreToLevel s = MEDIUM <-> 40 <= s < 70.
Proof.
  unfold _scoreToLevel.
  repeat match goal with |- context [?a <=? ?b] => destruct (N.leb_spec a b) end;
    split; intros; try discriminate; try reflexivity; lia.
Qed.

Lemma scoreToLevel_LOW s : _scoreToLevel s = LOW <-> 10 <= s < 40.
Proof.
  unfold _scoreToLevel.
  repeat match goal with |- context [?a <=? ?b] => destruct (N.leb_spec a b) end;
    split; intros; try discriminate; try reflexivity; lia.
Qed.

Lemma scoreToLevel_NONE s : _scoreToLevel s = NONE <-> s < 10.
Proof.
  unfold _scoreToLevel.
  repeat match goal with |- context [?a <=? ?b] => destruct (N.leb_spec a b) end;
    split; intros; try discriminate; try reflexivity; lia.
Qed.

(** The monitor's copy of the table is the registry's. *)
Lemma scoreToRiskLevel_eq s : TransactionMonitor._scoreToRiskLevel s = _scoreToLevel s.
Proof. reflexivity. Qed.

(** A successful [assessRisk] stores exactly its arguments. *)
Lemma assessRisk_stored st sender now target lvl sc rsn st' :
  assessRisk st sender now target lvl sc rsn = Ok st' ->
  riskAssessments st' !!! target = mkRiskAssessment lvl sc now rsn sender true.
Proof.
  unfold assessRisk. intros H. inv_ok; simpl; apply lookup_total_insert_eq.
Qed.

Lemma assessRisk_guards st sender now target lvl sc rsn st' :
  assessRisk st sender now target lvl sc rsn = Ok st' ->
  AccessControl.hasRole (roles st) ORACLE_ROLE sender = true
  /\ target <> 0 /\ sc <= 100 /\ rsn <> "".
Proof.
  unfold assessRisk. intros H.
  apply require_bind_inv in H as [Hrole H].
  apply require_bind_inv in H as [Htgt H].
  apply require_bind_inv in H as [Hsc H].
  apply require_bind_inv in H as [Hrsn H].
  repeat split.
  - exact Hrole.
  - intros ->. discriminate Htgt.
  - now apply N.leb_le.
  - intros ->. discriminate Hrsn.
Qed.

(** The guards are also sufficient, up to the assessment counter. *)
Lemma assessRisk_succeeds st sender now target lvl sc rsn :
  AccessControl.hasRole (roles st) ORACLE_ROLE sender = true ->
  target <> 0 -> sc <= 100 -> rsn <> "" ->
  totalAssessments st < MAX_UINT256 ->
  exists st', assessRisk st sender now target lvl sc rsn = Ok st'.
Proof.
  intros Hrole Htgt Hsc Hrsn Hcnt. unfold assessRisk, AccessControl.onlyRole.
  rewrite !require_bind_true.
  - destruct (decide _).
    + rewrite checked_add_ok by lia. simpl. eauto.
    + simpl. eauto.
  - destruct rsn; [congruence | reflexivity].
  - now apply N.leb_le.
  - apply negb_true_iff, N.eqb_neq, Htgt.
  - exact Hrole.
Qed.

Lemma assessRisk_getRiskScore st sender now target lvl sc rsn st' :
  assessRisk st sender now target lvl sc rsn = Ok st' ->
  getRiskScore st' target = sc.
Proof.
  intros H. unfold getRiskScore. now rewrite (assessRisk_stored _ _ _ _ _ _ _ _ H).
Qed.

Lemma assessRisk_getRiskLevel st sender now target lvl sc rsn st' :
  assessRisk st sender now target lvl sc rsn = Ok st' ->
  getRiskLevel st' target = lvl.
Proof.
  intros H. unfold getRiskLevel. now rewrite (assessRisk_stored _ _ _ _ _ _ _ _ H).
Qed.

(** [updateRiskScore] is the write that derives the level from the score. *)
Lemma updateRiskScore_consistent st sender now target newScore st' :
  updateRiskScore st sender now target newScore = Ok st' ->
  getRiskScore st' target = newScore
  /\ getRiskLevel st' target = _scoreToLevel newScore.
Proof.
  unfold updateRiskScore. intros H.
  apply require_bind_inv in H as [_ H].
  apply require_bind_inv in H as [_ H].
  apply require_bind_inv in H as [Hact H].
  unfold getRiskScore, getRiskLevel.
  destruct (decide _) as [Hne|Heq]; injection H as <-; simpl;
    rewrite !lookup_total_insert_eq; simpl; rewrite Hact; split; try reflexivity.
  apply dec_stable in Heq. congruence.
Qed.

End RiskRegistryFacts.

Module RiskLedgerClaims.
Import RiskRegistry RiskRegistryFacts.

(** C2, as the code has it.  After a successful
    [assessRisk account lvl s rsn] the score read back is [s] (which is at
    most 100, with a non-empty reason) and the level read back is the
    level argument [lvl] itself, whatever [s] is: it agrees with the
    score-to-level table exactly when the caller passed the table's level.
    The table has its boundaries at 9/10, 39/40, 69/70 and 89/90, and
    [updateRiskScore] is the write that re-derives the level from it. *)
Theorem assessRisk_reads_back :
  (forall st sender now account lvl s rsn st',
     assessRisk st sender now account lvl s rsn = Ok st' ->
     s <= 100 /\ rsn <> ""
     /\ getRiskScore st' account = s
     /\ getRiskLevel st' account = lvl
     /\ (getRiskLevel st' account = _scoreToLevel s <-> lvl = _scoreToLevel s))
  /\ (forall s, _scoreToLevel s =
        if decide (90 <= s) then CRITICAL
        else if decide (70 <= s) then HIGH
        else if decide (40 <= s) then MEDIUM
        else if decide (10 <= s) then LOW
        else NONE)
  /\ (_scoreToLevel 9 = NONE /\ _scoreToLevel 10 = LOW
      /\ _scoreToLevel 39 = LOW /\ _scoreToLevel 40 = MEDIUM
      /\ _scoreToLevel 69 = MEDIUM /\ _scoreToLevel 70 = HIGH
      /\ _scoreToLevel 89 = HIGH /\ _scoreToLevel 90 = CRITICAL)
  /\ (forall st sender now account s st',
        updateRiskScore st sender now account s = Ok st' ->
        getRiskScore st' account = s
        /\ getRiskLevel st' account = _scoreToLevel s).
Proof.
  split; [|split; [|split]].
  - intros st sender now account lvl s rsn st' H.
    destruct (assessRisk_guards _ _ _ _ _ _ _ _ H) as (_ & _ & Hs & Hr).
    pose proof (assessRisk_getRiskScore _ _ _ _ _ _ _ _ H) as Hscore.
    pose proof (assessRisk_getRiskLevel _ _ _ _ _ _ _ _ H) as Hlevel.
    rewrite Hlevel. tauto.
  - intros s. unfold _scoreToLevel.
    repeat (case_decide; [rewrite (proj2 (N.leb_le _ _)) by lia; try reflexivity
                         | rewrite (proj2 (N.leb_gt _ _)) by lia]);
      reflexivity.
  - repeat split.
  - intros st sender now account s st' H.
    exact (updateRiskScore_consistent _ _ _ _ _ _ H).
Qed.

(** A run of the theorem: the deployer (account 1) scores account 5 at 55,
    MEDIUM, as the integration test does. *)
Lemma assessRisk_reads_back_witness :
  exists st',
    assessRisk (constructor 1) 1 1000 5 MEDIUM 55 "Suspicious pattern detected"
    = Ok st'
    /\ getRiskScore st' 5 = 55 /\ getRiskLevel st' 5 = MEDIUM.
Proof.
  destruct (assessRisk_succeeds (constructor 1) 1 1000 5 MEDIUM 55
              "Suspicious pattern detected") as [st' H];
    [reflexivity | lia | lia | discriminate | vm_compute; reflexivity |].
  exists st'. split; [exact H|].
  destruct assessRisk_reads_back as [Hread _].
  destruct (Hread _ _ _ _ _ _ _ _ H) as (_ & _ & Hs & Hl & _).
  split; assumption.
Defined.

(** C2 as stated fails: the oracle scores account 5 at 95 and passes level
    NONE; the call succeeds and the level read back is NONE, not the
    table's CRITICAL. *)
Lemma assessRisk_level_not_from_table :
  (st' ← assessRisk (constructor 1) 1 1000 5 NONE 95 "manual override";
   Ok (getRiskScore st' 5, getRiskLevel st' 5)) = Ok (95, NONE)
  /\ _scoreToLevel 95 = CRITICAL.
Proof. split; vm_compute; reflexivity. Qed.

End RiskLedgerClaims.

(** ** ComplianceOracle: sanctioning *)

Module ComplianceOracleFacts.
Import ComplianceOracle.

Lemma sanctionAddress_effect this reg st sender now target srcId rsn st' reg' :
  sanctionAddress this reg st sender now target srcId rsn = Ok (st', reg') ->
  active (dataSources st !!! srcId) = true
  /\ isSanctioned st' target = true
  /\ RiskRegistry.assessRisk reg this now target RiskRegistry.CRITICAL 100 rsn
     = Ok reg'.
Proof.
  unfold sanctionAddress. intros H.
  apply require_bind_inv in H as [_ H].
  apply require_bind_inv in H as [_ H].
  apply require_bind_inv in H as [Hsrc H].
  apply bind_ok_inv in H as (r & Hassess & H).
  injection H as <- <-.
  split; [exact Hsrc|]. split; [|exact Hassess].
  unfold isSanctioned. simpl. now rewrite lookup_insert_eq.
Qed.

End ComplianceOracleFacts.

Module ComplianceBridgeClaims.
Import ComplianceOracle.

(** C4.  Whatever the registry and the oracle held before, a successful
    [sanctionAddress target srcId rsn] was given an active data source,
    leaves [target] sanctioned, and has written CRITICAL/100 for it into
    the registry in the same call: the registry it returns is the result
    of that [assessRisk], so the two writes succeed or fail together. *)
Theorem sanctionAddress_forces_critical
    this reg st sender now target srcId rsn st' reg' :
  sanctionAddress this reg st sender now target srcId rsn = Ok (st', reg') ->
  active (dataSources st !!! srcId) = true
  /\ isSanctioned st' target = true
  /\ RiskRegistry.getRiskLevel reg' target = RiskRegistry.CRITICAL
  /\ RiskRegistry.getRiskScore reg' target = 100
  /\ RiskRegistry.assessRisk reg this now target RiskRegistry.CRITICAL 100 rsn
     = Ok reg'.
Proof.
  intros H.
  apply ComplianceOracleFacts.sanctionAddress_effect in H
    as (Hsrc & Hsan & Hassess).
  split; [exact Hsrc|]. split; [exact Hsan|]. split; [|split].
  - exact (RiskRegistryFacts.assessRisk_getRiskLevel _ _ _ _ _ _ _ _ Hassess).
  - exact (RiskRegistryFacts.assessRisk_getRiskScore _ _ _ _ _ _ _ _ Hassess).
  - exact Hassess.
Qed.

End ComplianceBridgeClaims.

Module ComplianceBridgeRuns.
Import ComplianceOracle Deployment.

(** A run of C4's theorem, as in the integration test: register the OFAC
    source, sanction an account that had no risk record. *)
Lemma sanctionAddress_forces_critical_witness :
  exists st' reg',
    (w ← beforeEach;
     r ← registerDataSource hash_name_time (oracle w) owner 1000
           "OFAC" "https://ofac.treasury.gov";
     sanctionAddress oracleAddress (registry w) r.1 owner 1001 sanctioned r.2
       "OFAC sanctioned entity") = Ok (st', reg')
    /\ isSanctioned st' sanctioned = true
    /\ RiskRegistry.getRiskLevel reg' sanctioned = RiskRegistry.CRITICAL
    /\ RiskRegistry.getRiskScore reg' sanctioned = 100.
Proof.
  match goal with
  | |- exists st' reg', ?run = _ /\ _ =>
      destruct (is_ok_inv run) as [[st' reg'] H]; [vm_compute; reflexivity|]
  end.
  exists st', reg'. split; [exact H|].
  apply bind_ok_inv in H as (w & _ & H).
  apply bind_ok_inv in H as (r & _ & H).
  destruct (ComplianceBridgeClaims.sanctionAddress_forces_critical
              _ _ _ _ _ _ _ _ _ _ H) as (_ & Hs & Hl & Hsc & _).
  auto.
Defined.

End ComplianceBridgeRuns.

(** ** ComplianceEnforcement: the decision function *)

Module EnforcementFacts.
Import ComplianceEnforcement DecisionList.

(** The limit check against the specification's wording. *)
Lemma checkDailyLimit_spec st now account amt :
  _checkDailyLimit st now account amt =
  if sumsFit st now account amt
  then Ok (limitExceeded st now account amt)
  else Revert PANIC_OVERFLOW.
Proof.
  unfold _checkDailyLimit, sumsFit, limitExceeded, comparedAmount,
    effectiveLimit, windowElapsed, checked_add.
  set (s := accountStatuses st !!! account).
  destruct (lastResetTimestamp s + ONE_DAY <=? MAX_UINT256); simpl;
    [|reflexivity].
  destruct (lastResetTimestamp s + ONE_DAY <=? now); simpl; [reflexivity|].
  destruct (dailySpent s + amt <=? MAX_UINT256); reflexivity.
Qed.

Lemma getStatus_setStatus st account s :
  accountStatuses (setStatus st account s) !!! account = s.
Proof. simpl. apply lookup_total_insert_eq. Qed.

Lemma getStatus_setStatus_ne st account other s :
  account <> other ->
  accountStatuses (setStatus st account s) !!! other
  = accountStatuses st !!! other.
Proof. intros H. simpl. now apply lookup_total_insert_ne. Qed.

Lemma getDelayed_setDelayed st i d :
  delayedTransactions (setDelayed st i d) !!! i = d.
Proof. simpl. apply lookup_total_insert_eq. Qed.

(** The contract's function against the decision list. *)
Lemma checkTransaction_decision_list reg orc st now frm to_ amt :
  checkTransaction reg orc st now frm to_ amt =
  let r := firstMatch reg orc st now frm to_ amt in
  if readsSpending r && negb (sumsFit st now frm amt)
  then Revert PANIC_OVERFLOW
  else Ok (verdict r).
Proof.
  unfold checkTransaction, firstMatch, precedence. cbn [List.find applies].
  destruct (enforcementEnabled st); cbn; [|reflexivity].
  destruct (whitelisted _); cbn; [reflexivity|].
  destruct (frozen (accountStatuses st !!! frm)); cbn; [reflexivity|].
  destruct (frozen (accountStatuses st !!! to_)); cbn; [reflexivity|].
  destruct (ComplianceOracle.isSanctioned orc frm); cbn; [reflexivity|].
  destruct (ComplianceOracle.isSanctioned orc to_); cbn; [reflexivity|].
  destruct (bool_decide (RiskRegistry.getRiskLevel reg frm = _)); cbn;
    [reflexivity|].
  destruct (bool_decide (RiskRegistry.getRiskLevel reg to_ = _)); cbn;
    [reflexivity|].
  destruct (bool_decide (RiskRegistry.getRiskLevel reg frm = _)); cbn;
    [reflexivity|].
  rewrite checkDailyLimit_spec.
  destruct (sumsFit st now frm amt); cbn.
  - destruct (limitExceeded st now frm amt); reflexivity.
  - destruct (limitExceeded st now frm amt); reflexivity.
Qed.

End EnforcementFacts.

Module EnforcementClaims.
Import ComplianceEnforcement DecisionList EnforcementFacts.

(** C1, as the code has it.  [checkTransaction] returns the verdict of the
    first rule of the precedence list that applies, for every sender,
    receiver and amount, except that when none of the first nine rules
    applies and a sum formed by the daily-limit check leaves the 256-bit
    range the call reverts with an arithmetic panic instead of returning.
    In particular a whitelisted sender with CRITICAL risk and an active
    sanction gets [(true, NONE, "Whitelisted")]. *)
Theorem checkTransaction_first_match :
  (forall reg orc st now frm to_ amt,
     checkTransaction reg orc st now frm to_ amt =
     let r := firstMatch reg orc st now frm to_ amt in
     if readsSpending r && negb (sumsFit st now frm amt)
     then Revert PANIC_OVERFLOW
     else Ok (verdict r))
  /\ (forall reg orc st now frm to_ amt,
        enforcementEnabled st = true ->
        whitelisted (accountStatuses st !!! frm) = true ->
        RiskRegistry.getRiskLevel reg frm = RiskRegistry.CRITICAL ->
        ComplianceOracle.isSanctioned orc frm = true ->
        checkTransaction reg orc st now frm to_ amt
        = Ok (true, NONE, "Whitelisted")).
Proof.
  split.
  - exact checkTransaction_decision_list.
  - intros reg orc st now frm to_ amt Hen Hwl _ _.
    unfold checkTransaction. now rewrite Hen, Hwl.
Qed.

(** C3, as the code has it.  A successful [freezeAccount] sets the frozen
    flag and leaves the whitelist flag alone; with enforcement enabled,
    [checkTransaction] from the frozen account then returns
    [(false, FREEZE, "Account frozen")] for every receiver and amount when
    the account is not whitelisted, and [(true, NONE, "Whitelisted")] when
    it is: the whitelist rule comes first. *)
Theorem freeze_denies_unless_whitelisted st sender now account rsn st' :
  freezeAccount st sender now account rsn = Ok st' ->
  frozen (accountStatuses st' !!! account) = true
  /\ whitelisted (accountStatuses st' !!! account)
     = whitelisted (accountStatuses st !!! account)
  /\ enforcementEnabled st' = enforcementEnabled st
  /\ forall reg orc now' to_ amt,
       enforcementEnabled st = true ->
       checkTransaction reg orc st' now' account to_ amt =
       if whitelisted (accountStatuses st !!! account)
       then Ok (true, NONE, "Whitelisted")
       else Ok (false, FREEZE, "Account frozen").
Proof.
  unfold freezeAccount. intros H.
  apply require_bind_inv in H as [_ H].
  apply require_bind_inv in H as [_ H].
  injection H as <-.
  rewrite getStatus_setStatus. cbn [frozen whitelisted setStatus enforcementEnabled].
  repeat split.
  intros reg orc now' to_ amt Hen.
  unfold checkTransaction. cbn [enforcementEnabled accountStatuses setStatus].
  rewrite Hen, lookup_total_insert_eq. cbn.
  destruct (whitelisted (accountStatuses st !!! account)); reflexivity.
Qed.

(** C8.  For the record stored under any id: execution fails before
    approval; fails after approval while the time is before [delayUntil];
    succeeds when approved, not executed and the time has reached
    [delayUntil], after which every further execution fails; approval
    fails once the record is executed or approved. *)
Theorem delayed_transaction_lifecycle st i :
  let dtx := delayedTransactions st !!! i in
  (approved dtx = false ->
   forall now, executeDelayedTransaction st now i = Revert "Not approved")
  /\ (approved dtx = true -> executed dtx = false ->
      forall now, now < delayUntil dtx ->
      executeDelayedTransaction st now i = Revert "Still delayed")
  /\ (approved dtx = true -> executed dtx = false ->
      forall now, delayUntil dtx <= now ->
      exists st',
        executeDelayedTransaction st now i = Ok st'
        /\ executed (delayedTransactions st' !!! i) = true
        /\ forall now', executeDelayedTransaction st' now' i
                        = Revert "Already executed")
  /\ (executed dtx = true ->
      forall now, is_ok (executeDelayedTransaction st now i) = false)
  /\ (forall sender,
        AccessControl.hasRole (roles st) ENFORCER_ROLE sender = true ->
        (executed dtx = true ->
         approveDelayedTransaction st sender i = Revert "Already executed")
        /\ (executed dtx = false -> approved dtx = true ->
            approveDelayedTransaction st sender i = Revert "Already approved"))
  /\ (executed dtx = true \/ approved dtx = true ->
      forall sender, is_ok (approveDelayedTransaction st sender i) = false).
Proof.
  intros dtx. subst dtx.
  unfold executeDelayedTransaction, approveDelayedTransaction. cbv zeta.
  repeat split.
  - intros Ha now. now rewrite Ha.
  - intros Ha He now Hnow. rewrite Ha, He. cbn.
    apply N.leb_gt in Hnow. now rewrite Hnow.
  - intros Ha He now Hnow. rewrite Ha, He. cbn.
    apply N.leb_le in Hnow. rewrite Hnow. cbn.
    eexists. split; [reflexivity|].
    unfold setDelayed. cbn [delayedTransactions].
    rewrite lookup_total_insert_eq. cbn. split; reflexivity.
  - intros He now. rewrite He. now destruct (approved _).
  - intros He. unfold AccessControl.onlyRole. now rewrite H, He.
  - intros He Ha. unfold AccessControl.onlyRole. now rewrite H, He, Ha.
  - intros Hor sender. unfold AccessControl.onlyRole.
    destruct (AccessControl.hasRole _ _ _); cbn; [|reflexivity].
    destruct (executed _); cbn; [reflexivity|].
    destruct Hor as [Hor|Hor]; [discriminate|]. now rewrite Hor.
Qed.

(** C9, as the code has it.  The limit check takes the account's own
    [dailyLimit] when it is positive and the global default otherwise; it
    compares the amount alone once the time has reached
    [lastResetTimestamp + 1 days] and [dailySpent + amount] before, and
    reports the limit exceeded when the compared sum is above the limit,
    as long as the sums it forms stay within 256 bits; when one does not,
    the check reverts with an arithmetic panic.  [checkTransaction]
    answers LIMIT or allows on that report when no earlier rule applies.
    With limit 100, after [recordSpending account 95], a transfer of 10
    inside the window is denied with LIMIT and the same transfer once the
    window has elapsed is allowed. *)
Theorem daily_limit_window :
  (forall st now account amt,
     effectiveLimit st account =
       (if decide (0 < dailyLimit (accountStatuses st !!! account))
        then dailyLimit (accountStatuses st !!! account)
        else defaultDailyLimit st)
     /\ comparedAmount st now account amt =
       (if decide (lastResetTimestamp (accountStatuses st !!! account)
                   + ONE_DAY <= now)
        then amt
        else dailySpent (accountStatuses st !!! account) + amt)
     /\ _checkDailyLimit st now account amt =
       (if sumsFit st now account amt
        then Ok (bool_decide (effectiveLimit st account
                              < comparedAmount st now account amt))
        else Revert PANIC_OVERFLOW))
  /\ (forall reg orc st now frm to_ amt,
        readsSpending (firstMatch reg orc st now frm to_ amt) = true ->
        checkTransaction reg orc st now frm to_ amt =
        (exceeded ← _checkDailyLimit st now frm amt;
         if (exceeded : bool) then Ok (false, LIMIT, "Daily limit exceeded")
         else Ok (true, NONE, "")))
  /\ (forall reg orc st sender sender' t account to_ st1 st2,
        setDailyLimit st sender account 100 = Ok st1 ->
        recordSpending st1 sender' t account 95 = Ok st2 ->
        let s2 := accountStatuses st2 !!! account in
        dailyLimit s2 = 100 /\ 95 <= dailySpent s2
        /\ forall now,
             readsSpending (firstMatch reg orc st2 now account to_ 10) = true ->
             lastResetTimestamp s2 + ONE_DAY <= MAX_UINT256 ->
             (now < lastResetTimestamp s2 + ONE_DAY ->
              dailySpent s2 + 10 <= MAX_UINT256 ->
              checkTransaction reg orc st2 now account to_ 10
              = Ok (false, LIMIT, "Daily limit exceeded"))
             /\ (lastResetTimestamp s2 + ONE_DAY <= now ->
                 checkTransaction reg orc st2 now account to_ 10
                 = Ok (true, NONE, ""))).
Proof.
  split; [|split].
  - intros st now account amt. split; [|split].
    + unfold effectiveLimit. case_decide as H.
      * apply N.ltb_lt in H. now rewrite H.
      * apply N.nlt_ge, N.ltb_ge in H. now rewrite H.
    + unfold comparedAmount, windowElapsed. case_decide as H.
      * apply N.leb_le in H. now rewrite H.
      * apply N.nle_gt, N.leb_gt in H. now rewrite H.
    + rewrite checkDailyLimit_spec. unfold limitExceeded.
      destruct (sumsFit st now account amt); [|reflexivity].
      f_equal. destruct (N.ltb_spec (effectiveLimit st account)
                           (comparedAmount st now account amt)) as [H|H].
      * symmetry. now apply bool_decide_eq_true.
      * symmetry. apply bool_decide_eq_false. lia.
  - intros reg orc st now frm to_ amt.
    rewrite checkTransaction_decision_list. cbn zeta.
    rewrite checkDailyLimit_spec.
    unfold firstMatch, precedence. cbn [List.find applies].
    repeat match goal with
           | |- context [if ?c then Some _ else _] =>
               destruct c eqn:?; cbn; try discriminate
           end; intros _.
    + destruct (sumsFit st now frm amt); reflexivity.
    + destruct (sumsFit st now frm amt); reflexivity.
  - intros reg orc st sender sender' t account to_ st1 st2 Hset Hrec s2.
    unfold setDailyLimit in Hset. apply require_bind_inv in Hset as [_ Hset].
    injection Hset as <-.
    unfold recordSpending in Hrec. apply require_bind_inv in Hrec as [_ Hrec].
    rewrite getStatus_setStatus in Hrec. cbn in Hrec.
    apply bind_ok_inv in Hrec as (windowEnd & _ & Hrec).
    assert (Hs2 : dailyLimit s2 = 100 /\ 95 <= dailySpent s2).
    { subst s2. destruct (windowEnd <=? t).
      - injection Hrec as <-. rewrite getStatus_setStatus. cbn. split; [reflexivity|lia].
      - apply bind_ok_inv in Hrec as (spent & Hadd & Hrec). injection Hrec as <-.
        rewrite getStatus_setStatus. cbn. apply checked_add_inv in Hadd. lia. }
    destruct Hs2 as [Hlim Hspent]. split; [exact Hlim|]. split; [exact Hspent|].
    intros now Hrules Hfit.
    pose proof checkTransaction_decision_list as Heq.
    assert (Heff : effectiveLimit st2 account = 100).
    { unfold effectiveLimit. fold s2. now rewrite Hlim. }
    split.
    + intros Hin Hsum.
      assert (Hw : windowElapsed st2 now account = false).
      { unfold windowElapsed. fold s2. apply N.leb_gt. exact Hin. }
      assert (Hsf : sumsFit st2 now account 10 = true).
      { unfold sumsFit. fold s2. rewrite Hw.
        apply andb_true_iff. split; apply N.leb_le; assumption. }
      assert (Hex : limitExceeded st2 now account 10 = true).
      { unfold limitExceeded, comparedAmount. fold s2. rewrite Hw, Heff.
        apply N.ltb_lt. lia. }
      rewrite Heq. cbn zeta. rewrite Hsf, andb_false_r.
      revert Hrules. unfold firstMatch, precedence. cbn [List.find applies].
      rewrite Hex.
      repeat match goal with
             | |- context [if ?c then Some _ else _] =>
                 destruct c eqn:?; cbn; try discriminate
             end; reflexivity.
    + intros Hout.
      assert (Hw : windowElapsed st2 now account = true).
      { unfold windowElapsed. fold s2. apply N.leb_le. exact Hout. }
      assert (Hsf : sumsFit st2 now account 10 = true).
      { unfold sumsFit. fold s2. rewrite Hw.
        apply andb_true_iff. split; [apply N.leb_le; assumption|reflexivity]. }
      assert (Hex : limitExceeded st2 now account 10 = false).
      { unfold limitExceeded, comparedAmount. fold s2. rewrite Hw, Heff.
        reflexivity. }
      rewrite Heq. cbn zeta. rewrite Hsf, andb_false_r.
      revert Hrules. unfold firstMatch, precedence. cbn [List.find applies].
      rewrite Hex.
      repeat match goal with
             | |- context [if ?c then Some _ else _] =>
                 destruct c eqn:?; cbn; try discriminate
             end; reflexivity.
Qed.

Section DelayedIds.

Variable keccak256_delayed : address -> address -> uint256 -> uint256 -> bytes32.

Lemma createDelayedTransaction_effect st sender now frm to_ amt dat st' i :
  createDelayedTransaction keccak256_delayed st sender now frm to_ amt dat
  = Ok (st', i) ->
  i = keccak256_delayed frm to_ amt now
  /\ delayedTransactions st' !!! i
     = mkDelayedTransaction i frm to_ amt dat (now + delayPeriod st)
         false false 0
  /\ accountDelayedTxs st' !!! frm
     = (accountDelayedTxs st !!! frm ++ [i])%list
  /\ delayPeriod st' = delayPeriod st.
Proof.
  unfold createDelayedTransaction. intros H.
  apply require_bind_inv in H as [_ H].
  apply bind_ok_inv in H as (until & Hadd & H).
  apply checked_add_inv in Hadd as [-> _].
  injection H as <- <-. cbn.
  rewrite !lookup_total_insert_eq. auto.
Qed.

Lemma approveDelayedTransaction_effect st sender i st' :
  approveDelayedTransaction st sender i = Ok st' ->
  approved (delayedTransactions st' !!! i) = true
  /\ accountDelayedTxs st' = accountDelayedTxs st
  /\ delayPeriod st' = delayPeriod st.
Proof.
  unfold approveDelayedTransaction. intros H.
  apply require_bind_inv in H as [_ H].
  apply require_bind_inv in H as [_ H].
  apply require_bind_inv in H as [_ H].
  injection H as <-. rewrite getDelayed_setDelayed. auto.
Qed.

(** C10.  The id [createDelayedTransaction] returns is the hash of
    (from, to, amount, timestamp) and of nothing else.  So a second call
    with the same four values returns the id of the first, stores a fresh
    record under it (not approved, not executed, whatever the first record
    had become) and appends the id to the sender's index once more. *)
Theorem createDelayedTransaction_id_collision :
  (forall st sender now frm to_ amt dat st' i,
     createDelayedTransaction keccak256_delayed st sender now frm to_ amt dat
     = Ok (st', i) ->
     i = keccak256_delayed frm to_ amt now)
  /\ (forall st sender sender' now frm to_ amt dat dat' st1 i1 st2 i2,
        createDelayedTransaction keccak256_delayed st sender now frm to_ amt dat
        = Ok (st1, i1) ->
        createDelayedTransaction keccak256_delayed st1 sender' now frm to_ amt
          dat' = Ok (st2, i2) ->
        i2 = i1
        /\ delayedTransactions st2 !!! i1
           = mkDelayedTransaction i1 frm to_ amt dat' (now + delayPeriod st)
               false false 0
        /\ accountDelayedTxs st2 !!! frm
           = (accountDelayedTxs st !!! frm ++ [i1; i1])%list)
  /\ (forall st sender reviewer sender' now frm to_ amt dat dat'
             st1 i1 st1' st2 i2,
        createDelayedTransaction keccak256_delayed st sender now frm to_ amt dat
        = Ok (st1, i1) ->
        approveDelayedTransaction st1 reviewer i1 = Ok st1' ->
        createDelayedTransaction keccak256_delayed st1' sender' now frm to_ amt
          dat' = Ok (st2, i2) ->
        i2 = i1
        /\ approved (delayedTransactions st1' !!! i1) = true
        /\ approved (delayedTransactions st2 !!! i1) = false
        /\ executed (delayedTransactions st2 !!! i1) = false
        /\ accountDelayedTxs st2 !!! frm
           = (accountDelayedTxs st !!! frm ++ [i1; i1])%list).
Proof.
  split; [|split].
  - intros st sender now frm to_ amt dat st' i H.
    exact (proj1 (createDelayedTransaction_effect _ _ _ _ _ _ _ _ _ H)).
  - intros st sender sender' now frm to_ amt dat dat' st1 i1 st2 i2 H1 H2.
    apply createDelayedTransaction_effect in H1 as (Hi1 & _ & Hidx1 & Hp1).
    apply createDelayedTransaction_effect in H2 as (Hi2 & Hrec2 & Hidx2 & _).
    subst i1 i2.
    rewrite Hrec2, Hidx2, Hidx1, Hp1, <- app_assoc. auto.
  - intros st sender reviewer sender' now frm to_ amt dat dat'
      st1 i1 st1' st2 i2 H1 Ha H2.
    apply createDelayedTransaction_effect in H1 as (Hi1 & _ & Hidx1 & _).
    apply approveDelayedTransaction_effect in Ha as (Happ & Hidx & _).
    apply createDelayedTransaction_effect in H2 as (Hi2 & Hrec2 & Hidx2 & _).
    subst i1 i2.
    rewrite Hrec2, Hidx2, Hidx, Hidx1, <- app_assoc. cbn. auto.
Qed.

End DelayedIds.

End EnforcementClaims.

Module EnforcementRuns.
Import ComplianceEnforcement DecisionList Deployment.

(** A run of C1's theorem: account [user1] is rated CRITICAL, sanctioned
    through the OFAC source, and whitelisted. *)
Lemma checkTransaction_first_match_witness :
  exists w',
    (w ← beforeEach;
     reg ← RiskRegistry.assessRisk (registry w) owner 1000 user1
             RiskRegistry.CRITICAL 95 "Critical risk";
     r ← ComplianceOracle.registerDataSource hash_name_time (oracle w) owner
           1000 "OFAC" "https://ofac.treasury.gov";
     s ← ComplianceOracle.sanctionAddress oracleAddress reg r.1 owner 1001
           user1 r.2 "OFAC sanctioned entity";
     enf ← whitelistAccount (enforcement w) owner user1;
     Ok (mkWorld s.2 s.1 (monitor w) enf (nft w))) = Ok w'
    /\ enforcementEnabled (enforcement w') = true
    /\ whitelisted (accountStatuses (enforcement w') !!! user1) = true
    /\ RiskRegistry.getRiskLevel (registry w') user1 = RiskRegistry.CRITICAL
    /\ ComplianceOracle.isSanctioned (oracle w') user1 = true
    /\ checkTransaction (registry w') (oracle w') (enforcement w') 2000
         user1 user2 ONE_ETHER = Ok (true, NONE, "Whitelisted").
Proof.
  match goal with
  | |- exists w', ?run = _ /\ _ =>
      destruct (is_ok_inv run) as [w' H]; [vm_compute; reflexivity|]
  end.
  exists w'. split; [exact H|].
  assert (H1 : enforcementEnabled (enforcement w') = true) by observe H.
  assert (H2 : whitelisted (accountStatuses (enforcement w') !!! user1) = true)
    by observe H.
  assert (H3 : RiskRegistry.getRiskLevel (registry w') user1
               = RiskRegistry.CRITICAL) by observe H.
  assert (H4 : ComplianceOracle.isSanctioned (oracle w') user1 = true)
    by observe H.
  repeat (split; [assumption|]).
  destruct EnforcementClaims.checkTransaction_first_match as [_ Hwl].
  exact (Hwl _ _ _ 2000 user1 user2 ONE_ETHER H1 H2 H3 H4).
Defined.

(** C1 as stated fails: after [recordSpending user1 1], a transfer of the
    largest 256-bit amount inside the same window meets none of the first
    nine rules and exceeds the daily limit, so the list says LIMIT, but
    the sum [dailySpent + amount] overflows and the call reverts. *)
Lemma checkTransaction_reverts_on_overflow :
  (w ← beforeEach;
   enf ← recordSpending (enforcement w) owner 100000 user1 1;
   Ok (verdict (firstMatch (registry w) (oracle w) enf 100000 user1 user2
                  MAX_UINT256)))
  = Ok (false, LIMIT, "Daily limit exceeded")
  /\ (w ← beforeEach;
      enf ← recordSpending (enforcement w) owner 100000 user1 1;
      checkTransaction (registry w) (oracle w) enf 100000 user1 user2
        MAX_UINT256)
     = Revert PANIC_OVERFLOW.
Proof. split; vm_compute; reflexivity. Qed.

(** A run of C3's theorem, as in the integration test: freeze [user1],
    who is not whitelisted. *)
Lemma freeze_denies_unless_whitelisted_witness :
  exists w st',
    beforeEach = Ok w
    /\ freezeAccount (enforcement w) owner 1000 user1 "Critical risk detected"
       = Ok st'
    /\ frozen (accountStatuses st' !!! user1) = true
    /\ checkTransaction (registry w) (oracle w) st' 1001 user1 user2 ONE_ETHER
       = Ok (false, FREEZE, "Account frozen").
Proof.
  destruct (is_ok_inv beforeEach) as [w Hw]; [vm_compute; reflexivity|].
  destruct (is_ok_inv (freezeAccount (enforcement w) owner 1000 user1
                         "Critical risk detected")) as [st' H].
  { observe Hw. }
  exists w, st'. split; [exact Hw|]. split; [exact H|].
  destruct (EnforcementClaims.freeze_denies_unless_whitelisted
              _ _ _ _ _ _ H) as (Hfrozen & _ & _ & Hcheck).
  split; [exact Hfrozen|].
  rewrite Hcheck by observe Hw.
  assert (Hwl : whitelisted (accountStatuses (enforcement w) !!! user1) = false)
    by observe Hw.
  now rewrite Hwl.
Defined.

(** C3 as stated fails: [user1] is whitelisted, then frozen; the transfer
    is allowed. *)
Lemma frozen_whitelisted_sender_allowed :
  (w ← beforeEach;
   enf ← whitelistAccount (enforcement w) owner user1;
   enf ← freezeAccount enf owner 1000 user1 "Critical risk detected";
   checkTransaction (registry w) (oracle w) enf 1001 user1 user2 ONE_ETHER)
  = Ok (true, NONE, "Whitelisted").
Proof. vm_compute; reflexivity. Qed.

(** A run of C8's theorem: a delayed transfer is created at time 1000,
    approved, and executed once its day of delay has passed. *)
Lemma delayed_transaction_lifecycle_witness :
  exists p,
    (w ← beforeEach;
     r ← createDelayedTransaction hash_delayed (enforcement w) owner 1000
           user1 user2 5 [];
     enf ← approveDelayedTransaction r.1 owner r.2;
     Ok (enf, r.2)) = Ok p
    /\ approved (delayedTransactions p.1 !!! p.2) = true
    /\ executed (delayedTransactions p.1 !!! p.2) = false
    /\ (delayUntil (delayedTransactions p.1 !!! p.2) <=? 87400) = true
    /\ exists st',
         executeDelayedTransaction p.1 87400 p.2 = Ok st'
         /\ executed (delayedTransactions st' !!! p.2) = true
         /\ forall now', executeDelayedTransaction st' now' p.2
                         = Revert "Already executed".
Proof.
  match goal with
  | |- exists p, ?run = _ /\ _ =>
      destruct (is_ok_inv run) as [p H]; [vm_compute; reflexivity|]
  end.
  exists p. split; [exact H|].
  assert (Ha : approved (delayedTransactions p.1 !!! p.2) = true)
    by observe H.
  assert (He : executed (delayedTransactions p.1 !!! p.2) = false)
    by observe H.
  assert (Hd : (delayUntil (delayedTransactions p.1 !!! p.2) <=? 87400) = true)
    by observe H.
  repeat (split; [assumption|]).
  destruct (EnforcementClaims.delayed_transaction_lifecycle p.1 p.2)
    as (_ & _ & Hexec & _).
  apply (Hexec Ha He 87400). now apply N.leb_le.
Defined.

(** A run of C9's theorem, as in the integration test: limit 100 for
    [user1], 95 spent at time 100000; a transfer of 10 is denied a second
    later and allowed a day later. *)
Lemma daily_limit_window_witness :
  exists w',
    (w ← beforeEach;
     e1 ← setDailyLimit (enforcement w) owner user1 100;
     e2 ← recordSpending e1 owner 100000 user1 95;
     Ok (mkWorld (registry w) (oracle w) (monitor w) e2 (nft w))) = Ok w'
    /\ checkTransaction (registry w') (oracle w') (enforcement w') 100001
         user1 user2 10 = Ok (false, LIMIT, "Daily limit exceeded")
    /\ checkTransaction (registry w') (oracle w') (enforcement w')
         (100000 + ONE_DAY) user1 user2 10 = Ok (true, NONE, "").
Proof.
  match goal with
  | |- exists w', ?run = _ /\ _ =>
      destruct (is_ok_inv run) as [w' H]; [vm_compute; reflexivity|]
  end.
  exists w'. split; [exact H|].
  pose proof H as Hrun.
  apply bind_ok_inv in H as (w & _ & H).
  apply bind_ok_inv in H as (e1 & Hset & H).
  apply bind_ok_inv in H as (e2 & Hrec & H).
  injection H as H.
  assert (He2 : e2 = enforcement w') by now rewrite <- H.
  rewrite He2 in Hrec. clear H He2 e2.
  destruct EnforcementClaims.daily_limit_window as (_ & _ & Hscenario).
  destruct (Hscenario (registry w') (oracle w') _ _ _ _ _ user2 _ _ Hset Hrec)
    as (_ & _ & Hcheck).
  split.
  - apply (Hcheck 100001).
    + observe Hrun.
    + apply N.leb_le. observe Hrun.
    + apply N.ltb_lt. observe Hrun.
    + apply N.leb_le. observe Hrun.
  - apply (Hcheck (100000 + ONE_DAY)).
    + observe Hrun.
    + apply N.leb_le. observe Hrun.
    + apply N.leb_le. observe Hrun.
Defined.

(** C9 as stated fails: after [recordSpending user1 1] the window is
    open and [dailySpent + amount] for the largest 256-bit amount is above
    the limit, but the check does not compare the two: forming the sum
    overflows and the check reverts. *)
Lemma checkDailyLimit_reverts_on_overflow :
  (w ← beforeEach;
   enf ← recordSpending (enforcement w) owner 100000 user1 1;
   Ok (windowElapsed enf 100000 user1,
       effectiveLimit enf user1
       <? dailySpent (accountStatuses enf !!! user1) + MAX_UINT256))
  = Ok (false, true)
  /\ (w ← beforeEach;
      enf ← recordSpending (enforcement w) owner 100000 user1 1;
      _checkDailyLimit enf 100000 user1 MAX_UINT256)
     = Revert PANIC_OVERFLOW.
Proof. split; vm_compute; reflexivity. Qed.

(** A run of C10's theorem: the same delayed transfer is created twice at
    time 1000, the first having been approved in between. *)
Lemma createDelayedTransaction_id_collision_witness :
  exists p,
    (w ← beforeEach;
     r ← createDelayedTransaction hash_delayed (enforcement w) owner 1000
           user1 user2 5 [];
     e ← approveDelayedTransaction r.1 owner r.2;
     r' ← createDelayedTransaction hash_delayed e owner 1000 user1 user2 5 [];
     Ok (e, r.2, r')) = Ok p
    /\ p.2.2 = p.1.2
    /\ approved (delayedTransactions p.1.1 !!! p.1.2) = true
    /\ approved (delayedTransactions p.2.1 !!! p.1.2) = false
    /\ executed (delayedTransactions p.2.1 !!! p.1.2) = false
    /\ accountDelayedTxs p.2.1 !!! user1 = [p.1.2; p.1.2].
Proof.
  match goal with
  | |- exists p, ?run = _ /\ _ =>
      destruct (is_ok_inv run) as [p H]; [vm_compute; reflexivity|]
  end.
  exists p. split; [exact H|].
  apply bind_ok_inv in H as (w & Hw & H).
  apply bind_ok_inv in H as ([st1 i1] & H1 & H).
  apply bind_ok_inv in H as (e & Ha & H).
  apply bind_ok_inv in H as ([st2 i2] & H2 & H).
  injection H as <-. cbn [fst snd] in *.
  destruct (EnforcementClaims.createDelayedTransaction_id_collision hash_delayed)
    as (_ & _ & Hthm).
  destruct (Hthm _ _ _ _ _ _ _ _ _ _ _ _ _ _ _ H1 Ha H2)
    as (Hi & Happ & Happ2 & Hex2 & Hidx).
  repeat (split; [assumption|]).
  rewrite Hidx.
  subst i2. cbn [fst snd] in *.
  change ([i1; i1]) with (([] : list N) ++ [i1; i1])%list. f_equal.
  observe Hw.
Defined.

End EnforcementRuns.

(** ** TransactionMonitor: analyses, flags and the risk fold-back *)

Module MonitorFacts.
Import TransactionMonitor.

Lemma createAlert_effect st now tgt p sev descr st' :
  _createAlert st now tgt p sev descr = Ok st' ->
  alertCounter st' = alertCounter st + 1
  /\ alerts st' !!! alertCounter st'
     = mkAlert (alertCounter st') tgt p sev descr now false 0
  /\ transactionAnalyses st' = transactionAnalyses st
  /\ flaggedTransactionCount st' = flaggedTransactionCount st.
Proof.
  unfold _createAlert. intros H.
  apply bind_ok_inv in H as (c & Hadd & H).
  apply checked_add_inv in Hadd as [-> _].
  injection H as <-. cbn. rewrite lookup_total_insert_eq. auto.
Qed.

(** The two registry writes of the fold-back, in their order. *)
Lemma updateRiskScores_effect this reg orc now frm to_ anomaly reg' :
  _updateRiskScores this reg orc now frm to_ anomaly = Ok reg' ->
  let avg := (RiskRegistry.getRiskScore reg frm + anomaly) / 2 in
  exists reg1,
    RiskRegistry.assessRisk reg this now frm (RiskRegistry._scoreToLevel avg)
      avg "Automated risk update from transaction monitoring" = Ok reg1
    /\ (if ComplianceOracle.isSanctioned orc to_
        then RiskRegistry.assessRisk reg1 this now frm RiskRegistry.CRITICAL
               100 "Interaction with sanctioned address" = Ok reg'
        else reg' = reg1).
Proof.
  unfold _updateRiskScores. cbv zeta. intros H.
  apply bind_ok_inv in H as (sum & Hadd & H).
  apply checked_add_inv in Hadd as [-> _].
  apply bind_ok_inv in H as (reg1 & H1 & H).
  exists reg1. split; [exact H1|].
  destruct (ComplianceOracle.isSanctioned orc to_); [exact H|].
  now injection H as <-.
Qed.

(** What [analyzeTransaction] stores under the hash it is given. *)
Lemma analyzeTransaction_stored
    this reg orc st sender now hash frm to_ amt p anomaly nts st' reg' :
  analyzeTransaction this reg orc st sender now hash frm to_ amt p anomaly nts
  = Ok (st', reg') ->
  transactionAnalyses st'
  = <[ hash := mkTransactionAnalysis hash frm to_ amt p
                 (_calculateSeverity st anomaly p) anomaly now
                 ((highRiskThreshold st <=? anomaly)
                  || bool_decide (p <> NORMAL)) nts ]>
      (transactionAnalyses st).
Proof.
  unfold analyzeTransaction. intros H.
  apply require_bind_inv in H as [_ H].
  apply require_bind_inv in H as [_ H].
  destruct (_ || _).
  - apply bind_ok_inv in H as (c & _ & H).
    apply bind_ok_inv in H as (st3 & Halert & H).
    apply bind_ok_inv in H as (r & _ & H).
    injection H as <- <-.
    apply createAlert_effect in Halert as (_ & _ & -> & _). reflexivity.
  - injection H as <- <-. reflexivity.
Qed.

End MonitorFacts.

Module MonitorClaims.
Import TransactionMonitor MonitorFacts.

(** C6, as the code has it.  A successful [analyzeTransaction] stores under
    its hash the analysis built from its own arguments, whatever was
    stored there before, and leaves the analyses under every other hash
    as they were; [resolveAlert], [updateThresholds] and [grantRole]
    change no stored analysis. *)
Theorem analysis_written_by_every_call :
  (forall this reg orc st sender now hash frm to_ amt p anomaly nts st' reg',
     analyzeTransaction this reg orc st sender now hash frm to_ amt p anomaly
       nts = Ok (st', reg') ->
     getTransactionAnalysis st' hash
     = mkTransactionAnalysis hash frm to_ amt p
         (_calculateSeverity st anomaly p) anomaly now
         ((highRiskThreshold st <=? anomaly) || bool_decide (p <> NORMAL)) nts
     /\ forall other, other <> hash ->
          getTransactionAnalysis st' other = getTransactionAnalysis st other)
  /\ (forall st sender alertId st',
        resolveAlert st sender alertId = Ok st' ->
        transactionAnalyses st' = transactionAnalyses st)
  /\ (forall st sender high critical st',
        updateThresholds st sender high critical = Ok st' ->
        transactionAnalyses st' = transactionAnalyses st)
  /\ (forall st sender role account st',
        grantRole st sender role account = Ok st' ->
        transactionAnalyses st' = transactionAnalyses st).
Proof.
  split; [|split; [|split]].
  - intros this reg orc st sender now hash frm to_ amt p anomaly nts st' reg' H.
    apply analyzeTransaction_stored in H. unfold getTransactionAnalysis.
    rewrite H. split.
    + apply lookup_total_insert_eq.
    + intros other Hne. apply lookup_total_insert_ne. congruence.
  - intros st sender alertId st'. unfold resolveAlert. intros H.
    apply require_bind_inv in H as [_ H].
    apply require_bind_inv in H as [_ H].
    now injection H as <-.
  - intros st sender high critical st'. unfold updateThresholds. intros H.
    apply require_bind_inv in H as [_ H].
    apply require_bind_inv in H as [_ H].
    apply require_bind_inv in H as [_ H].
    now injection H as <-.
  - intros st sender role account st'. unfold grantRole. intros H.
    apply require_bind_inv in H as [_ H].
    now injection H as <-.
Qed.

(** C7.  When a successful [analyzeTransaction] flags the transaction (the
    score reaches the high-risk threshold or the pattern is not NORMAL),
    the flagged counter grows by one, a new unresolved alert for the
    sender is stored under the next alert number, and the registry gets
    the sender's score as [(current + anomaly) / 2] with the table's level
    for that average; when the receiver is sanctioned a second write
    follows and leaves the sender CRITICAL with score 100. *)
Theorem analyzeTransaction_flagged
    this reg orc st sender now hash frm to_ amt p anomaly nts st' reg' :
  analyzeTransaction this reg orc st sender now hash frm to_ amt p anomaly nts
  = Ok (st', reg') ->
  highRiskThreshold st <= anomaly \/ p <> NORMAL ->
  let avg := (RiskRegistry.getRiskScore reg frm + anomaly) / 2 in
  flagged (getTransactionAnalysis st' hash) = true
  /\ flaggedTransactionCount st' = flaggedTransactionCount st + 1
  /\ alertCounter st' = alertCounter st + 1
  /\ getAlert st' (alertCounter st')
     = mkAlert (alertCounter st') frm p (_calculateSeverity st anomaly p) nts
         now false 0
  /\ (exists reg1,
        RiskRegistry.assessRisk reg this now frm
          (RiskRegistry._scoreToLevel avg) avg
          "Automated risk update from transaction monitoring" = Ok reg1
        /\ RiskRegistry.getRiskScore reg1 frm = avg
        /\ RiskRegistry.getRiskLevel reg1 frm = RiskRegistry._scoreToLevel avg
        /\ (if ComplianceOracle.isSanctioned orc to_
            then RiskRegistry.assessRisk reg1 this now frm
                   RiskRegistry.CRITICAL 100
                   "Interaction with sanctioned address" = Ok reg'
            else reg' = reg1))
  /\ (ComplianceOracle.isSanctioned orc to_ = false ->
      RiskRegistry.getRiskScore reg' frm = avg
      /\ RiskRegistry.getRiskLevel reg' frm = RiskRegistry._scoreToLevel avg)
  /\ (ComplianceOracle.isSanctioned orc to_ = true ->
      RiskRegistry.getRiskScore reg' frm = 100
      /\ RiskRegistry.getRiskLevel reg' frm = RiskRegistry.CRITICAL).
Proof.
  intros H Hflag avg.
  assert (Hf : (highRiskThreshold st <=? anomaly) || bool_decide (p <> NORMAL)
               = true).
  { apply orb_true_iff. destruct Hflag as [Hs|Hp].
    - left. now apply N.leb_le.
    - right. now apply bool_decide_eq_true. }
  pose proof (analyzeTransaction_stored _ _ _ _ _ _ _ _ _ _ _ _ _ _ _ H) as Hst.
  unfold analyzeTransaction in H.
  apply require_bind_inv in H as [_ H].
  apply require_bind_inv in H as [_ H].
  rewrite Hf in H.
  apply bind_ok_inv in H as (c & Hadd & H).
  apply checked_add_inv in Hadd as [-> _].
  apply bind_ok_inv in H as (st3 & Halert & H).
  apply bind_ok_inv in H as (r & Hrisk & H).
  injection H as <- <-.
  apply createAlert_effect in Halert as (Hcnt & Halert & _ & Hflagged).
  apply updateRiskScores_effect in Hrisk as (reg1 & H1 & H2). fold avg in H1.
  pose proof (RiskRegistryFacts.assessRisk_getRiskScore _ _ _ _ _ _ _ _ H1) as Hs1.
  pose proof (RiskRegistryFacts.assessRisk_getRiskLevel _ _ _ _ _ _ _ _ H1) as Hl1.
  split.
  { unfold getTransactionAnalysis. rewrite Hst, lookup_total_insert_eq.
    exact Hf. }
  split; [rewrite Hflagged; reflexivity|].
  split; [exact Hcnt|].
  split; [exact Halert|].
  split; [exists reg1; auto|].
  split.
  - intros Hsan. rewrite Hsan in H2. subst r. auto.
  - intros Hsan. rewrite Hsan in H2. split.
    + exact (RiskRegistryFacts.assessRisk_getRiskScore _ _ _ _ _ _ _ _ H2).
    + exact (RiskRegistryFacts.assessRisk_getRiskLevel _ _ _ _ _ _ _ _ H2).
Qed.

End MonitorClaims.

Module MonitorRuns.
Import TransactionMonitor Deployment.

(** A run of C6's theorem: one analysis, read back. *)
Lemma analysis_written_by_every_call_witness :
  exists r,
    (w ← beforeEach;
     analyzeTransaction monitorAddress (registry w) (oracle w) (monitor w)
       owner 1000 7 user1 user2 5 NORMAL 10 "first")
    = Ok r
    /\ getTransactionAnalysis r.1 7
       = mkTransactionAnalysis 7 user1 user2 5 NORMAL INFO 10 1000 false "first".
Proof.
  match goal with
  | |- exists r, ?run = _ /\ _ =>
      destruct (is_ok_inv run) as [[st' reg'] H]; [vm_compute; reflexivity|]
  end.
  exists (st', reg'). split; [exact H|].
  apply bind_ok_inv in H as (w & Hw & H).
  destruct MonitorClaims.analysis_written_by_every_call as [Hthm _].
  destruct (Hthm _ _ _ _ _ _ _ _ _ _ _ _ _ _ _ H) as [Hread _].
  cbn [fst]. rewrite Hread. f_equal.
  - observe Hw.
  - observe Hw.
Defined.

(** C6 as stated fails: a second [analyzeTransaction] with hash 7 replaces
    the analysis the first one stored under it. *)
Lemma second_analysis_overwrites :
  (w ← beforeEach;
   r1 ← analyzeTransaction monitorAddress (registry w) (oracle w) (monitor w)
          owner 1000 7 user1 user2 5 NORMAL 10 "first";
   r2 ← analyzeTransaction monitorAddress r1.2 (oracle w) r1.1
          owner 1001 7 user2 user1 999 MIXING 85 "second";
   Ok (getTransactionAnalysis r1.1 7, getTransactionAnalysis r2.1 7))
  = Ok (mkTransactionAnalysis 7 user1 user2 5 NORMAL INFO 10 1000 false "first",
        mkTransactionAnalysis 7 user2 user1 999 MIXING HIGH 85 1001 true
          "second").
Proof. vm_compute; reflexivity. Qed.

(** A run of C7's theorem: [sanctioned] is on the OFAC list; [user1], rated
    40 before, sends it a structured transfer scored 75.  The average
    57 is written first and CRITICAL/100 over it. *)
Lemma analyzeTransaction_flagged_witness :
  exists r,
    (w ← beforeEach;
     reg ← RiskRegistry.assessRisk (registry w) owner 900 user1
             RiskRegistry.MEDIUM 40 "Prior score";
     src ← ComplianceOracle.registerDataSource hash_name_time (oracle w) owner
             1000 "OFAC" "https://ofac.treasury.gov";
     s ← ComplianceOracle.sanctionAddress oracleAddress reg src.1 owner 1001
           sanctioned src.2 "OFAC sanctioned entity";
     analyzeTransaction monitorAddress s.2 s.1 (monitor w) owner 1002 7
       user1 sanctioned 5 STRUCTURING 75 "Structuring detected")
    = Ok r
    /\ flagged (getTransactionAnalysis r.1 7) = true
    /\ RiskRegistry.getRiskScore r.2 user1 = 100
    /\ RiskRegistry.getRiskLevel r.2 user1 = RiskRegistry.CRITICAL.
Proof.
  match goal with
  | |- exists r, ?run = _ /\ _ =>
      destruct (is_ok_inv run) as [[st' reg'] H]; [vm_compute; reflexivity|]
  end.
  exists (st', reg'). split; [exact H|].
  pose proof H as Hrun.
  apply bind_ok_inv in H as (w & Hw & H).
  apply bind_ok_inv in H as (reg & Hreg & H).
  apply bind_ok_inv in H as (src & Hsrc & H).
  apply bind_ok_inv in H as (s & Hs & H).
  destruct (MonitorClaims.analyzeTransaction_flagged
              _ _ _ _ _ _ _ _ _ _ _ _ _ _ _ H)
    as (Hfl & _ & _ & _ & _ & _ & Hcrit).
  { right. discriminate. }
  split; [exact Hfl|]. cbn [fst snd].
  apply Hcrit.
  destruct s as [orc' reg1].
  destruct (ComplianceOracleFacts.sanctionAddress_effect
              _ _ _ _ _ _ _ _ _ _ Hs) as (_ & Hsan & _).
  exact Hsan.
Defined.

End MonitorRuns.

(** ** RegulatoryNFT: sealing *)

Module ReportFacts.
Import RegulatoryNFT.

Lemma getReport_setReport st i r : reports (setReport st i r) !!! i = r.
Proof. simpl. apply lookup_total_insert_eq. Qed.

Lemma getReport_setReport_ne st i j r :
  i <> j -> reports (setReport st i r) !!! j = reports st !!! j.
Proof. intros H. simpl. now apply lookup_total_insert_ne. Qed.

Lemma ownerOf_ok st i owner : ownerOf st i = Ok owner -> _ownerOf st i <> 0.
Proof.
  unfold ownerOf. intros H. apply require_bind_inv in H as [H _].
  apply negb_true_iff, N.eqb_neq in H. exact H.
Qed.

(** Ids above the counter were never minted: they have no owner and no
    stored report. *)
Definition unminted_above_counter (st : State) : Prop :=
  forall i, _tokenIdCounter st < i ->
    _ownerOf st i = 0 /\ reports st !! i = None.

(** The statuses the contract produces, and what a seal implies. *)
Definition well_formed (r : ComplianceReport) : Prop :=
  (status r = DRAFT \/ status r = SUBMITTED \/ status r = APPROVED
   \/ status r = REJECTED)
  /\ (isSealed r = true -> status r = APPROVED).

(** What holds of every state the contract passes through, the states
    inside a receiver callback included. *)
Definition sound (st : State) : Prop :=
  unminted_above_counter st /\ forall k, well_formed (reports st !!! k).

(** A status is reached from another along the lifecycle: DRAFT, then
    SUBMITTED, then APPROVED or REJECTED. *)
Definition forward (s s' : ReportStatus) : Prop :=
  s' = s \/ s = DRAFT \/ (s = SUBMITTED /\ (s' = APPROVED \/ s' = REJECTED)).

(** What the calls between two states have in common. *)
Definition advances (st st' : State) : Prop :=
  sound st'
  /\ _tokenIdCounter st <= _tokenIdCounter st'
  /\ (forall i, _ownerOf st i <> 0 -> _ownerOf st' i <> 0)
  /\ (forall i, isSealed (reports st !!! i) = true ->
                reports st' !!! i = reports st !!! i)
  /\ (forall i, forward (status (reports st !!! i))
                        (status (reports st' !!! i))).

Lemma unstored_report_is_zero st i :
  reports st !! i = None -> reports st !!! i = inhabitant.
Proof. intros H. rewrite lookup_total_alt, H. reflexivity. Qed.

(** What each successful call does to the stored reports. *)
Lemma submitReport_exact st sender i st' :
  submitReport st sender i = Ok st' ->
  let r := reports st !!! i in
  _ownerOf st i = sender /\ sender <> 0 /\ status r = DRAFT
  /\ isSealed r = false
  /\ st' = setReport st i
             (mkComplianceReport (tokenId r) (reportType r) SUBMITTED
                (subject r) (issuer r) (timestamp r) (reviewTimestamp r)
                (reviewer r) (ipfsHash r) (dataHash r) (isSealed r)).
Proof.
  unfold submitReport, ownerOf. cbv zeta. intros H.
  apply bind_ok_inv in H as (owner & Hown & H).
  apply require_bind_inv in Hown as [Hnz Hown]. injection Hown as <-.
  apply negb_true_iff, N.eqb_neq in Hnz.
  apply require_bind_inv in H as [Hs H]. apply N.eqb_eq in Hs.
  apply require_bind_inv in H as [Hd H]. apply bool_decide_eq_true in Hd.
  apply require_bind_inv in H as [Hu H]. apply negb_true_iff in Hu.
  injection H as <-. rewrite <- Hs. auto.
Qed.

Lemma reviewReport_exact st sender now i approve st' :
  reviewReport st sender now i approve = Ok st' ->
  let r := reports st !!! i in
  (status r = SUBMITTED \/ status r = UNDER_REVIEW) /\ isSealed r = false
  /\ st' = setReport st i
             (mkComplianceReport (tokenId r) (reportType r)
                (if approve then APPROVED else REJECTED)
                (subject r) (issuer r) (timestamp r) now sender (ipfsHash r)
                (dataHash r) (isSealed r)).
Proof.
  unfold reviewReport. cbv zeta. intros H.
  apply require_bind_inv in H as [_ H].
  apply require_bind_inv in H as [Hs H].
  apply require_bind_inv in H as [Hu H]. apply negb_true_iff in Hu.
  injection H as <-.
  apply orb_true_iff in Hs as [Hs|Hs]; apply bool_decide_eq_true in Hs; auto.
Qed.

Lemma sealReport_exact st sender i st' :
  sealReport st sender i = Ok st' ->
  let r := reports st !!! i in
  status r = APPROVED /\ isSealed r = false
  /\ st' = setReport st i
             (mkComplianceReport (tokenId r) (reportType r) (status r)
                (subject r) (issuer r) (timestamp r) (reviewTimestamp r)
                (reviewer r) (ipfsHash r) (dataHash r) true).
Proof.
  unfold sealReport. cbv zeta. intros H.
  apply require_bind_inv in H as [_ H].
  apply require_bind_inv in H as [Hs H]. apply bool_decide_eq_true in Hs.
  apply require_bind_inv in H as [Hu H]. apply negb_true_iff in Hu.
  injection H as <-. auto.
Qed.

Lemma updateReportData_exact st sender i ipfs dh st' :
  updateReportData st sender i ipfs dh = Ok st' ->
  let r := reports st !!! i in
  _ownerOf st i = sender /\ sender <> 0 /\ isSealed r = false /\ ipfs <> ""
  /\ st' = setReport st i
             (mkComplianceReport (tokenId r) (reportType r) (status r)
                (subject r) (issuer r) (timestamp r) (reviewTimestamp r)
                (reviewer r) ipfs dh (isSealed r)).
Proof.
  unfold updateReportData, ownerOf. cbv zeta. intros H.
  apply bind_ok_inv in H as (owner & Hown & H).
  apply require_bind_inv in Hown as [Hnz Hown]. injection Hown as <-.
  apply negb_true_iff, N.eqb_neq in Hnz.
  apply require_bind_inv in H as [Hs H]. apply N.eqb_eq in Hs.
  apply require_bind_inv in H as [Hu H]. apply negb_true_iff in Hu.
  apply require_bind_inv in H as [Hl H].
  injection H as <-. rewrite <- Hs. repeat split; auto.
  intros ->. discriminate Hl.
Qed.

Lemma mintReport_exact st sender subj ipfs dh mid i :
  mintReport st sender subj ipfs dh = Ok (mid, i) ->
  i = _tokenIdCounter st + 1 /\ sender <> 0
  /\ mid = mkState (reports st) (subjectReports st) (issuerReports st) i
             (<[ i := sender ]> (owners st)) (roles st).
Proof.
  unfold mintReport. intros H.
  apply require_bind_inv in H as [_ H].
  apply require_bind_inv in H as [_ H].
  apply require_bind_inv in H as [_ H].
  apply require_bind_inv in H as [_ H].
  apply bind_ok_inv in H as (c & Hadd & H).
  apply checked_add_inv in Hadd as [-> _].
  apply require_bind_inv in H as [Hnz H].
  apply require_bind_inv in H as [_ H].
  apply negb_true_iff, N.eqb_neq in Hnz.
  injection H as <- <-. auto.
Qed.

Lemma createReport_inv hook st sender now rt subj ipfs dh st' i :
  createReport hook st sender now rt subj ipfs dh = Ok (st', i) ->
  exists mid st2,
    mintReport st sender subj ipfs dh = Ok (mid, i)
    /\ hook mid = Ok st2
    /\ st' = writeReport st2 sender now rt subj ipfs dh i.
Proof.
  unfold createReport. intros H.
  apply bind_ok_inv in H as ([mid j] & Hmint & H).
  apply bind_ok_inv in H as (st2 & Hhook & H).
  cbn [fst snd] in *. injection H as <- <-. eauto.
Qed.

(** A slot with an owner or with a non-zero report lies at or below the
    counter. *)
Lemma owned_below_counter st i :
  unminted_above_counter st -> _ownerOf st i <> 0 -> i <= _tokenIdCounter st.
Proof.
  intros Hinv Ho. destruct (N.le_gt_cases i (_tokenIdCounter st)) as [H|H];
    [exact H|]. destruct (Hinv i H) as [Hz _]. contradiction.
Qed.

Lemma stored_below_counter st i :
  unminted_above_counter st -> reports st !!! i <> inhabitant ->
  i <= _tokenIdCounter st.
Proof.
  intros Hinv Hr. destruct (N.le_gt_cases i (_tokenIdCounter st)) as [H|H];
    [exact H|]. destruct (Hinv i H) as [_ Hn].
  apply unstored_report_is_zero in Hn. contradiction.
Qed.

Lemma forward_trans s1 s2 s3 : forward s1 s2 -> forward s2 s3 -> forward s1 s3.
Proof.
  unfold forward. intros [H12|[H12|[H12 H12']]] H23; subst; auto.
  destruct H12' as [H12'|H12']; subst;
    destruct H23 as [H23|[H23|[H23 _]]]; subst; auto; discriminate.
Qed.

Lemma advances_refl st : sound st -> advances st st.
Proof.
  intros H. split; [exact H|]. split; [lia|]. split; [auto|].
  split; [reflexivity|]. intros i. now left.
Qed.

Lemma advances_trans st1 st2 st3 :
  advances st1 st2 -> advances st2 st3 -> advances st1 st3.
Proof.
  intros (_ & Hc & Ho & Hs & Hf) (Hsound & Hc' & Ho' & Hs' & Hf').
  split; [exact Hsound|]. split; [lia|]. split; [auto|]. split.
  - intros i Hi. rewrite Hs' by (rewrite Hs; assumption). auto.
  - intros i. exact (forward_trans _ _ _ (Hf i) (Hf' i)).
Qed.

(** A call that changes neither reports nor counter and keeps the set of
    owned ids. *)
Lemma advances_aside st st' :
  sound st -> reports st' = reports st ->
  _tokenIdCounter st' = _tokenIdCounter st ->
  (forall i, _ownerOf st' i = 0 <-> _ownerOf st i = 0) ->
  advances st st'.
Proof.
  intros [Hun Hwf] Hr Hc Ho. split; [split|].
  - intros i Hi. rewrite Hc in Hi. destruct (Hun i Hi) as [Hz Hn].
    split; [now apply Ho|]. rewrite Hr. exact Hn.
  - rewrite Hr. exact Hwf.
  - split; [lia|]. split.
    + intros i Hi Hz. apply Hi, Ho, Hz.
    + rewrite Hr. split; [reflexivity|]. intros i. now left.
Qed.

(** A call that rewrites one existing, unsealed report. *)
Lemma advances_setReport st i r :
  sound st -> i <= _tokenIdCounter st -> well_formed r ->
  isSealed (reports st !!! i) = false ->
  forward (status (reports st !!! i)) (status r) ->
  advances st (setReport st i r).
Proof.
  intros [Hun Hwf] Hi Hr Hu Hf. split; [split|].
  - intros j Hj. cbn in Hj. destruct (Hun j Hj) as [Ho Hn].
    split; [exact Ho|]. cbn. rewrite lookup_insert_ne by lia. exact Hn.
  - intros k. destruct (decide (i = k)) as [<-|Hne].
    + now rewrite getReport_setReport.
    + now rewrite getReport_setReport_ne.
  - split; [cbn; lia|]. split; [auto|]. split.
    + intros j Hj. apply getReport_setReport_ne. intros ->. congruence.
    + intros j. destruct (decide (i = j)) as [<-|Hne].
      * now rewrite getReport_setReport.
      * rewrite getReport_setReport_ne by exact Hne. now left.
Qed.

Lemma advances_mintReport st sender subj ipfs dh mid i :
  sound st -> mintReport st sender subj ipfs dh = Ok (mid, i) ->
  advances st mid /\ _tokenIdCounter st < i <= _tokenIdCounter mid.
Proof.
  intros [Hun Hwf] H. apply mintReport_exact in H as (Hi & Hnz & ->).
  split; [|cbn; lia]. split; [split|].
  - intros j Hj. cbn in Hj. destruct (Hun j ltac:(lia)) as [Ho Hn].
    split; [|exact Hn]. unfold _ownerOf in *. cbn.
    rewrite lookup_insert_ne by lia. exact Ho.
  - exact Hwf.
  - split; [cbn; lia|]. split; [|split; [reflexivity|now left]].
    intros j Hj. unfold _ownerOf in *. cbn.
    destruct (decide (i = j)) as [<-|Hne].
    + now rewrite lookup_insert_eq.
    + now rewrite lookup_insert_ne.
Qed.

(** The write that ends [createReport], after whatever the callback did
    since the mint. *)
Lemma advances_writeReport st st2 sender now rt subj ipfs dh i :
  sound st -> advances st st2 ->
  _tokenIdCounter st < i <= _tokenIdCounter st2 ->
  advances st (writeReport st2 sender now rt subj ipfs dh i).
Proof.
  intros [Hun Hwf] ([Hun2 Hwf2] & Hc & Ho & Hs & Hf) [Hlo Hhi].
  destruct (Hun i Hlo) as [_ Hnone].
  apply unstored_report_is_zero in Hnone.
  split; [split|].
  - intros j Hj. cbn in Hj. destruct (Hun2 j Hj) as [Hoj Hn].
    split; [exact Hoj|]. cbn. rewrite lookup_insert_ne by lia. exact Hn.
  - intros k. cbn. destruct (decide (i = k)) as [<-|Hne].
    + rewrite lookup_total_insert_eq. split; cbn; [auto|discriminate].
    + rewrite lookup_total_insert_ne by exact Hne. apply Hwf2.
  - split; [exact Hc|]. split; [exact Ho|]. split.
    + intros j Hj. cbn. rewrite lookup_total_insert_ne; [auto|].
      intros <-. rewrite Hnone in Hj. discriminate.
    + intros j. cbn. destruct (decide (i = j)) as [<-|Hne].
      * rewrite Hnone. right. now left.
      * rewrite lookup_total_insert_ne by exact Hne. apply Hf.
Qed.

(** Every call, with the calls nested in it, advances the state. *)
Lemma step_steps_advance :
  (forall st st', step st st' -> sound st -> advances st st')
  /\ (forall st st', steps st st' -> sound st -> advances st st').
Proof.
  apply step_steps_mutual.
  - intros st sender role account st' H Hsound.
    unfold grantRole in H. apply require_bind_inv in H as [_ H].
    injection H as <-. now apply advances_aside.
  - intros st sender now rt subj ipfs dh mid i st2 Hmint _ IH Hsound.
    destruct (advances_mintReport _ _ _ _ _ _ _ Hsound Hmint)
      as [Hmid [Hlo Hhi]].
    pose proof (IH (proj1 Hmid)) as H2.
    apply advances_writeReport; [exact Hsound| |].
    + exact (advances_trans _ _ _ Hmid H2).
    + destruct H2 as (_ & Hc & _). lia.
  - intros st sender i st' H Hsound.
    apply submitReport_exact in H as (Ho & Hnz & Hs & Hu & ->).
    apply advances_setReport; [exact Hsound| | |exact Hu|].
    + apply owned_below_counter; [apply Hsound|congruence].
    + split; cbn; [auto|]. rewrite Hu. discriminate.
    + cbn. right. now left.
  - intros st sender now i approve st' H Hsound.
    apply reviewReport_exact in H as (Hs & Hu & ->).
    assert (Hsub : status (reports st !!! i) = SUBMITTED).
    { destruct Hs as [Hs|Hs]; [exact Hs|].
      destruct (proj2 Hsound i) as [[H|[H|[H|H]]] _]; congruence. }
    apply advances_setReport; [exact Hsound| | |exact Hu|].
    + apply stored_below_counter; [apply Hsound|]. intros Hz.
      rewrite Hz in Hsub. discriminate.
    + split; cbn; [destruct approve; auto|]. rewrite Hu. discriminate.
    + cbn. right. right. split; [exact Hsub|destruct approve; auto].
  - intros st sender i st' H Hsound.
    apply sealReport_exact in H as (Hs & Hu & ->).
    apply advances_setReport; [exact Hsound| | |exact Hu|].
    + apply stored_below_counter; [apply Hsound|]. intros Hz.
      rewrite Hz in Hs. discriminate.
    + split; cbn; rewrite Hs; auto.
    + cbn. now left.
  - intros st sender i ipfs dh st' H Hsound.
    apply updateReportData_exact in H as (Ho & Hnz & Hu & _ & ->).
    apply advances_setReport; [exact Hsound| | |exact Hu|].
    + apply owned_below_counter; [apply Hsound|congruence].
    + split; cbn; [apply Hsound|]. rewrite Hu. discriminate.
    + cbn. now left.
  - intros st owners' Hdom Hsound. now apply advances_aside.
  - intros st roles' Hsound. now apply advances_aside.
  - intros st Hsound. now apply advances_refl.
  - intros st st' st'' _ IH1 _ IH2 Hsound.
    pose proof (IH1 Hsound) as H1.
    exact (advances_trans _ _ _ H1 (IH2 (proj1 H1))).
Qed.

Lemma step_advances st st' : sound st -> step st st' -> advances st st'.
Proof. intros Hsound H. exact (proj1 step_steps_advance _ _ H Hsound). Qed.

Lemma steps_advance st st' : sound st -> steps st st' -> advances st st'.
Proof. intros Hsound H. exact (proj2 step_steps_advance _ _ H Hsound). Qed.

Lemma reachable_sound st : reachable st -> sound st.
Proof.
  induction 1 as [deployer|st st' _ IH Hstep].
  - split.
    + intros i _. unfold _ownerOf. cbn. rewrite !lookup_empty. auto.
    + intros k. cbn. rewrite lookup_total_empty.
      split; cbn; [auto|discriminate].
  - exact (proj1 (step_advances _ _ IH Hstep)).
Qed.

Lemma steps_reachable st st' : reachable st -> steps st st' -> reachable st'.
Proof.
  intros Hreach Hsteps. induction Hsteps as [st|st st1 st2 Hstep _ IH];
    [exact Hreach|]. apply IH. exact (reachable_step _ _ Hreach Hstep).
Qed.

(** A call from an externally owned account is one step. *)
Lemma step_createReport_plain st sender now rt subj ipfs dh st' i :
  createReport noReceiverHook st sender now rt subj ipfs dh = Ok (st', i) ->
  step st st'.
Proof.
  intros H. apply createReport_inv in H as (mid & st2 & Hmint & Hhook & ->).
  injection Hhook as <-.
  eapply step_createReport; [exact Hmint|apply steps_refl].
Qed.

End ReportFacts.

Module ReportClaims.
Import RegulatoryNFT Deployment.

(** C5.  A report sealed inside the receiver callback of the
    [createReport] that mints it does not keep its fields.  The report
    desk, a contract holding the officer and auditor roles, creates a
    report; in its [onERC721Received] it submits, approves and seals
    token 1, which at that point is APPROVED and sealed, with the desk as
    reviewer; [createReport] then writes its fresh record over it and
    returns with token 1 an unsealed DRAFT without reviewer. *)
Theorem createReport_overwrites_report_sealed_in_callback :
  (m ← mintReport (constructor reportDesk) reportDesk user1 "QmTest123" 77;
   h ← reportDesk_onERC721Received 1000 m.1;
   Ok (m.2, status (reports h !!! 1), isSealed (reports h !!! 1),
       reviewer (reports h !!! 1)))
  = Ok (1, APPROVED, true, reportDesk)
  /\ (r ← createReport (reportDesk_onERC721Received 1000)
            (constructor reportDesk) reportDesk 1000 SUSPICIOUS_ACTIVITY
            user1 "QmTest123" 77;
      Ok (r.2, status (reports r.1 !!! 1), isSealed (reports r.1 !!! 1),
          reviewer (reports r.1 !!! 1)))
     = Ok (1, DRAFT, false, 0).
Proof. split; vm_compute; reflexivity. Qed.

End ReportClaims.

(** * Further properties of the contracts *)

(** ** RiskRegistry *)

Module RiskRegistryMore.
Import RiskRegistry RiskRegistryFacts RiskRegistrySteps.

Lemma push_same m l a : push m l a !!! l = (m !!! l ++ [a])%list.
Proof. unfold push. apply lookup_total_insert_eq. Qed.

Lemma push_other m l l' a : l <> l' -> push m l a !!! l' = m !!! l'.
Proof. intros H. unfold push. now apply lookup_total_insert_ne. Qed.

Lemma clearRisk_effect st sender target st' :
  clearRisk st sender target = Ok st' ->
  active (riskAssessments st !!! target) = true
  /\ riskAssessments st'
     = <[ target := mkRiskAssessment
                      (level (riskAssessments st !!! target))
                      (score (riskAssessments st !!! target))
                      (timestamp (riskAssessments st !!! target))
                      (reason (riskAssessments st !!! target))
                      (assessor (riskAssessments st !!! target)) false ]>
         (riskAssessments st)
  /\ addressesByRisk st' = addressesByRisk st
  /\ totalAssessments st' = totalAssessments st.
Proof.
  unfold clearRisk. intros H.
  apply require_bind_inv in H as [_ H].
  apply require_bind_inv in H as [Hact H].
  injection H as <-. auto.
Qed.

Lemma updateRiskScore_effect st sender now target sc st' :
  updateRiskScore st sender now target sc = Ok st' ->
  sc <= 100
  /\ active (riskAssessments st !!! target) = true
  /\ riskAssessments st'
     = <[ target := mkRiskAssessment (_scoreToLevel sc) sc now
                      (reason (riskAssessments st !!! target))
                      (assessor (riskAssessments st !!! target)) true ]>
         (riskAssessments st)
  /\ totalAssessments st' = totalAssessments st
  /\ forall l, exists k,
       addressesByRisk st' !!! l = (addressesByRisk st !!! l ++ k)%list.
Proof.
  unfold updateRiskScore. intros H.
  apply require_bind_inv in H as [_ H].
  apply require_bind_inv in H as [Hsc H].
  apply require_bind_inv in H as [Hact H].
  apply N.leb_le in Hsc.
  split; [exact Hsc|]. split; [exact Hact|].
  destruct (decide _) as [Hne|Heq]; injection H as <-; cbn; rewrite Hact.
  - split; [reflexivity|]. split; [reflexivity|].
    intros l. destruct (decide (_scoreToLevel sc = l)) as [<-|Hl].
    + rewrite push_same. eauto.
    + rewrite push_other by exact Hl. exists []. now rewrite app_nil_r.
  - apply dec_stable in Heq. rewrite <- Heq.
    split; [reflexivity|]. split; [reflexivity|].
    intros l. exists []. now rewrite app_nil_r.
Qed.

Lemma assessRisk_effect st sender now target lvl sc rsn st' :
  assessRisk st sender now target lvl sc rsn = Ok st' ->
  riskAssessments st'
  = <[ target := mkRiskAssessment lvl sc now rsn sender true ]>
      (riskAssessments st)
  /\ addressesByRisk st' = push (addressesByRisk st) lvl target
  /\ totalAssessments st'
     = (if decide (level (riskAssessments st !!! target) = NONE)
        then totalAssessments st + 1 else totalAssessments st)
  /\ roles st' = roles st.
Proof.
  unfold assessRisk. intros H.
  apply require_bind_inv in H as [_ H].
  apply require_bind_inv in H as [_ H].
  apply require_bind_inv in H as [_ H].
  apply require_bind_inv in H as [_ H].
  apply bind_ok_inv in H as (total & Htot & H).
  injection H as <-. cbn. repeat split.
  destruct (decide _).
  - now apply checked_add_inv in Htot as [-> _].
  - now injection Htot as <-.
Qed.

(** X1.  [clearRisk] hides an assessment without erasing it: the level
    and score read back are NONE and 0 and the account is no longer high
    risk, while the stored record keeps its level, score, reason,
    assessor and time; the account can then be neither cleared again nor
    re-scored by [updateRiskScore], and no other account changes. *)
Theorem clearRisk_hides_keeps_history st sender target st' :
  clearRisk st sender target = Ok st' ->
  getRiskLevel st' target = NONE
  /\ getRiskScore st' target = 0
  /\ isHighRisk st' target = false
  /\ level (getRiskAssessment st' target) = level (getRiskAssessment st target)
  /\ score (getRiskAssessment st' target) = score (getRiskAssessment st target)
  /\ reason (getRiskAssessment st' target) = reason (getRiskAssessment st target)
  /\ assessor (getRiskAssessment st' target)
     = assessor (getRiskAssessment st target)
  /\ timestamp (getRiskAssessment st' target)
     = timestamp (getRiskAssessment st target)
  /\ (forall sender', is_ok (clearRisk st' sender' target) = false)
  /\ (forall sender' now sc,
        is_ok (updateRiskScore st' sender' now target sc) = false)
  /\ (forall other, other <> target ->
        getRiskAssessment st' other = getRiskAssessment st other).
Proof.
  intros H. apply clearRisk_effect in H as (_ & Hmap & _ & _).
  unfold getRiskLevel, getRiskScore, isHighRisk, getRiskAssessment.
  rewrite Hmap, !lookup_total_insert_eq. cbn.
  repeat (split; [reflexivity|]).
  split; [|split].
  - intros sender'.
    destruct (clearRisk st' sender' target) eqn:E; [|reflexivity].
    apply clearRisk_effect in E as (Hact & _).
    rewrite Hmap, lookup_total_insert_eq in Hact. discriminate.
  - intros sender' now sc.
    destruct (updateRiskScore st' sender' now target sc) eqn:E; [|reflexivity].
    apply updateRiskScore_effect in E as (_ & Hact & _).
    rewrite Hmap, lookup_total_insert_eq in Hact. discriminate.
  - intros other Hne. apply lookup_total_insert_ne. congruence.
Qed.

(** X2.  After a successful [updateRiskScore target sc] the account is
    high risk exactly when [sc] is at least 70, and the record keeps the
    reason and assessor of the assessment it updates.  For an account
    that has no active assessment (never assessed, or cleared) an
    authorised caller gets "No active assessment". *)
Theorem updateRiskScore_high_risk_from_70 :
  (forall st sender now target sc st',
     updateRiskScore st sender now target sc = Ok st' ->
     isHighRisk st' target = (70 <=? sc)
     /\ reason (getRiskAssessment st' target)
        = reason (getRiskAssessment st target)
     /\ assessor (getRiskAssessment st' target)
        = assessor (getRiskAssessment st target)
     /\ timestamp (getRiskAssessment st' target) = now)
  /\ (forall st sender now target sc,
        AccessControl.hasRole (roles st) ORACLE_ROLE sender = true ->
        sc <= 100 ->
        active (getRiskAssessment st target) = false ->
        updateRiskScore st sender now target sc
        = Revert "No active assessment").
Proof.
  split.
  - intros st sender now target sc st' H.
    apply updateRiskScore_effect in H as (_ & _ & Hmap & _).
    unfold isHighRisk, getRiskAssessment.
    rewrite Hmap, !lookup_total_insert_eq. cbn.
    repeat split. unfold _scoreToLevel.
    destruct (N.leb_spec 90 sc) as [H90|H90].
    + cbn. symmetry. apply N.leb_le. lia.
    + destruct (N.leb_spec 70 sc); [reflexivity|].
      destruct (40 <=? sc); [reflexivity|].
      destruct (10 <=? sc); reflexivity.
  - intros st sender now target sc Hrole Hsc Hact.
    unfold updateRiskScore, AccessControl.onlyRole, getRiskAssessment in *.
    apply N.leb_le in Hsc. now rewrite Hrole, Hsc, Hact.
Qed.

(** X3.  The assessment counter goes by the stored level, not by the
    active flag: [assessRisk] adds one exactly when the level stored for
    the target is NONE.  So an account assessed at a level other than
    NONE, cleared, and assessed again is counted once, while an account
    assessed with level NONE is counted again at its next assessment. *)
Theorem totalAssessments_counts_stored_NONE :
  (forall st sender now target lvl sc rsn st',
     assessRisk st sender now target lvl sc rsn = Ok st' ->
     totalAssessments st'
     = if decide (level (getRiskAssessment st target) = NONE)
       then totalAssessments st + 1 else totalAssessments st)
  /\ (forall st s1 n1 target lvl sc rsn st1 s2 st2 s3 n3 lvl' sc' rsn' st3,
        lvl <> NONE ->
        assessRisk st s1 n1 target lvl sc rsn = Ok st1 ->
        clearRisk st1 s2 target = Ok st2 ->
        assessRisk st2 s3 n3 target lvl' sc' rsn' = Ok st3 ->
        totalAssessments st3 = totalAssessments st1)
  /\ (forall st s1 n1 target sc rsn st1 s2 n2 lvl' sc' rsn' st2,
        assessRisk st s1 n1 target NONE sc rsn = Ok st1 ->
        assessRisk st1 s2 n2 target lvl' sc' rsn' = Ok st2 ->
        totalAssessments st2 = totalAssessments st1 + 1).
Proof.
  split; [|split].
  - intros st sender now target lvl sc rsn st' H.
    now apply assessRisk_effect in H as (_ & _ & Ht & _).
  - intros st s1 n1 target lvl sc rsn st1 s2 st2 s3 n3 lvl' sc' rsn' st3
      Hlvl H1 H2 H3.
    apply assessRisk_effect in H1 as (Hm1 & _ & _ & _).
    apply clearRisk_effect in H2 as (_ & Hm2 & _ & Ht2).
    apply assessRisk_effect in H3 as (_ & _ & Ht3 & _).
    rewrite Ht3, Hm2, lookup_total_insert_eq, Hm1, lookup_total_insert_eq.
    cbn. destruct (decide (lvl = NONE)); [contradiction|]. exact Ht2.
  - intros st s1 n1 target sc rsn st1 s2 n2 lvl' sc' rsn' st2 H1 H2.
    apply assessRisk_effect in H1 as (Hm1 & _ & _ & _).
    apply assessRisk_effect in H2 as (_ & _ & Ht2 & _).
    rewrite Ht2, Hm1, lookup_total_insert_eq. reflexivity.
Qed.

(** Every stored score is at most 100. *)
Definition scores_bounded (st : State) : Prop :=
  forall a, score (riskAssessments st !!! a) <= 100.

Lemma step_scores_bounded st st' :
  scores_bounded st -> step st st' -> scores_bounded st'.
Proof.
  intros Hinv Hstep a. destruct Hstep as
    [sender role account st' H
    |sender now target lvl sc rsn st' H
    |sender now target sc st' H
    |sender target st' H
    |roles'].
  - unfold grantRole in H. apply require_bind_inv in H as [_ H].
    injection H as <-. apply Hinv.
  - destruct (assessRisk_guards _ _ _ _ _ _ _ _ H) as (_ & _ & Hsc & _).
    apply assessRisk_effect in H as (Hm & _). rewrite Hm.
    destruct (decide (target = a)) as [<-|Hne].
    + now rewrite lookup_total_insert_eq.
    + rewrite lookup_total_insert_ne by exact Hne. apply Hinv.
  - apply updateRiskScore_effect in H as (Hsc & _ & Hm & _). rewrite Hm.
    destruct (decide (target = a)) as [<-|Hne].
    + now rewrite lookup_total_insert_eq.
    + rewrite lookup_total_insert_ne by exact Hne. apply Hinv.
  - apply clearRisk_effect in H as (_ & Hm & _). rewrite Hm.
    destruct (decide (target = a)) as [<-|Hne].
    + rewrite lookup_total_insert_eq. apply Hinv.
    + rewrite lookup_total_insert_ne by exact Hne. apply Hinv.
  - apply Hinv.
Qed.

(** X4.  In every state the registry can reach, whatever the sequence of
    calls, every account's stored score and the score [getRiskScore]
    returns are at most 100. *)
Theorem reachable_scores_at_most_100 st account :
  reachable st ->
  score (getRiskAssessment st account) <= 100
  /\ getRiskScore st account <= 100.
Proof.
  intros Hreach.
  assert (Hinv : scores_bounded st).
  { induction Hreach as [deployer|st st' _ IH Hstep].
    - intros a. cbn. rewrite lookup_total_empty. cbn. lia.
    - exact (step_scores_bounded _ _ IH Hstep). }
  unfold getRiskAssessment, getRiskScore. split; [apply Hinv|].
  destruct (active _); [apply Hinv|lia].
Qed.

(** X5.  The per-level index is append-only and is not kept in step with
    the assessments: [assessRisk] appends the target to the list of the
    level it is given, also when the target is already there, and leaves
    the other lists alone; no call ever removes an entry, so each list
    of a later state extends the list of the earlier one. *)
Theorem level_index_append_only :
  (forall st sender now target lvl sc rsn st',
     assessRisk st sender now target lvl sc rsn = Ok st' ->
     getAddressesByRiskLevel st' lvl
     = (getAddressesByRiskLevel st lvl ++ [target])%list
     /\ forall l, l <> lvl ->
          getAddressesByRiskLevel st' l = getAddressesByRiskLevel st l)
  /\ (forall st st' l,
        rtc step st st' ->
        exists k, getAddressesByRiskLevel st' l
                  = (getAddressesByRiskLevel st l ++ k)%list).
Proof.
  split.
  - intros st sender now target lvl sc rsn st' H.
    apply assessRisk_effect in H as (_ & Hidx & _).
    unfold getAddressesByRiskLevel. rewrite Hidx. split.
    + apply push_same.
    + intros l Hl. apply push_other. congruence.
  - intros st st' l Hsteps. unfold getAddressesByRiskLevel.
    induction Hsteps as [st|st st1 st2 Hstep _ [k IH]].
    + exists []. now rewrite app_nil_r.
    + assert (H1 : exists k1, addressesByRisk st1 !!! l
                              = (addressesByRisk st !!! l ++ k1)%list).
      { destruct Hstep as
          [sender role account st1 H
          |sender now target lvl sc rsn st1 H
          |sender now target sc st1 H
          |sender target st1 H
          |roles'].
        - unfold grantRole in H. apply require_bind_inv in H as [_ H].
          injection H as <-. exists []. now rewrite app_nil_r.
        - apply assessRisk_effect in H as (_ & Hidx & _). rewrite Hidx.
          destruct (decide (lvl = l)) as [<-|Hl].
          + rewrite push_same. eauto.
          + rewrite push_other by exact Hl. exists []. now rewrite app_nil_r.
        - apply updateRiskScore_effect in H as (_ & _ & _ & _ & Hidx).
          apply Hidx.
        - apply clearRisk_effect in H as (_ & _ & Hidx & _). rewrite Hidx.
          exists []. now rewrite app_nil_r.
        - exists []. now rewrite app_nil_r. }
      destruct H1 as [k1 H1]. exists (k1 ++ k)%list.
      now rewrite IH, H1, app_assoc.
Qed.

(** X6.  [assessRisk] rejects, in this order, a caller without the oracle
    role, the zero address, a score above 100 and an empty reason, each
    with its own message; and a successful call changes the assessment
    of no account but its target. *)
Theorem assessRisk_guards_in_order st sender now target lvl sc rsn :
  (AccessControl.hasRole (roles st) ORACLE_ROLE sender = false ->
   assessRisk st sender now target lvl sc rsn
   = Revert "AccessControlUnauthorizedAccount")
  /\ (AccessControl.hasRole (roles st) ORACLE_ROLE sender = true ->
      (target = 0 ->
       assessRisk st sender now target lvl sc rsn
       = Revert "Invalid target address")
      /\ (target <> 0 -> 100 < sc ->
          assessRisk st sender now target lvl sc rsn
          = Revert "Score must be 0-100")
      /\ (target <> 0 -> sc <= 100 -> rsn = "" ->
          assessRisk st sender now target lvl sc rsn
          = Revert "Reason required"))
  /\ (forall st', assessRisk st sender now target lvl sc rsn = Ok st' ->
        forall other, other <> target ->
          getRiskAssessment st' other = getRiskAssessment st other).
Proof.
  unfold assessRisk, AccessControl.onlyRole. split; [|split].
  - intros Hrole. now rewrite Hrole.
  - intros Hrole. rewrite Hrole. cbn. split; [|split].
    + intros ->. reflexivity.
    + intros Ht Hsc. apply N.eqb_neq in Ht. rewrite Ht. cbn.
      apply N.leb_gt in Hsc. now rewrite Hsc.
    + intros Ht Hsc ->. apply N.eqb_neq in Ht. rewrite Ht. cbn.
      apply N.leb_le in Hsc. now rewrite Hsc.
  - intros st' H other Hne.
    change (assessRisk st sender now target lvl sc rsn = Ok st') in H.
    apply assessRisk_effect in H as (Hm & _).
    unfold getRiskAssessment. rewrite Hm. apply lookup_total_insert_ne.
    congruence.
Qed.

End RiskRegistryMore.

Module RiskRegistryRuns.
Import RiskRegistry RiskRegistryFacts RiskRegistrySteps Deployment.

(** A run of X1: [user1] is assessed HIGH/85 and then cleared. *)
Lemma clearRisk_hides_keeps_history_witness :
  exists st',
    (st1 ← assessRisk (constructor owner) owner 1000 user1 HIGH 85
             "High risk activity detected";
     clearRisk st1 owner user1) = Ok st'
    /\ getRiskLevel st' user1 = NONE
    /\ getRiskScore st' user1 = 0
    /\ score (getRiskAssessment st' user1) = 85.
Proof.
  match goal with
  | |- exists st', ?run = _ /\ _ =>
      destruct (is_ok_inv run) as [st' H]; [vm_compute; reflexivity|]
  end.
  exists st'. split; [exact H|].
  apply bind_ok_inv in H as (st1 & H1 & H).
  destruct (RiskRegistryMore.clearRisk_hides_keeps_history _ _ _ _ H)
    as (Hl & Hs & _ & _ & Hscore & _).
  split; [exact Hl|]. split; [exact Hs|].
  rewrite Hscore. unfold getRiskAssessment.
  now rewrite (assessRisk_stored _ _ _ _ _ _ _ _ H1).
Defined.

(** A run of X2: [user1], assessed MEDIUM/55, is re-scored to 75. *)
Lemma updateRiskScore_high_risk_from_70_witness :
  exists st',
    (st1 ← assessRisk (constructor owner) owner 1000 user1 MEDIUM 55
             "Suspicious pattern detected";
     updateRiskScore st1 owner 1001 user1 75) = Ok st'
    /\ isHighRisk st' user1 = true.
Proof.
  match goal with
  | |- exists st', ?run = _ /\ _ =>
      destruct (is_ok_inv run) as [st' H]; [vm_compute; reflexivity|]
  end.
  exists st'. split; [exact H|].
  apply bind_ok_inv in H as (st1 & _ & H).
  destruct RiskRegistryMore.updateRiskScore_high_risk_from_70 as [Hthm _].
  now destruct (Hthm _ _ _ _ _ _ H) as (-> & _).
Defined.

(** A run of X3: assessed HIGH, cleared, assessed again: counted once. *)
Lemma totalAssessments_counts_stored_NONE_witness :
  exists p,
    (st1 ← assessRisk (constructor owner) owner 1000 user1 HIGH 85 "first";
     st2 ← clearRisk st1 owner user1;
     st3 ← assessRisk st2 owner 1002 user1 LOW 20 "second";
     Ok (st1, st3)) = Ok p
    /\ totalAssessments p.2 = totalAssessments p.1.
Proof.
  match goal with
  | |- exists p, ?run = _ /\ _ =>
      destruct (is_ok_inv run) as [p H]; [vm_compute; reflexivity|]
  end.
  exists p. split; [exact H|].
  apply bind_ok_inv in H as (st1 & H1 & H).
  apply bind_ok_inv in H as (st2 & H2 & H).
  apply bind_ok_inv in H as (st3 & H3 & H).
  injection H as <-. cbn [fst snd].
  destruct RiskRegistryMore.totalAssessments_counts_stored_NONE
    as (_ & Hthm & _).
  eapply Hthm; [|exact H1|exact H2|exact H3]. discriminate.
Defined.

(** A run of X4: the state after one assessment is reachable. *)
Lemma reachable_scores_at_most_100_witness :
  exists st',
    assessRisk (constructor owner) owner 1000 user1 HIGH 85
      "High risk activity detected" = Ok st'
    /\ getRiskScore st' user1 <= 100.
Proof.
  match goal with
  | |- exists st', ?run = _ /\ _ =>
      destruct (is_ok_inv run) as [st' H]; [vm_compute; reflexivity|]
  end.
  exists st'. split; [exact H|].
  apply (RiskRegistryMore.reachable_scores_at_most_100 st' user1).
  eapply reachable_step; [apply reachable_deployed|].
  eapply step_assessRisk, H.
Defined.

(** A run of X5: the same account assessed twice at one level is listed
    twice. *)
Lemma level_index_append_only_witness :
  exists st',
    (st1 ← assessRisk (constructor owner) owner 1000 user1 HIGH 85 "first";
     assessRisk st1 owner 1001 user1 HIGH 80 "second") = Ok st'
    /\ getAddressesByRiskLevel st' HIGH = [user1; user1].
Proof.
  match goal with
  | |- exists st', ?run = _ /\ _ =>
      destruct (is_ok_inv run) as [st' H]; [vm_compute; reflexivity|]
  end.
  exists st'. split; [exact H|].
  apply bind_ok_inv in H as (st1 & H1 & H).
  destruct RiskRegistryMore.level_index_append_only as [Hthm _].
  destruct (Hthm _ _ _ _ _ _ _ _ H) as [-> _].
  destruct (Hthm _ _ _ _ _ _ _ _ H1) as [-> _].
  reflexivity.
Defined.

(** A run of X6: the deployer, who holds the oracle role, assesses the
    zero address. *)
Lemma assessRisk_guards_in_order_witness :
  AccessControl.hasRole (roles (constructor owner)) ORACLE_ROLE owner = true
  /\ assessRisk (constructor owner) owner 1000 0 HIGH 85 "zero"
     = Revert "Invalid target address".
Proof.
  assert (Hrole : AccessControl.hasRole (roles (constructor owner))
                    ORACLE_ROLE owner = true) by (vm_compute; reflexivity).
  split; [exact Hrole|].
  destruct (RiskRegistryMore.assessRisk_guards_in_order (constructor owner)
              owner 1000 0 HIGH 85 "zero") as (_ & Hthm & _).
  destruct (Hthm Hrole) as (Hzero & _). now apply Hzero.
Defined.

End RiskRegistryRuns.

(** ** ComplianceOracle *)

Module ComplianceOracleMore.
Import ComplianceOracle ComplianceOracleFacts ComplianceOracleSteps.

Lemma clearSanction_effect st sender target st' :
  clearSanction st sender target = Ok st' ->
  isSanctioned st target = true
  /\ st' = mkState (<[ target := false ]> (sanctionedAddresses st))
             (sanctionedJurisdictions st) (dataSources st)
             (dataSourceIds st) (complianceChecks st) (roles st).
Proof.
  unfold clearSanction. intros H.
  apply require_bind_inv in H as [_ H].
  apply require_bind_inv in H as [Hs H].
  injection H as <-. auto.
Qed.

Lemma sanctionAddress_state this reg st sender now target srcId rsn st' reg' :
  sanctionAddress this reg st sender now target srcId rsn = Ok (st', reg') ->
  st' = mkState (<[ target := true ]> (sanctionedAddresses st))
          (sanctionedJurisdictions st) (dataSources st)
          (dataSourceIds st) (complianceChecks st) (roles st).
Proof.
  unfold sanctionAddress. intros H.
  apply require_bind_inv in H as [_ H].
  apply require_bind_inv in H as [_ H].
  apply require_bind_inv in H as [_ H].
  apply bind_ok_inv in H as (r & _ & H).
  now injection H as <- <-.
Qed.

Lemma performComplianceCheck_effect
    this reg st sender now target jur pep srcId st' reg' :
  performComplianceCheck this reg st sender now target jur pep srcId
  = Ok (st', reg') ->
  let sanctioned := isSanctioned st target
                    || default false (sanctionedJurisdictions st !! jur) in
  active (dataSources st !!! srcId) = true
  /\ st' = mkState (sanctionedAddresses st) (sanctionedJurisdictions st)
             (<[ srcId := mkDataSource (name (dataSources st !!! srcId))
                            (endpoint (dataSources st !!! srcId)) now
                            (active (dataSources st !!! srcId)) ]>
                (dataSources st))
             (dataSourceIds st)
             (<[ target := mkComplianceCheck sanctioned pep jur now srcId ]>
                (complianceChecks st))
             (roles st)
  /\ (if sanctioned || pep
      then RiskRegistry.assessRisk reg this now target
             (if sanctioned then RiskRegistry.CRITICAL else RiskRegistry.HIGH)
             (if sanctioned then 100 else 75)
             (if sanctioned then "Sanctioned entity" else "PEP identified")
           = Ok reg'
      else reg' = reg).
Proof.
  unfold performComplianceCheck, isSanctioned. cbv zeta. intros H.
  apply require_bind_inv in H as [_ H].
  apply require_bind_inv in H as [Hsrc H].
  split; [exact Hsrc|].
  destruct (_ || pep).
  - apply bind_ok_inv in H as (r & Hr & H). injection H as <- <-. auto.
  - injection H as <- <-. auto.
Qed.

(** X7.  [clearSanction] needs the flag set and unsets it, for that
    account only and without touching the stored compliance checks; so a
    second clear fails, and clearing an account that is not sanctioned
    fails with "Address not sanctioned". *)
Theorem clearSanction_unsets_once :
  (forall st sender target st',
     clearSanction st sender target = Ok st' ->
     isSanctioned st target = true
     /\ isSanctioned st' target = false
     /\ (forall sender', is_ok (clearSanction st' sender' target) = false)
     /\ (forall other, other <> target ->
           isSanctioned st' other = isSanctioned st other)
     /\ complianceChecks st' = complianceChecks st)
  /\ (forall st sender target,
        AccessControl.hasRole (roles st) VALIDATOR_ROLE sender = true ->
        isSanctioned st target = false ->
        clearSanction st sender target = Revert "Address not sanctioned").
Proof.
  split.
  - intros st sender target st' H.
    apply clearSanction_effect in H as (Hs & ->).
    split; [exact Hs|]. unfold isSanctioned. cbn.
    rewrite lookup_insert_eq. cbn. split; [reflexivity|]. split; [|split].
    + intros sender'.
      match goal with |- is_ok ?c = _ => destruct c eqn:E; [|reflexivity] end.
      apply clearSanction_effect in E as (E & _).
      unfold isSanctioned in E. cbn in E. rewrite lookup_insert_eq in E.
      discriminate.
    + intros other Hne. now rewrite lookup_insert_ne by congruence.
    + reflexivity.
  - intros st sender target Hrole Hs.
    unfold clearSanction, AccessControl.onlyRole, isSanctioned in *.
    now rewrite Hrole, Hs.
Qed.

(** X8.  Clearing a sanction does not undo the risk the sanction wrote:
    after [sanctionAddress] and [clearSanction] the account is no longer
    sanctioned but is still CRITICAL with score 100 in the registry, and
    [checkTransaction] from it (not whitelisted, nobody frozen, receiver
    not sanctioned) is still denied, now with FREEZE for critical
    risk. *)
Theorem cleared_sanction_still_critical
    this reg orc sender now target srcId rsn orc1 reg1 validator orc2
    enf now' to_ amt :
  sanctionAddress this reg orc sender now target srcId rsn = Ok (orc1, reg1) ->
  clearSanction orc1 validator target = Ok orc2 ->
  ComplianceEnforcement.enforcementEnabled enf = true ->
  ComplianceEnforcement.whitelisted
    (ComplianceEnforcement.accountStatuses enf !!! target) = false ->
  ComplianceEnforcement.frozen
    (ComplianceEnforcement.accountStatuses enf !!! target) = false ->
  ComplianceEnforcement.frozen
    (ComplianceEnforcement.accountStatuses enf !!! to_) = false ->
  isSanctioned orc2 to_ = false ->
  isSanctioned orc2 target = false
  /\ RiskRegistry.getRiskLevel reg1 target = RiskRegistry.CRITICAL
  /\ RiskRegistry.getRiskScore reg1 target = 100
  /\ ComplianceEnforcement.checkTransaction reg1 orc2 enf now' target to_ amt
     = Ok (false, ComplianceEnforcement.FREEZE, "Critical risk - sender").
Proof.
  intros Hsan Hclear Hen Hwl Hfr Hfrto Hto.
  apply sanctionAddress_effect in Hsan as (_ & _ & Hassess).
  pose proof (RiskRegistryFacts.assessRisk_getRiskLevel _ _ _ _ _ _ _ _ Hassess)
    as Hlevel.
  pose proof (RiskRegistryFacts.assessRisk_getRiskScore _ _ _ _ _ _ _ _ Hassess)
    as Hscore.
  assert (Hcleared : isSanctioned orc2 target = false).
  { apply clearSanction_effect in Hclear as (_ & ->).
    unfold isSanctioned. cbn. now rewrite lookup_insert_eq. }
  repeat (split; [assumption|]).
  unfold ComplianceEnforcement.checkTransaction.
  now rewrite Hen, Hwl, Hfr, Hfrto, Hcleared, Hto, Hlevel.
Qed.

(** X9.  [performComplianceCheck] stores a snapshot whose sanction bit is
    "address flagged or jurisdiction sanctioned", and escalates the risk
    to CRITICAL/100 when that bit is set, to HIGH/75 for a PEP that is not
    sanctioned, and not at all otherwise.  It never sets the address
    flag, so an account of a sanctioned jurisdiction is CRITICAL without
    being sanctioned. *)
Theorem performComplianceCheck_snapshot_and_risk
    this reg st sender now target jur pep srcId st' reg' :
  performComplianceCheck this reg st sender now target jur pep srcId
  = Ok (st', reg') ->
  let sanctioned := isSanctioned st target
                    || default false (sanctionedJurisdictions st !! jur) in
  getComplianceCheck st' target = mkComplianceCheck sanctioned pep jur now srcId
  /\ lastUpdate (getDataSource st' srcId) = now
  /\ (forall a, isSanctioned st' a = isSanctioned st a)
  /\ (sanctioned = true ->
      RiskRegistry.getRiskLevel reg' target = RiskRegistry.CRITICAL
      /\ RiskRegistry.getRiskScore reg' target = 100)
  /\ (sanctioned = false -> pep = true ->
      RiskRegistry.getRiskLevel reg' target = RiskRegistry.HIGH
      /\ RiskRegistry.getRiskScore reg' target = 75)
  /\ (sanctioned = false -> pep = false -> reg' = reg).
Proof.
  intros H sanctioned.
  apply performComplianceCheck_effect in H as (_ & -> & Hrisk).
  fold sanctioned in Hrisk |- *.
  unfold getComplianceCheck, getDataSource, isSanctioned. cbn.
  rewrite !lookup_total_insert_eq. cbn.
  repeat (split; [reflexivity|]).
  split; [|split].
  - intros Hs. rewrite Hs in Hrisk. cbn in Hrisk. split.
    + exact (RiskRegistryFacts.assessRisk_getRiskLevel _ _ _ _ _ _ _ _ Hrisk).
    + exact (RiskRegistryFacts.assessRisk_getRiskScore _ _ _ _ _ _ _ _ Hrisk).
  - intros Hs Hp. rewrite Hs, Hp in Hrisk. cbn in Hrisk. split.
    + exact (RiskRegistryFacts.assessRisk_getRiskLevel _ _ _ _ _ _ _ _ Hrisk).
    + exact (RiskRegistryFacts.assessRisk_getRiskScore _ _ _ _ _ _ _ _ Hrisk).
  - intros Hs Hp. rewrite Hs, Hp in Hrisk. exact Hrisk.
Qed.

(** X10.  [isCompliant] answers from the last stored check, not from the
    sanction flag: [sanctionAddress] changes it for no account, its own
    target included; right after a check it is true exactly when neither
    the address nor the jurisdiction was sanctioned; and sanctioning a
    jurisdiction makes every account whose stored check names it
    non-compliant. *)
Theorem isCompliant_reads_snapshot :
  (forall this reg st sender now target srcId rsn st' reg' a,
     sanctionAddress this reg st sender now target srcId rsn = Ok (st', reg') ->
     isCompliant st' a = isCompliant st a)
  /\ (forall this reg st sender now target jur pep srcId st' reg',
        performComplianceCheck this reg st sender now target jur pep srcId
        = Ok (st', reg') ->
        isCompliant st' target
        = negb (isSanctioned st target
                || default false (sanctionedJurisdictions st !! jur)))
  /\ (forall st sender jur st' a,
        sanctionJurisdiction st sender jur = Ok st' ->
        jurisdiction (getComplianceCheck st a) = jur ->
        isCompliant st' a = false).
Proof.
  split; [|split].
  - intros this reg st sender now target srcId rsn st' reg' a H.
    apply sanctionAddress_state in H as ->. reflexivity.
  - intros this reg st sender now target jur pep srcId st' reg' H.
    apply performComplianceCheck_effect in H as (_ & -> & _).
    unfold isCompliant, isSanctioned. cbn.
    rewrite lookup_total_insert_eq. cbn.
    destruct (default false (sanctionedAddresses st !! target)); cbn;
      [reflexivity|].
    destruct (default false (sanctionedJurisdictions st !! jur)); reflexivity.
  - intros st sender jur st' a H Hjur. unfold sanctionJurisdiction in H.
    apply require_bind_inv in H as [_ H]. injection H as <-.
    unfold isCompliant, getComplianceCheck in *. cbn.
    rewrite Hjur, lookup_insert_eq. cbn. apply andb_false_r.
Qed.

Section Sources.

Variable keccak256_name_time : string -> uint256 -> bytes32.

Lemma registerDataSource_effect st sender now nm ep st' i :
  registerDataSource keccak256_name_time st sender now nm ep = Ok (st', i) ->
  i = keccak256_name_time nm now
  /\ dataSources st' = <[ i := mkDataSource nm ep now true ]> (dataSources st)
  /\ dataSourceIds st' = (dataSourceIds st ++ [i])%list
  /\ sanctionedAddresses st' = sanctionedAddresses st.
Proof.
  unfold registerDataSource. intros H.
  apply require_bind_inv in H as [_ H].
  injection H as <- <-. auto.
Qed.

Lemma step_keeps_active st st' i :
  step keccak256_name_time st st' ->
  active (dataSources st !!! i) = true ->
  active (dataSources st' !!! i) = true.
Proof.
  intros Hstep Hact. destruct Hstep as
    [sender role account st' H
    |sender now nm ep st' j H
    |this reg sender now target srcId rsn st' reg' H
    |sender target st' H
    |this reg sender now target jur pep srcId st' reg' H
    |sender jur st' H
    |roles'].
  - unfold grantRole in H. apply require_bind_inv in H as [_ H].
    now injection H as <-.
  - apply registerDataSource_effect in H as (_ & -> & _).
    destruct (decide (j = i)) as [->|Hne].
    + now rewrite lookup_total_insert_eq.
    + now rewrite lookup_total_insert_ne.
  - now apply sanctionAddress_state in H as ->.
  - now apply clearSanction_effect in H as (_ & ->).
  - apply performComplianceCheck_effect in H as (Hsrc & -> & _). cbn.
    destruct (decide (srcId = i)) as [->|Hne].
    + now rewrite lookup_total_insert_eq.
    + now rewrite lookup_total_insert_ne.
  - unfold sanctionJurisdiction in H. apply require_bind_inv in H as [_ H].
    now injection H as <-.
  - exact Hact.
Qed.

(** X11.  A registered data source is stored active under the hash of
    (name, timestamp) and listed last; no call of the oracle ever
    deactivates a source, so it stays usable through any sequence of
    calls.  A source id that was never registered is refused by
    [sanctionAddress] with "Invalid data source". *)
Theorem data_source_active_for_good :
  (forall st sender now nm ep st' i,
     registerDataSource keccak256_name_time st sender now nm ep = Ok (st', i) ->
     i = keccak256_name_time nm now
     /\ getDataSource st' i = mkDataSource nm ep now true
     /\ getDataSources st' = (getDataSources st ++ [i])%list)
  /\ (forall st st' i,
        rtc (step keccak256_name_time) st st' ->
        active (getDataSource st i) = true ->
        active (getDataSource st' i) = true)
  /\ (forall this reg st sender now target srcId rsn,
        AccessControl.hasRole (roles st) ORACLE_UPDATER_ROLE sender = true ->
        target <> 0 ->
        dataSources st !! srcId = None ->
        sanctionAddress this reg st sender now target srcId rsn
        = Revert "Invalid data source").
Proof.
  split; [|split].
  - intros st sender now nm ep st' i H.
    apply registerDataSource_effect in H as (Hi & Hsrc & Hids & _).
    unfold getDataSource, getDataSources.
    rewrite Hsrc, Hids, lookup_total_insert_eq. auto.
  - intros st st' i Hsteps. unfold getDataSource.
    induction Hsteps as [st|st st1 st2 Hstep _ IH]; [auto|].
    intros Hact. apply IH. exact (step_keeps_active _ _ _ Hstep Hact).
  - intros this reg st sender now target srcId rsn Hrole Ht Hnone.
    unfold sanctionAddress, AccessControl.onlyRole.
    apply N.eqb_neq in Ht.
    now rewrite Hrole, Ht, lookup_total_alt, Hnone.
Qed.

End Sources.

End ComplianceOracleMore.

Module ComplianceOracleRuns.
Import ComplianceOracle Deployment.

(** A run of X7: [sanctioned] is put on the list and taken off again. *)
Lemma clearSanction_unsets_once_witness :
  exists st',
    (w ← beforeEach;
     r ← registerDataSource hash_name_time (oracle w) owner 1000
           "OFAC" "https://ofac.treasury.gov";
     s ← sanctionAddress oracleAddress (registry w) r.1 owner 1001 sanctioned
           r.2 "OFAC sanctioned entity";
     clearSanction s.1 owner sanctioned) = Ok st'
    /\ isSanctioned st' sanctioned = false
    /\ is_ok (clearSanction st' owner sanctioned) = false.
Proof.
  match goal with
  | |- exists st', ?run = _ /\ _ =>
      destruct (is_ok_inv run) as [st' H]; [vm_compute; reflexivity|]
  end.
  exists st'. split; [exact H|].
  apply bind_ok_inv in H as (w & _ & H).
  apply bind_ok_inv in H as (r & _ & H).
  apply bind_ok_inv in H as (s & _ & H).
  destruct ComplianceOracleMore.clearSanction_unsets_once as [Hthm _].
  destruct (Hthm _ _ _ _ H) as (_ & Hun & Hagain & _).
  split; [exact Hun|apply Hagain].
Defined.

(** A run of X8: [user1] is sanctioned and cleared; its transfer to
    [user2] is still denied. *)
Lemma cleared_sanction_still_critical_witness :
  exists w s orc2,
    (w ← beforeEach;
     r ← registerDataSource hash_name_time (oracle w) owner 1000
           "OFAC" "https://ofac.treasury.gov";
     s ← sanctionAddress oracleAddress (registry w) r.1 owner 1001 user1
           r.2 "OFAC sanctioned entity";
     orc2 ← clearSanction s.1 owner user1;
     Ok (w, s, orc2)) = Ok (w, s, orc2)
    /\ isSanctioned orc2 user1 = false
    /\ ComplianceEnforcement.checkTransaction s.2 orc2 (enforcement w) 2000
         user1 user2 ONE_ETHER
       = Ok (false, ComplianceEnforcement.FREEZE, "Critical risk - sender").
Proof.
  match goal with
  | |- exists w s orc2, ?run = _ /\ _ =>
      destruct (is_ok_inv run) as [[[w s] orc2] H]; [vm_compute; reflexivity|]
  end.
  exists w, s, orc2. split; [exact H|].
  pose proof H as Hrun.
  apply bind_ok_inv in H as (w0 & Hw & H).
  apply bind_ok_inv in H as (r & _ & H).
  apply bind_ok_inv in H as ([orc1 reg1] & Hsan & H).
  apply bind_ok_inv in H as (orc2' & Hclear & H).
  injection H as -> <- ->. cbn [fst snd] in *.
  destruct (ComplianceOracleMore.cleared_sanction_still_critical
              _ _ _ _ _ _ _ _ _ _ _ _ (enforcement w) 2000 user2 ONE_ETHER
              Hsan Hclear) as (Hun & _ & _ & Hcheck).
  - observe Hw.
  - observe Hw.
  - observe Hw.
  - observe Hw.
  - refine (run_observe _ (fun p => isSanctioned p.2 user2) _ _ Hrun _).
    vm_compute; reflexivity.
  - split; [exact Hun|exact Hcheck].
Defined.

(** A run of X9, as in the integration test: a politically exposed
    person of a jurisdiction that is not sanctioned becomes HIGH/75. *)
Lemma performComplianceCheck_snapshot_and_risk_witness :
  exists r p,
    (w ← beforeEach;
     registerDataSource hash_name_time (oracle w) owner 1000
       "FATF" "https://fatf-gafi.org") = Ok r
    /\ (w ← beforeEach;
        performComplianceCheck oracleAddress (registry w) r.1 owner 1001 user1
          "US" true r.2) = Ok p
    /\ isPEP (getComplianceCheck p.1 user1) = true
    /\ RiskRegistry.getRiskLevel p.2 user1 = RiskRegistry.HIGH
    /\ RiskRegistry.getRiskScore p.2 user1 = 75.
Proof.
  match goal with
  | |- exists r p, ?run = _ /\ _ =>
      destruct (is_ok_inv run) as [r Hr]; [vm_compute; reflexivity|]
  end.
  exists r.
  assert (Hok : is_ok (w ← beforeEach;
                       performComplianceCheck oracleAddress (registry w) r.1
                         owner 1001 user1 "US" true r.2) = true) by observe Hr.
  apply is_ok_inv in Hok as [[st' reg'] H].
  exists (st', reg'). split; [exact Hr|]. split; [exact H|].
  apply bind_ok_inv in H as (w & _ & H). cbn [fst snd].
  destruct (ComplianceOracleMore.performComplianceCheck_snapshot_and_risk
              _ _ _ _ _ _ _ _ _ _ _ H) as (Hsnap & _ & _ & _ & Hpep & _).
  split; [now rewrite Hsnap|].
  apply Hpep; [|reflexivity]. observe Hr.
Defined.

(** A run of X10: [user1] passes a check and is sanctioned afterwards;
    [isCompliant] still says yes. *)
Lemma isCompliant_reads_snapshot_witness :
  exists r p,
    (w ← beforeEach;
     r ← registerDataSource hash_name_time (oracle w) owner 1000
           "OFAC" "https://ofac.treasury.gov";
     c ← performComplianceCheck oracleAddress (registry w) r.1 owner 1001
           user1 "US" false r.2;
     Ok (c, r.2)) = Ok r
    /\ sanctionAddress oracleAddress r.1.2 r.1.1 owner 1002 user1 r.2
         "OFAC sanctioned entity" = Ok p
    /\ isSanctioned p.1 user1 = true
    /\ isCompliant p.1 user1 = true.
Proof.
  match goal with
  | |- exists r p, ?run = _ /\ _ =>
      destruct (is_ok_inv run) as [r Hr]; [vm_compute; reflexivity|]
  end.
  exists r.
  destruct (is_ok_inv (sanctionAddress oracleAddress r.1.2 r.1.1 owner 1002
                         user1 r.2 "OFAC sanctioned entity"))
    as [[st' reg'] H]; [observe Hr|].
  exists (st', reg'). split; [exact Hr|]. split; [exact H|]. cbn [fst].
  destruct (ComplianceOracleFacts.sanctionAddress_effect _ _ _ _ _ _ _ _ _ _ H)
    as (_ & Hsan & _).
  split; [exact Hsan|].
  destruct ComplianceOracleMore.isCompliant_reads_snapshot as (Hstale & _).
  rewrite (Hstale _ _ _ _ _ _ _ _ _ _ user1 H). observe Hr.
Defined.

(** A run of X11: the OFAC source is registered and read back. *)
Lemma data_source_active_for_good_witness :
  exists r,
    (w ← beforeEach;
     registerDataSource hash_name_time (oracle w) owner 1000
       "OFAC" "https://ofac.treasury.gov") = Ok r
    /\ getDataSource r.1 r.2
       = mkDataSource "OFAC" "https://ofac.treasury.gov" 1000 true.
Proof.
  match goal with
  | |- exists r, ?run = _ /\ _ =>
      destruct (is_ok_inv run) as [[st' i] H]; [vm_compute; reflexivity|]
  end.
  exists (st', i). split; [exact H|].
  apply bind_ok_inv in H as (w & _ & H).
  destruct (ComplianceOracleMore.data_source_active_for_good hash_name_time)
    as (Hthm & _).
  now destruct (Hthm _ _ _ _ _ _ _ H) as (_ & Hsrc & _).
Defined.

End ComplianceOracleRuns.

(** ** TransactionMonitor *)

Module MonitorMore.
Import TransactionMonitor MonitorFacts TransactionMonitorSteps.

Lemma analyzeTransaction_effect
    this reg orc st sender now hash frm to_ amt p anomaly nts st' reg' :
  analyzeTransaction this reg orc st sender now hash frm to_ amt p anomaly nts
  = Ok (st', reg') ->
  anomaly <= 100
  /\ highRiskThreshold st' = highRiskThreshold st
  /\ criticalRiskThreshold st' = criticalRiskThreshold st
  /\ addressTransactions st'
     = pushTx (pushTx (addressTransactions st) frm hash) to_ hash
  /\ (if (highRiskThreshold st <=? anomaly) || bool_decide (p <> NORMAL)
      then alertCounter st' = alertCounter st + 1
           /\ alerts st'
              = <[ alertCounter st + 1 :=
                     mkAlert (alertCounter st + 1) frm p
                       (_calculateSeverity st anomaly p) nts now false 0 ]>
                  (alerts st)
           /\ flaggedTransactionCount st' = flaggedTransactionCount st + 1
           /\ _updateRiskScores this reg orc now frm to_ anomaly = Ok reg'
      else alertCounter st' = alertCounter st
           /\ alerts st' = alerts st
           /\ flaggedTransactionCount st' = flaggedTransactionCount st
           /\ reg' = reg).
Proof.
  unfold analyzeTransaction. intros H.
  apply require_bind_inv in H as [_ H].
  apply require_bind_inv in H as [Hsc H].
  apply N.leb_le in Hsc. split; [exact Hsc|].
  destruct (_ || _).
  - apply bind_ok_inv in H as (c & Hadd & H).
    apply checked_add_inv in Hadd as [-> _].
    unfold _createAlert in H. cbn in H.
    apply bind_ok_inv in H as (st3 & Halert & H).
    apply bind_ok_inv in Halert as (c & Hadd & Halert).
    apply checked_add_inv in Hadd as [-> _].
    injection Halert as <-.
    apply bind_ok_inv in H as (r & Hrisk & H).
    injection H as <- <-. cbn. auto 10.
  - injection H as <- <-. cbn. auto 10.
Qed.

Lemma resolveAlert_effect st sender alertId st' :
  resolveAlert st sender alertId = Ok st' ->
  resolved (alerts st !!! alertId) = false
  /\ alerts st'
     = <[ alertId := mkAlert (id (alerts st !!! alertId))
                       (target (alerts st !!! alertId))
                       (alertPattern (alerts st !!! alertId))
                       (alertSeverity (alerts st !!! alertId))
                       (description (alerts st !!! alertId))
                       (alertTimestamp (alerts st !!! alertId)) true sender ]>
         (alerts st)
  /\ alertCounter st' = alertCounter st
  /\ highRiskThreshold st' = highRiskThreshold st
  /\ criticalRiskThreshold st' = criticalRiskThreshold st.
Proof.
  unfold resolveAlert. intros H.
  apply require_bind_inv in H as [_ H].
  apply require_bind_inv in H as [Hres H].
  apply negb_true_iff in Hres. injection H as <-. auto.
Qed.

Lemma updateThresholds_effect st sender high critical st' :
  updateThresholds st sender high critical = Ok st' ->
  high < critical /\ critical <= 100
  /\ highRiskThreshold st' = high /\ criticalRiskThreshold st' = critical
  /\ alerts st' = alerts st /\ alertCounter st' = alertCounter st.
Proof.
  unfold updateThresholds. intros H.
  apply require_bind_inv in H as [_ H].
  apply require_bind_inv in H as [Hlt H].
  apply require_bind_inv in H as [Hle H].
  apply N.ltb_lt in Hlt. apply N.leb_le in Hle.
  injection H as <-. auto 10.
Qed.

(** What one step does to a stored alert that is already numbered. *)
Lemma step_alert st st' alertId :
  step st st' -> alertId <= alertCounter st ->
  alertCounter st <= alertCounter st'
  /\ (resolved (alerts st !!! alertId) = true ->
      resolved (alerts st' !!! alertId) = true).
Proof.
  intros Hstep Hid. destruct Hstep as
    [sender role account st' H
    |this reg orc sender now hash frm to_ amt p anomaly nts st' reg' H
    |sender i st' H
    |sender high critical st' H
    |roles'].
  - unfold grantRole in H. apply require_bind_inv in H as [_ H].
    injection H as <-. cbn. split; [lia|auto].
  - apply analyzeTransaction_effect in H as (_ & _ & _ & _ & H).
    destruct (_ || _).
    + destruct H as (-> & -> & _). split; [lia|].
      rewrite lookup_total_insert_ne by lia. auto.
    + destruct H as (-> & -> & _). split; [lia|auto].
  - apply resolveAlert_effect in H as (_ & -> & -> & _). split; [lia|].
    destruct (decide (i = alertId)) as [->|Hne].
    + now rewrite lookup_total_insert_eq.
    + now rewrite lookup_total_insert_ne.
  - apply updateThresholds_effect in H as (_ & _ & _ & _ & -> & ->).
    split; [lia|auto].
  - cbn. split; [lia|auto].
Qed.

(** X12.  Resolving an alert is one-way: a successful [resolveAlert] marks
    the alert resolved and records the resolver, keeping its other
    fields; an authorised second call fails with "Alert already
    resolved"; and an alert numbered at or below the alert counter that
    is resolved stays resolved through any sequence of calls. *)
Theorem resolveAlert_one_way :
  (forall st sender alertId st',
     resolveAlert st sender alertId = Ok st' ->
     resolved (getAlert st alertId) = false
     /\ resolved (getAlert st' alertId) = true
     /\ resolver (getAlert st' alertId) = sender
     /\ target (getAlert st' alertId) = target (getAlert st alertId)
     /\ alertSeverity (getAlert st' alertId)
        = alertSeverity (getAlert st alertId)
     /\ description (getAlert st' alertId) = description (getAlert st alertId)
     /\ forall sender', is_ok (resolveAlert st' sender' alertId) = false)
  /\ (forall st sender alertId,
        AccessControl.hasRole (roles st) MONITOR_ROLE sender = true ->
        resolved (getAlert st alertId) = true ->
        resolveAlert st sender alertId = Revert "Alert already resolved")
  /\ (forall st st' alertId,
        rtc step st st' ->
        alertId <= alertCounter st ->
        resolved (getAlert st alertId) = true ->
        resolved (getAlert st' alertId) = true).
Proof.
  split; [|split].
  - intros st sender alertId st' H. pose proof H as H0.
    apply resolveAlert_effect in H as (Hres & Hmap & _).
    unfold getAlert. rewrite Hmap, !lookup_total_insert_eq. cbn.
    repeat (split; [auto|]).
    intros sender'.
    destruct (resolveAlert st' sender' alertId) eqn:E; [|reflexivity].
    apply resolveAlert_effect in E as (E & _).
    rewrite Hmap, lookup_total_insert_eq in E. discriminate.
  - intros st sender alertId Hrole Hres.
    unfold resolveAlert, AccessControl.onlyRole, getAlert in *.
    now rewrite Hrole, Hres.
  - intros st st' alertId Hsteps. unfold getAlert.
    induction Hsteps as [st|st st1 st2 Hstep _ IH]; [auto|].
    intros Hid Hres.
    destruct (step_alert _ _ alertId Hstep Hid) as [Hle Hkeep].
    apply IH; [lia|auto].
Qed.

(** X13.  [resolveAlert] does not ask whether the alert exists: for a
    number no alert was stored under, an authorised call succeeds and
    leaves a resolved record without target.  When that number is the
    next alert number, the next flagged analysis stores its alert there,
    unresolved, in place of that record. *)
Theorem resolveAlert_accepts_unknown_id :
  (forall st sender alertId,
     AccessControl.hasRole (roles st) MONITOR_ROLE sender = true ->
     alerts st !! alertId = None ->
     exists st',
       resolveAlert st sender alertId = Ok st'
       /\ getAlert st' alertId = mkAlert 0 0 NORMAL INFO "" 0 true sender)
  /\ (forall st sender st1 this reg orc sender' now hash frm to_ amt p anomaly
             nts st2 reg',
        resolveAlert st sender (alertCounter st + 1) = Ok st1 ->
        analyzeTransaction this reg orc st1 sender' now hash frm to_ amt p
          anomaly nts = Ok (st2, reg') ->
        highRiskThreshold st <= anomaly \/ p <> NORMAL ->
        resolved (getAlert st1 (alertCounter st + 1)) = true
        /\ getAlert st2 (alertCounter st + 1)
           = mkAlert (alertCounter st + 1) frm p
               (_calculateSeverity st anomaly p) nts now false 0).
Proof.
  split.
  - intros st sender alertId Hrole Hnone.
    unfold resolveAlert, AccessControl.onlyRole, getAlert.
    rewrite Hrole, lookup_total_alt, Hnone. cbn.
    eexists. split; [reflexivity|]. cbn. apply lookup_total_insert_eq.
  - intros st sender st1 this reg orc sender' now hash frm to_ amt p anomaly
      nts st2 reg' Hres Han Hflag.
    apply resolveAlert_effect in Hres as (_ & Hmap & Hcnt & Hhigh & Hcrit).
    apply analyzeTransaction_effect in Han as (_ & _ & _ & _ & Han).
    assert (Hf : (highRiskThreshold st1 <=? anomaly)
                 || bool_decide (p <> NORMAL) = true).
    { rewrite Hhigh. apply orb_true_iff. destruct Hflag as [Hs|Hp].
      - left. now apply N.leb_le.
      - right. now apply bool_decide_eq_true. }
    rewrite Hf in Han. destruct Han as (_ & Hal & _).
    unfold getAlert. rewrite Hmap, lookup_total_insert_eq. cbn.
    split; [reflexivity|].
    rewrite Hal, Hcnt, lookup_total_insert_eq.
    unfold _calculateSeverity. now rewrite Hhigh, Hcrit.
Qed.

(** The thresholds are in order. *)
Definition thresholds_ordered (st : State) : Prop :=
  highRiskThreshold st < criticalRiskThreshold st
  /\ criticalRiskThreshold st <= 100.

Lemma reachable_thresholds_ordered st : reachable st -> thresholds_ordered st.
Proof.
  induction 1 as [deployer ra oa st H|st st' _ IH Hstep].
  - unfold constructor in H.
    apply require_bind_inv in H as [_ H].
    apply require_bind_inv in H as [_ H].
    injection H as <-. unfold thresholds_ordered. cbn. lia.
  - unfold thresholds_ordered in *. destruct Hstep as
      [sender role account st' H
      |this reg orc sender now hash frm to_ amt p anomaly nts st' reg' H
      |sender i st' H
      |sender high critical st' H
      |roles'].
    + unfold grantRole in H. apply require_bind_inv in H as [_ H].
      injection H as <-. exact IH.
    + apply analyzeTransaction_effect in H as (_ & -> & -> & _). exact IH.
    + apply resolveAlert_effect in H as (_ & _ & _ & -> & ->). exact IH.
    + apply updateThresholds_effect in H as (Hlt & Hle & -> & -> & _). auto.
    + exact IH.
Qed.

(** A stored analysis agrees with its flag. *)
Definition flag_agrees (a : TransactionAnalysis) : Prop :=
  (flagged a = true -> severity a <> INFO)
  /\ (flagged a = false -> severity a <> HIGH /\ severity a <> CRITICAL)
  /\ (flagged a = true -> pattern a = NORMAL ->
      severity a = HIGH \/ severity a = CRITICAL).

Lemma calculateSeverity_flag_agrees st hash frm to_ amt p anomaly now nts :
  thresholds_ordered st ->
  flag_agrees (mkTransactionAnalysis hash frm to_ amt p
                 (_calculateSeverity st anomaly p) anomaly now
                 ((highRiskThreshold st <=? anomaly)
                  || bool_decide (p <> NORMAL)) nts).
Proof.
  intros [Hlt Hle]. unfold flag_agrees, _calculateSeverity. cbn.
  destruct (N.leb_spec (criticalRiskThreshold st) anomaly);
    destruct (N.leb_spec (highRiskThreshold st) anomaly);
    destruct (N.leb_spec 50 anomaly); destruct (N.leb_spec 25 anomaly);
    try lia; destruct p; cbn; repeat split; intros; try discriminate; auto.
Qed.

Lemma resolveAlert_keeps_analyses st sender alertId st' :
  resolveAlert st sender alertId = Ok st' ->
  transactionAnalyses st' = transactionAnalyses st.
Proof.
  unfold resolveAlert. intros H.
  apply require_bind_inv in H as [_ H].
  apply require_bind_inv in H as [_ H].
  injection H as <-. reflexivity.
Qed.

Lemma updateThresholds_keeps_analyses st sender high critical st' :
  updateThresholds st sender high critical = Ok st' ->
  transactionAnalyses st' = transactionAnalyses st.
Proof.
  unfold updateThresholds. intros H.
  apply require_bind_inv in H as [_ H].
  apply require_bind_inv in H as [_ H].
  apply require_bind_inv in H as [_ H].
  injection H as <-. reflexivity.
Qed.

Lemma reachable_flag_agrees st hash :
  reachable st -> flag_agrees (transactionAnalyses st !!! hash).
Proof.
  intros Hreach. revert hash.
  induction Hreach as [deployer ra oa st H|st st' Hreach IH Hstep].
  - intros hash. unfold constructor in H.
    apply require_bind_inv in H as [_ H].
    apply require_bind_inv in H as [_ H].
    injection H as <-. cbn. rewrite lookup_total_empty.
    unfold flag_agrees. cbn. repeat split; discriminate.
  - intros hash. destruct Hstep as
      [sender role account st' H
      |this reg orc sender now h frm to_ amt p anomaly nts st' reg' H
      |sender i st' H
      |sender high critical st' H
      |roles'].
    + unfold grantRole in H. apply require_bind_inv in H as [_ H].
      injection H as <-. apply IH.
    + apply analyzeTransaction_stored in H. rewrite H.
      destruct (decide (h = hash)) as [->|Hne].
      * rewrite lookup_total_insert_eq.
        apply calculateSeverity_flag_agrees.
        now apply reachable_thresholds_ordered.
      * rewrite lookup_total_insert_ne by exact Hne. apply IH.
    + rewrite (resolveAlert_keeps_analyses _ _ _ _ H). apply IH.
    + rewrite (updateThresholds_keeps_analyses _ _ _ _ _ H). apply IH.
    + apply IH.
Qed.

(** X14.  In every state the monitor can reach the thresholds satisfy
    [high < critical <= 100], and every analysis stored there, whenever
    and under whatever thresholds it was written, agrees with its flag: a
    flagged analysis is never INFO, an unflagged one is never HIGH or
    CRITICAL, and a flagged analysis of a NORMAL pattern is HIGH or
    CRITICAL. *)
Theorem severity_agrees_with_flag st hash :
  reachable st ->
  let a := getTransactionAnalysis st hash in
  highRiskThreshold st < criticalRiskThreshold st <= 100
  /\ (flagged a = true -> severity a <> INFO)
  /\ (flagged a = false -> severity a <> HIGH /\ severity a <> CRITICAL)
  /\ (flagged a = true -> pattern a = NORMAL ->
      severity a = HIGH \/ severity a = CRITICAL).
Proof.
  intros Hreach a.
  destruct (reachable_thresholds_ordered _ Hreach) as [Hlt Hle].
  split; [lia|]. exact (reachable_flag_agrees st hash Hreach).
Qed.

(** X15.  An analysis that is not flagged only records: the registry is
    returned as it was, and the alert counter, the alerts and the flagged
    counter are unchanged. *)
Theorem unflagged_analysis_only_records
    this reg orc st sender now hash frm to_ amt p anomaly nts st' reg' :
  analyzeTransaction this reg orc st sender now hash frm to_ amt p anomaly nts
  = Ok (st', reg') ->
  anomaly < highRiskThreshold st -> p = NORMAL ->
  flagged (getTransactionAnalysis st' hash) = false
  /\ reg' = reg
  /\ alertCounter st' = alertCounter st
  /\ alerts st' = alerts st
  /\ flaggedTransactionCount st' = flaggedTransactionCount st.
Proof.
  intros H Hsc ->.
  assert (Hf : (highRiskThreshold st <=? anomaly)
               || bool_decide (NORMAL <> NORMAL) = false).
  { apply orb_false_iff. split; [now apply N.leb_gt|].
    apply bool_decide_eq_false. auto. }
  pose proof (analyzeTransaction_stored _ _ _ _ _ _ _ _ _ _ _ _ _ _ _ H) as Hst.
  apply analyzeTransaction_effect in H as (_ & _ & _ & _ & H).
  rewrite Hf in H. destruct H as (Hc & Ha & Hfc & Hr).
  unfold getTransactionAnalysis. rewrite Hst, lookup_total_insert_eq. cbn.
  auto.
Qed.

(** X16.  Every analysis is indexed under both parties: the hash is
    appended to the sender's and to the receiver's list, twice to the one
    list when sender and receiver are the same account, and no other
    account's list changes. *)
Theorem analysis_indexed_under_both_parties
    this reg orc st sender now hash frm to_ amt p anomaly nts st' reg' :
  analyzeTransaction this reg orc st sender now hash frm to_ amt p anomaly nts
  = Ok (st', reg') ->
  (frm <> to_ ->
   getAddressTransactions st' frm
   = (getAddressTransactions st frm ++ [hash])%list
   /\ getAddressTransactions st' to_
      = (getAddressTransactions st to_ ++ [hash])%list)
  /\ (frm = to_ ->
      getAddressTransactions st' frm
      = (getAddressTransactions st frm ++ [hash; hash])%list)
  /\ (forall other, other <> frm -> other <> to_ ->
        getAddressTransactions st' other = getAddressTransactions st other).
Proof.
  intros H. apply analyzeTransaction_effect in H as (_ & _ & _ & Hidx & _).
  unfold getAddressTransactions. rewrite Hidx. unfold pushTx.
  split; [|split].
  - intros Hne. split.
    + rewrite lookup_total_insert_ne by congruence.
      apply lookup_total_insert_eq.
    + rewrite lookup_total_insert_eq.
      now rewrite lookup_total_insert_ne by congruence.
  - intros <-. rewrite !lookup_total_insert_eq, <- app_assoc. reflexivity.
  - intros other H1 H2. now rewrite !lookup_total_insert_ne by congruence.
Qed.

(** X17.  A transaction sent from the zero address can be recorded only
    while it is not flagged.  When it is flagged the analysis fails,
    whatever the states and the caller: the registry write for the sender
    cannot succeed.  When the caller holds AI_ORACLE_ROLE, the score is
    at most 100, neither the flagged count, the alert counter nor the
    score sum overflows and the monitor holds the registry's ORACLE_ROLE,
    the failure is the registry's "Invalid target address".  Unflagged,
    an authorised call with a score of at most 100 succeeds. *)
Theorem zero_sender_flagged_never_recorded :
  (forall this reg orc st sender now hash to_ amt p anomaly nts,
     highRiskThreshold st <= anomaly \/ p <> NORMAL ->
     is_ok (analyzeTransaction this reg orc st sender now hash 0 to_ amt p
              anomaly nts) = false)
  /\ (forall this reg orc st sender now hash to_ amt p anomaly nts,
        highRiskThreshold st <= anomaly \/ p <> NORMAL ->
        AccessControl.hasRole (roles st) AI_ORACLE_ROLE sender = true ->
        anomaly <= 100 ->
        flaggedTransactionCount st < MAX_UINT256 ->
        alertCounter st < MAX_UINT256 ->
        RiskRegistry.getRiskScore reg 0 + anomaly <= MAX_UINT256 ->
        AccessControl.hasRole (RiskRegistry.roles reg)
          RiskRegistry.ORACLE_ROLE this = true ->
        analyzeTransaction this reg orc st sender now hash 0 to_ amt p
          anomaly nts
        = Revert "Invalid target address")
  /\ (forall this reg orc st sender now hash to_ amt anomaly nts,
        AccessControl.hasRole (roles st) AI_ORACLE_ROLE sender = true ->
        anomaly <= 100 -> anomaly < highRiskThreshold st ->
        is_ok (analyzeTransaction this reg orc st sender now hash 0 to_ amt
                 NORMAL anomaly nts) = true).
Proof.
  split; [|split].
  - intros this reg orc st sender now hash to_ amt p anomaly nts Hflag.
    match goal with |- is_ok ?c = _ => destruct c as [[st' reg']|] eqn:E end;
      [|reflexivity].
    apply analyzeTransaction_effect in E as (_ & _ & _ & _ & E).
    assert (Hf : (highRiskThreshold st <=? anomaly)
                 || bool_decide (p <> NORMAL) = true).
    { apply orb_true_iff. destruct Hflag as [Hs|Hp].
      - left. now apply N.leb_le.
      - right. now apply bool_decide_eq_true. }
    rewrite Hf in E. destruct E as (_ & _ & _ & E).
    apply updateRiskScores_effect in E as (reg1 & E & _).
    apply RiskRegistryFacts.assessRisk_guards in E as (_ & E & _).
    contradiction.
  - intros this reg orc st sender now hash to_ amt p anomaly nts Hflag Hrole
      Hsc Hcount Halert Hsum Hreg.
    assert (Hf : (highRiskThreshold st <=? anomaly)
                 || bool_decide (p <> NORMAL) = true).
    { apply orb_true_iff. destruct Hflag as [Hs|Hp].
      - left. now apply N.leb_le.
      - right. now apply bool_decide_eq_true. }
    unfold analyzeTransaction, AccessControl.onlyRole.
    apply N.leb_le in Hsc. rewrite Hrole, Hsc. cbn -[checked_add].
    rewrite Hf. cbn -[checked_add].
    rewrite (checked_add_ok (flaggedTransactionCount st) 1) by lia.
    cbn -[checked_add]. unfold _createAlert. cbn -[checked_add].
    rewrite (checked_add_ok (alertCounter st) 1) by lia.
    cbn -[checked_add]. unfold _updateRiskScores.
    rewrite (checked_add_ok _ anomaly) by exact Hsum.
    cbn -[checked_add N.div]. unfold RiskRegistry.assessRisk,
      AccessControl.onlyRole.
    rewrite Hreg. reflexivity.
  - intros this reg orc st sender now hash to_ amt anomaly nts Hrole Hsc Hlow.
    unfold analyzeTransaction, AccessControl.onlyRole.
    apply N.leb_le in Hsc. apply N.leb_gt in Hlow.
    rewrite Hrole, Hsc, Hlow. reflexivity.
Qed.

(** X18.  The fold-back averages, so it can lower a score as well as raise
    it: after a flagged analysis whose receiver is not sanctioned the
    sender's score is the integer average of its previous score and the
    anomaly score, which lies between the two, and is strictly below the
    previous score whenever the anomaly score is at least two below
    it. *)
Theorem flagged_analysis_averages
    this reg orc st sender now hash frm to_ amt p anomaly nts st' reg' :
  analyzeTransaction this reg orc st sender now hash frm to_ amt p anomaly nts
  = Ok (st', reg') ->
  highRiskThreshold st <= anomaly \/ p <> NORMAL ->
  ComplianceOracle.isSanctioned orc to_ = false ->
  let old := RiskRegistry.getRiskScore reg frm in
  let new := RiskRegistry.getRiskScore reg' frm in
  new = (old + anomaly) / 2
  /\ N.min old anomaly <= new <= N.max old anomaly
  /\ (anomaly + 2 <= old -> new < old).
Proof.
  intros H Hflag Hsan old new.
  apply analyzeTransaction_effect in H as (_ & _ & _ & _ & H).
  assert (Hf : (highRiskThreshold st <=? anomaly)
               || bool_decide (p <> NORMAL) = true).
  { apply orb_true_iff. destruct Hflag as [Hs|Hp].
    - left. now apply N.leb_le.
    - right. now apply bool_decide_eq_true. }
  rewrite Hf in H. destruct H as (_ & _ & _ & H).
  apply updateRiskScores_effect in H as (reg1 & H1 & H2).
  rewrite Hsan in H2. subst reg1.
  apply RiskRegistryFacts.assessRisk_getRiskScore in H1.
  fold new in H1. fold old in H1. split; [exact H1|].
  rewrite H1.
  pose proof (N.Div0.div_le_mono (2 * N.min old anomaly) (old + anomaly) 2).
  assert (Hlo : N.min old anomaly <= (old + anomaly) / 2).
  { apply N.div_le_lower_bound; lia. }
  assert (Hhi : (old + anomaly) / 2 <= N.max old anomaly).
  { apply N.Div0.div_le_upper_bound; lia. }
  split; [lia|].
  intros Hlt. apply N.Div0.div_lt_upper_bound. lia.
Qed.

End MonitorMore.

Module MonitorMoreRuns.
Import TransactionMonitor TransactionMonitorSteps Deployment.

(** A run of X12: a flagged analysis raises alert 1, which is resolved. *)
Lemma resolveAlert_one_way_witness :
  exists st',
    (w ← beforeEach;
     r ← analyzeTransaction monitorAddress (registry w) (oracle w) (monitor w)
           owner 1000 7 user1 user2 5 MIXING 85 "Potential mixing service usage";
     resolveAlert r.1 owner 1) = Ok st'
    /\ resolved (getAlert st' 1) = true
    /\ resolver (getAlert st' 1) = owner
    /\ is_ok (resolveAlert st' owner 1) = false.
Proof.
  match goal with
  | |- exists st', ?run = _ /\ _ =>
      destruct (is_ok_inv run) as [st' H]; [vm_compute; reflexivity|]
  end.
  exists st'. split; [exact H|].
  apply bind_ok_inv in H as (w & _ & H).
  apply bind_ok_inv in H as (r & _ & H).
  destruct MonitorMore.resolveAlert_one_way as (Hthm & _).
  destruct (Hthm _ _ _ _ H) as (_ & Hres & Hby & _ & _ & _ & Hagain).
  auto.
Defined.

(** A run of X13: no alert exists yet and number 5 is resolved. *)
Lemma resolveAlert_accepts_unknown_id_witness :
  exists w,
    beforeEach = Ok w
    /\ AccessControl.hasRole (roles (monitor w)) MONITOR_ROLE owner = true
    /\ alerts (monitor w) !! 5 = None
    /\ exists st',
         resolveAlert (monitor w) owner 5 = Ok st'
         /\ getAlert st' 5 = mkAlert 0 0 NORMAL INFO "" 0 true owner.
Proof.
  destruct (is_ok_inv beforeEach) as [w Hw]; [vm_compute; reflexivity|].
  exists w. split; [exact Hw|].
  assert (Hrole : AccessControl.hasRole (roles (monitor w)) MONITOR_ROLE owner
                  = true) by observe Hw.
  assert (Hnone : alerts (monitor w) !! 5 = None) by observe Hw.
  split; [exact Hrole|]. split; [exact Hnone|].
  destruct MonitorMore.resolveAlert_accepts_unknown_id as (Hthm & _).
  exact (Hthm _ _ _ Hrole Hnone).
Defined.

(** A run of X14: the deployed monitor analyses a mixing transfer scored
    85; in the state after it the stored analysis is flagged and not
    INFO. *)
Lemma severity_agrees_with_flag_witness :
  exists w r,
    beforeEach = Ok w
    /\ analyzeTransaction monitorAddress (registry w) (oracle w) (monitor w)
         owner 1000 7 user1 user2 5 MIXING 85 "Potential mixing service usage"
       = Ok r
    /\ flagged (getTransactionAnalysis r.1 7) = true
    /\ severity (getTransactionAnalysis r.1 7) <> INFO.
Proof.
  destruct (is_ok_inv beforeEach) as [w Hw]; [vm_compute; reflexivity|].
  exists w.
  destruct (is_ok_inv (analyzeTransaction monitorAddress (registry w)
                         (oracle w) (monitor w) owner 1000 7 user1 user2 5
                         MIXING 85 "Potential mixing service usage"))
    as [[st' reg'] H]; [observe Hw|].
  exists (st', reg'). split; [exact Hw|]. split; [exact H|].
  assert (Hreach : reachable st').
  { pose proof Hw as Hdep. unfold beforeEach in Hdep.
    apply bind_ok_inv in Hdep as (orc & _ & Hdep).
    apply bind_ok_inv in Hdep as (mon0 & Hmon0 & Hdep).
    apply bind_ok_inv in Hdep as (enf & _ & Hdep).
    apply bind_ok_inv in Hdep as (reg1 & _ & Hdep).
    apply bind_ok_inv in Hdep as (reg2 & _ & Hdep).
    apply bind_ok_inv in Hdep as (mon1 & Hgrant & Hdep).
    apply bind_ok_inv in Hdep as (orc1 & _ & Hdep).
    injection Hdep as <-. cbn [monitor registry oracle] in H.
    eapply reachable_step; [|eapply step_analyzeTransaction, H].
    eapply reachable_step; [|eapply step_grantRole, Hgrant].
    eapply reachable_deployed, Hmon0. }
  destruct (MonitorMore.severity_agrees_with_flag st' 7 Hreach)
    as (_ & Hflagged & _).
  cbn [fst].
  assert (Hf : flagged (getTransactionAnalysis st' 7) = true).
  { unfold getTransactionAnalysis.
    rewrite (MonitorFacts.analyzeTransaction_stored
               _ _ _ _ _ _ _ _ _ _ _ _ _ _ _ H), lookup_total_insert_eq.
    cbn [flagged]. apply orb_true_iff. right.
    apply bool_decide_eq_true. discriminate. }
  split; [exact Hf|exact (Hflagged Hf)].
Defined.

(** A run of X15: a NORMAL transfer scored 10. *)
Lemma unflagged_analysis_only_records_witness :
  exists w r,
    beforeEach = Ok w
    /\ analyzeTransaction monitorAddress (registry w) (oracle w) (monitor w)
         owner 1000 7 user1 user2 5 NORMAL 10 "routine" = Ok r
    /\ r.2 = registry w
    /\ alertCounter r.1 = alertCounter (monitor w).
Proof.
  destruct (is_ok_inv beforeEach) as [w Hw]; [vm_compute; reflexivity|].
  exists w.
  destruct (is_ok_inv (analyzeTransaction monitorAddress (registry w)
                         (oracle w) (monitor w) owner 1000 7 user1 user2 5
                         NORMAL 10 "routine")) as [[st' reg'] H];
    [observe Hw|].
  exists (st', reg'). split; [exact Hw|]. split; [exact H|].
  destruct (MonitorMore.unflagged_analysis_only_records
              _ _ _ _ _ _ _ _ _ _ _ _ _ _ _ H) as (_ & Hreg & Hcnt & _).
  - apply N.ltb_lt. observe Hw.
  - reflexivity.
  - auto.
Defined.

(** A run of X16: one transfer from [user1] to [user2]. *)
Lemma analysis_indexed_under_both_parties_witness :
  exists w r,
    beforeEach = Ok w
    /\ analyzeTransaction monitorAddress (registry w) (oracle w) (monitor w)
         owner 1000 7 user1 user2 5 NORMAL 10 "routine" = Ok r
    /\ getAddressTransactions r.1 user1 = [7]
    /\ getAddressTransactions r.1 user2 = [7].
Proof.
  destruct (is_ok_inv beforeEach) as [w Hw]; [vm_compute; reflexivity|].
  exists w.
  destruct (is_ok_inv (analyzeTransaction monitorAddress (registry w)
                         (oracle w) (monitor w) owner 1000 7 user1 user2 5
                         NORMAL 10 "routine")) as [[st' reg'] H];
    [observe Hw|].
  exists (st', reg'). split; [exact Hw|]. split; [exact H|].
  destruct (MonitorMore.analysis_indexed_under_both_parties
              _ _ _ _ _ _ _ _ _ _ _ _ _ _ _ H) as (Hne & _).
  destruct Hne as [H1 H2]; [discriminate|].
  cbn [fst]. rewrite H1, H2.
  assert (E1 : getAddressTransactions (monitor w) user1 = []) by observe Hw.
  assert (E2 : getAddressTransactions (monitor w) user2 = []) by observe Hw.
  rewrite E1, E2. split; reflexivity.
Defined.

(** A run of X17: a mixing transfer from the zero address, analysed by
    the deployed monitor. *)
Lemma zero_sender_flagged_never_recorded_witness :
  exists w,
    beforeEach = Ok w
    /\ analyzeTransaction monitorAddress (registry w) (oracle w) (monitor w)
         owner 1000 7 0 user2 5 MIXING 85 "from nowhere"
       = Revert "Invalid target address".
Proof.
  destruct (is_ok_inv beforeEach) as [w Hw]; [vm_compute; reflexivity|].
  exists w. split; [exact Hw|].
  destruct MonitorMore.zero_sender_flagged_never_recorded as (_ & Hthm & _).
  apply Hthm.
  - right. discriminate.
  - observe Hw.
  - lia.
  - assert (E : flaggedTransactionCount (monitor w) = 0) by observe Hw.
    rewrite E. reflexivity.
  - assert (E : alertCounter (monitor w) = 0) by observe Hw.
    rewrite E. reflexivity.
  - assert (E : RiskRegistry.getRiskScore (registry w) 0 = 0) by observe Hw.
    rewrite E. vm_compute. discriminate.
  - observe Hw.
Defined.

(** A run of X18: [user1] stands at CRITICAL/100; a structured transfer
    scored 10 brings it down to 55. *)
Lemma flagged_analysis_averages_witness :
  exists p r,
    (w ← beforeEach;
     reg ← RiskRegistry.assessRisk (registry w) owner 900 user1
             RiskRegistry.CRITICAL 100 "Critical risk";
     Ok (w, reg)) = Ok p
    /\ analyzeTransaction monitorAddress p.2 (oracle p.1) (monitor p.1) owner
         1000 7 user1 user2 5 STRUCTURING 10 "Structuring detected" = Ok r
    /\ RiskRegistry.getRiskScore p.2 user1 = 100
    /\ RiskRegistry.getRiskScore r.2 user1 = 55.
Proof.
  match goal with
  | |- exists p r, ?run = _ /\ _ =>
      destruct (is_ok_inv run) as [p Hp]; [vm_compute; reflexivity|]
  end.
  exists p.
  destruct (is_ok_inv (analyzeTransaction monitorAddress p.2 (oracle p.1)
                         (monitor p.1) owner 1000 7 user1 user2 5 STRUCTURING
                         10 "Structuring detected")) as [[st' reg'] H];
    [observe Hp|].
  exists (st', reg'). split; [exact Hp|]. split; [exact H|].
  assert (Hold : RiskRegistry.getRiskScore p.2 user1 = 100) by observe Hp.
  split; [exact Hold|].
  destruct (MonitorMore.flagged_analysis_averages
              _ _ _ _ _ _ _ _ _ _ _ _ _ _ _ H) as (Hnew & _).
  - right. discriminate.
  - observe Hp.
  - cbn [snd]. now rewrite Hnew, Hold.
Defined.

End MonitorMoreRuns.

(** ** ComplianceEnforcement *)

Module EnforcementMore.
Import ComplianceEnforcement DecisionList EnforcementFacts.

Lemma freezeAccount_effect st sender now account rsn st' :
  freezeAccount st sender now account rsn = Ok st' ->
  let s := accountStatuses st !!! account in
  frozen s = false
  /\ st' = setStatus st account
             (mkAccountStatus true (whitelisted s) (defaultAction s)
                (dailyLimit s) (dailySpent s) (lastResetTimestamp s) now
                sender rsn).
Proof.
  unfold freezeAccount. cbv zeta. intros H.
  apply require_bind_inv in H as [_ H].
  apply require_bind_inv in H as [Hf H].
  apply negb_true_iff in Hf. injection H as <-. auto.
Qed.

Lemma unfreezeAccount_effect st sender account st' :
  unfreezeAccount st sender account = Ok st' ->
  let s := accountStatuses st !!! account in
  frozen s = true
  /\ st' = setStatus st account
             (mkAccountStatus false (whitelisted s) (defaultAction s)
                (dailyLimit s) (dailySpent s) (lastResetTimestamp s)
                (freezeTimestamp s) (freezeInitiator s) (freezeReason s)).
Proof.
  unfold unfreezeAccount. cbv zeta. intros H.
  apply require_bind_inv in H as [_ H].
  apply require_bind_inv in H as [Hf H].
  injection H as <-. auto.
Qed.

Lemma whitelistAccount_effect st sender account st' :
  whitelistAccount st sender account = Ok st' ->
  let s := accountStatuses st !!! account in
  st' = setStatus st account
          (mkAccountStatus (frozen s) true (defaultAction s) (dailyLimit s)
             (dailySpent s) (lastResetTimestamp s) (freezeTimestamp s)
             (freezeInitiator s) (freezeReason s)).
Proof.
  unfold whitelistAccount. cbv zeta. intros H.
  apply require_bind_inv in H as [_ H]. now injection H as <-.
Qed.

Lemma removeFromWhitelist_effect st sender account st' :
  removeFromWhitelist st sender account = Ok st' ->
  let s := accountStatuses st !!! account in
  st' = setStatus st account
          (mkAccountStatus (frozen s) false (defaultAction s) (dailyLimit s)
             (dailySpent s) (lastResetTimestamp s) (freezeTimestamp s)
             (freezeInitiator s) (freezeReason s)).
Proof.
  unfold removeFromWhitelist. cbv zeta. intros H.
  apply require_bind_inv in H as [_ H]. now injection H as <-.
Qed.

Lemma setDailyLimit_effect st sender account limit st' :
  setDailyLimit st sender account limit = Ok st' ->
  let s := accountStatuses st !!! account in
  st' = setStatus st account
          (mkAccountStatus (frozen s) (whitelisted s) (defaultAction s) limit
             (dailySpent s) (lastResetTimestamp s) (freezeTimestamp s)
             (freezeInitiator s) (freezeReason s)).
Proof.
  unfold setDailyLimit. cbv zeta. intros H.
  apply require_bind_inv in H as [_ H]. now injection H as <-.
Qed.

(** [checkTransaction] reads the enforcement state through the switch and
    the two parties' status records only. *)
Lemma checkTransaction_reads_statuses reg orc st st' now frm to_ amt :
  enforcementEnabled st' = enforcementEnabled st ->
  defaultDailyLimit st' = defaultDailyLimit st ->
  accountStatuses st' !!! frm = accountStatuses st !!! frm ->
  accountStatuses st' !!! to_ = accountStatuses st !!! to_ ->
  checkTransaction reg orc st' now frm to_ amt
  = checkTransaction reg orc st now frm to_ amt.
Proof.
  intros Hen Hdef Hfrm Hto.
  unfold checkTransaction, _checkDailyLimit.
  now rewrite Hen, Hdef, Hfrm, Hto.
Qed.

(** X19.  Freezing and unfreezing are guarded by the flag and undo each
    other only in the flag: freezing a frozen account fails with "Already
    frozen", unfreezing an account that is not frozen fails with "Not
    frozen", and after a freeze followed by an unfreeze the account is
    not frozen but still carries the time, initiator and reason of that
    freeze, its other fields being as before the freeze. *)
Theorem freeze_unfreeze_guards_and_trace :
  (forall st sender now account rsn,
     AccessControl.hasRole (roles st) ENFORCER_ROLE sender = true ->
     frozen (getAccountStatus st account) = true ->
     freezeAccount st sender now account rsn = Revert "Already frozen")
  /\ (forall st sender account,
        AccessControl.hasRole (roles st) ENFORCER_ROLE sender = true ->
        frozen (getAccountStatus st account) = false ->
        unfreezeAccount st sender account = Revert "Not frozen")
  /\ (forall st sender now account rsn st1 sender' st2,
        freezeAccount st sender now account rsn = Ok st1 ->
        unfreezeAccount st1 sender' account = Ok st2 ->
        let s := getAccountStatus st account in
        getAccountStatus st2 account
        = mkAccountStatus false (whitelisted s) (defaultAction s)
            (dailyLimit s) (dailySpent s) (lastResetTimestamp s) now sender
            rsn).
Proof.
  unfold getAccountStatus. split; [|split].
  - intros st sender now account rsn Hrole Hf.
    unfold freezeAccount, AccessControl.onlyRole. now rewrite Hrole, Hf.
  - intros st sender account Hrole Hf.
    unfold unfreezeAccount, AccessControl.onlyRole. now rewrite Hrole, Hf.
  - intros st sender now account rsn st1 sender' st2 H1 H2.
    apply freezeAccount_effect in H1 as (_ & ->).
    apply unfreezeAccount_effect in H2 as (_ & ->).
    rewrite !getStatus_setStatus. reflexivity.
Qed.

(** X20.  Freezing an account settles the verdict of every transfer that
    involves it and leaves every other verdict as it was.  After
    [freezeAccount account], with enforcement enabled: a transfer sent by
    the account, to anyone and to itself, gets
    [(false, FREEZE, "Account frozen")], unless the account is
    whitelisted, which still wins with [(true, NONE, "Whitelisted")]; a
    transfer sent to it by another account gets that sender's own
    whitelisted or frozen verdict when it has one and
    [(false, BLOCK, "Recipient frozen")] otherwise.  With enforcement
    disabled every transfer is allowed as before.  The verdict for every
    pair of accounts that does not involve the frozen one is what it
    was. *)
Theorem freezeAccount_verdicts st sender t account rsn st' :
  freezeAccount st sender t account rsn = Ok st' ->
  (forall reg orc now to_ amt,
     enforcementEnabled st = true ->
     checkTransaction reg orc st' now account to_ amt
     = if whitelisted (getAccountStatus st account)
       then Ok (true, NONE, "Whitelisted")
       else Ok (false, FREEZE, "Account frozen"))
  /\ (forall reg orc now frm amt,
        frm <> account ->
        enforcementEnabled st = true ->
        checkTransaction reg orc st' now frm account amt
        = if whitelisted (getAccountStatus st frm)
          then Ok (true, NONE, "Whitelisted")
          else if frozen (getAccountStatus st frm)
          then Ok (false, FREEZE, "Account frozen")
          else Ok (false, BLOCK, "Recipient frozen"))
  /\ (forall reg orc now frm to_ amt,
        enforcementEnabled st = false ->
        checkTransaction reg orc st' now frm to_ amt = Ok (true, NONE, ""))
  /\ (forall reg orc now frm to_ amt,
        frm <> account -> to_ <> account ->
        checkTransaction reg orc st' now frm to_ amt
        = checkTransaction reg orc st now frm to_ amt).
Proof.
  intros H. apply freezeAccount_effect in H as (_ & ->).
  unfold getAccountStatus. split; [|split; [|split]].
  - intros reg orc now to_ amt Hen.
    unfold checkTransaction. rewrite getStatus_setStatus.
    cbn [enforcementEnabled setStatus frozen whitelisted]. rewrite Hen. cbn.
    destruct (whitelisted (accountStatuses st !!! account)); reflexivity.
  - intros reg orc now frm amt Hne Hen.
    unfold checkTransaction.
    rewrite getStatus_setStatus, getStatus_setStatus_ne by congruence.
    cbn [enforcementEnabled setStatus frozen]. rewrite Hen. cbn.
    destruct (whitelisted (accountStatuses st !!! frm)); [reflexivity|].
    destruct (frozen (accountStatuses st !!! frm)); reflexivity.
  - intros reg orc now frm to_ amt Hen.
    unfold checkTransaction. cbn [enforcementEnabled setStatus].
    now rewrite Hen.
  - intros reg orc now frm to_ amt Hf Ht.
    apply checkTransaction_reads_statuses; try reflexivity;
      apply getStatus_setStatus_ne; congruence.
Qed.

(** X21.  [recordSpending] never looks at the limit.  With the role held
    and the sums within 256 bits it always succeeds, whatever the limit
    and the amount already spent.  Once the window has elapsed it
    restarts the window at the current time with the amount as the whole
    spend; inside the window it adds the amount and leaves the window
    start alone. *)
Theorem recordSpending_rolls_over :
  (forall st sender now account amt,
     let s := getAccountStatus st account in
     AccessControl.hasRole (roles st) ENFORCER_ROLE sender = true ->
     lastResetTimestamp s + ONE_DAY <= MAX_UINT256 ->
     (now < lastResetTimestamp s + ONE_DAY ->
      dailySpent s + amt <= MAX_UINT256) ->
     is_ok (recordSpending st sender now account amt) = true)
  /\ (forall st sender now account amt st',
        recordSpending st sender now account amt = Ok st' ->
        let s := getAccountStatus st account in
        let s' := getAccountStatus st' account in
        (lastResetTimestamp s + ONE_DAY <= now ->
         dailySpent s' = amt /\ lastResetTimestamp s' = now)
        /\ (now < lastResetTimestamp s + ONE_DAY ->
            dailySpent s' = dailySpent s + amt
            /\ lastResetTimestamp s' = lastResetTimestamp s)
        /\ dailyLimit s' = dailyLimit s
        /\ frozen s' = frozen s
        /\ whitelisted s' = whitelisted s).
Proof.
  unfold getAccountStatus. split.
  - intros st sender now account amt. cbv zeta.
    set (s := accountStatuses st !!! account). intros Hrole Hfit Hsum.
    unfold recordSpending, AccessControl.onlyRole. fold s.
    rewrite Hrole, (checked_add_ok _ ONE_DAY) by exact Hfit. cbn.
    destruct (N.leb_spec (lastResetTimestamp s + ONE_DAY) now) as [Hle|Hlt];
      [reflexivity|].
    now rewrite checked_add_ok by auto.
  - intros st sender now account amt st' H. cbv zeta.
    unfold recordSpending in H. apply require_bind_inv in H as [_ H].
    apply bind_ok_inv in H as (windowEnd & Hadd & H).
    apply checked_add_inv in Hadd as [-> _].
    destruct (N.leb_spec (lastResetTimestamp (accountStatuses st !!! account)
                          + ONE_DAY) now) as [Hle|Hlt].
    + injection H as <-. rewrite getStatus_setStatus. cbn.
      repeat split; auto; intros; lia.
    + apply bind_ok_inv in H as (spent & Hadd & H).
      apply checked_add_inv in Hadd as [-> _].
      injection H as <-. rewrite getStatus_setStatus. cbn.
      repeat split; auto; intros; lia.
Qed.

(** X22.  A daily limit of zero cannot be set: after [setDailyLimit
    account limit] the limit check compares against [limit] when it is
    positive and against the global default when it is zero. *)
Theorem zero_daily_limit_means_default st sender account limit st' :
  setDailyLimit st sender account limit = Ok st' ->
  forall now amt,
    _checkDailyLimit st' now account amt
    = if sumsFit st now account amt
      then Ok ((if 0 <? limit then limit else defaultDailyLimit st)
               <? comparedAmount st now account amt)
      else Revert PANIC_OVERFLOW.
Proof.
  intros H now amt. apply setDailyLimit_effect in H as ->.
  rewrite checkDailyLimit_spec.
  unfold sumsFit, limitExceeded, comparedAmount, effectiveLimit, windowElapsed.
  rewrite !getStatus_setStatus. reflexivity.
Qed.

(** X23.  Approval and execution do not ask whether the delayed
    transaction exists: for an id nothing was stored under, an enforcer's
    approval succeeds, and the record it leaves (no parties, no amount,
    delay already over) can then be executed by anyone at any time. *)
Theorem unknown_delayed_id_approves_and_executes st sender i :
  AccessControl.hasRole (roles st) ENFORCER_ROLE sender = true ->
  delayedTransactions st !! i = None ->
  exists st1,
    approveDelayedTransaction st sender i = Ok st1
    /\ delayedTransactions st1 !!! i
       = mkDelayedTransaction 0 0 0 0 [] 0 false true sender
    /\ forall now, exists st2,
         executeDelayedTransaction st1 now i = Ok st2
         /\ executed (delayedTransactions st2 !!! i) = true.
Proof.
  intros Hrole Hnone.
  unfold approveDelayedTransaction, AccessControl.onlyRole.
  rewrite Hrole, lookup_total_alt, Hnone. cbn.
  eexists. split; [reflexivity|].
  rewrite getDelayed_setDelayed. split; [reflexivity|].
  intros now. unfold executeDelayedTransaction.
  rewrite getDelayed_setDelayed. cbn.
  rewrite (proj2 (N.leb_le 0 now)) by lia. cbn.
  eexists. split; [reflexivity|]. now rewrite getDelayed_setDelayed.
Qed.

Section Delay.

Variable keccak256_delayed : address -> address -> uint256 -> uint256 -> bytes32.

(** X24.  A created delayed transaction observes its delay: it cannot be
    executed before it is approved, and once approved it is refused with
    "Still delayed" at every time before creation time plus the delay
    period and executes at every time from then on. *)
Theorem created_transaction_waits_out_delay
    st sender t frm to_ amt dat st1 i reviewer st2 :
  createDelayedTransaction keccak256_delayed st sender t frm to_ amt dat
  = Ok (st1, i) ->
  approveDelayedTransaction st1 reviewer i = Ok st2 ->
  (forall now, executeDelayedTransaction st1 now i = Revert "Not approved")
  /\ (forall now, now < t + delayPeriod st ->
        executeDelayedTransaction st2 now i = Revert "Still delayed")
  /\ (forall now, t + delayPeriod st <= now ->
        is_ok (executeDelayedTransaction st2 now i) = true).
Proof.
  intros Hc Ha.
  unfold createDelayedTransaction in Hc.
  apply require_bind_inv in Hc as [_ Hc].
  apply bind_ok_inv in Hc as (until & Hadd & Hc).
  apply checked_add_inv in Hadd as [-> _].
  injection Hc as <- <-.
  unfold approveDelayedTransaction in Ha.
  apply require_bind_inv in Ha as [_ Ha].
  apply require_bind_inv in Ha as [_ Ha].
  apply require_bind_inv in Ha as [_ Ha].
  injection Ha as <-.
  unfold executeDelayedTransaction.
  rewrite getDelayed_setDelayed. cbn [delayedTransactions].
  rewrite !lookup_total_insert_eq. cbn.
  split; [reflexivity|]. split.
  - intros now Hnow. apply N.leb_gt in Hnow. now rewrite Hnow.
  - intros now Hnow. apply N.leb_le in Hnow. now rewrite Hnow.
Qed.

End Delay.

(** X25.  Whitelisting is undone by [removeFromWhitelist]: while an
    account is whitelisted every transfer from it is allowed when
    enforcement is on, and after the removal every verdict, for every
    pair of accounts, is what it was before the account was whitelisted
    (the account not having been whitelisted before). *)
Theorem whitelist_then_remove_restores st sender account st1 sender' st2 :
  whitelistAccount st sender account = Ok st1 ->
  removeFromWhitelist st1 sender' account = Ok st2 ->
  whitelisted (getAccountStatus st account) = false ->
  (forall reg orc now to_ amt,
     enforcementEnabled st = true ->
     checkTransaction reg orc st1 now account to_ amt
     = Ok (true, NONE, "Whitelisted"))
  /\ (forall reg orc now frm to_ amt,
        checkTransaction reg orc st2 now frm to_ amt
        = checkTransaction reg orc st now frm to_ amt).
Proof.
  intros H1 H2 Hwl. unfold getAccountStatus in Hwl.
  apply whitelistAccount_effect in H1 as ->.
  apply removeFromWhitelist_effect in H2 as ->.
  split.
  - intros reg orc now to_ amt Hen. unfold checkTransaction.
    rewrite getStatus_setStatus. cbn [enforcementEnabled setStatus whitelisted].
    now rewrite Hen.
  - intros reg orc now frm to_ amt.
    assert (Hsame : forall a,
              accountStatuses
                (setStatus
                   (setStatus st account
                      (mkAccountStatus
                         (frozen (accountStatuses st !!! account)) true
                         (defaultAction (accountStatuses st !!! account))
                         (dailyLimit (accountStatuses st !!! account))
                         (dailySpent (accountStatuses st !!! account))
                         (lastResetTimestamp (accountStatuses st !!! account))
                         (freezeTimestamp (accountStatuses st !!! account))
                         (freezeInitiator (accountStatuses st !!! account))
                         (freezeReason (accountStatuses st !!! account))))
                   account
                   (mkAccountStatus
                      (frozen (accountStatuses st !!! account)) false
                      (defaultAction (accountStatuses st !!! account))
                      (dailyLimit (accountStatuses st !!! account))
                      (dailySpent (accountStatuses st !!! account))
                      (lastResetTimestamp (accountStatuses st !!! account))
                      (freezeTimestamp (accountStatuses st !!! account))
                      (freezeInitiator (accountStatuses st !!! account))
                      (freezeReason (accountStatuses st !!! account))))
              !!! a = accountStatuses st !!! a).
    { intros a. destruct (decide (account = a)) as [<-|Hne].
      - rewrite getStatus_setStatus.
        destruct (accountStatuses st !!! account). cbn in *. now subst.
      - now rewrite !getStatus_setStatus_ne. }
    revert Hsame. rewrite !getStatus_setStatus. cbn [whitelisted frozen
      defaultAction dailyLimit dailySpent lastResetTimestamp freezeTimestamp
      freezeInitiator freezeReason]. intros Hsame.
    apply checkTransaction_reads_statuses; try reflexivity; apply Hsame.
Qed.

End EnforcementMore.

Module EnforcementMoreRuns.
Import ComplianceEnforcement DecisionList Deployment.

(** A run of X19: [user1] is frozen at time 1000 and unfrozen. *)
Lemma freeze_unfreeze_guards_and_trace_witness :
  exists w st2,
    beforeEach = Ok w
    /\ (e ← freezeAccount (enforcement w) owner 1000 user1
              "Critical risk detected";
        unfreezeAccount e owner user1) = Ok st2
    /\ getAccountStatus st2 user1
       = mkAccountStatus false false NONE 0 0 0 1000 owner
           "Critical risk detected".
Proof.
  destruct (is_ok_inv beforeEach) as [w Hw]; [vm_compute; reflexivity|].
  exists w.
  match goal with
  | |- exists st2, _ /\ ?run = _ /\ _ =>
      destruct (is_ok_inv run) as [st2 H]; [observe Hw|]
  end.
  exists st2. split; [exact Hw|]. split; [exact H|].
  apply bind_ok_inv in H as (e & H1 & H2).
  destruct EnforcementMore.freeze_unfreeze_guards_and_trace as (_ & _ & Hthm).
  rewrite (Hthm _ _ _ _ _ _ _ _ H1 H2). observe Hw.
Defined.

(** A run of X20: [user2] is frozen; what [user1] sends to it is blocked
    and what it sends itself is refused. *)
Lemma freezeAccount_verdicts_witness :
  exists w st',
    beforeEach = Ok w
    /\ freezeAccount (enforcement w) owner 1000 user2 "Under investigation"
       = Ok st'
    /\ checkTransaction (registry w) (oracle w) st' 1001 user1 user2 ONE_ETHER
       = Ok (false, BLOCK, "Recipient frozen")
    /\ checkTransaction (registry w) (oracle w) st' 1001 user2 user1 ONE_ETHER
       = Ok (false, FREEZE, "Account frozen").
Proof.
  destruct (is_ok_inv beforeEach) as [w Hw]; [vm_compute; reflexivity|].
  exists w.
  destruct (is_ok_inv (freezeAccount (enforcement w) owner 1000 user2
                         "Under investigation")) as [st' H]; [observe Hw|].
  exists st'. split; [exact Hw|]. split; [exact H|].
  destruct (EnforcementMore.freezeAccount_verdicts _ _ _ _ _ _ H)
    as (Hout & Hin & _).
  assert (Hen : enforcementEnabled (enforcement w) = true) by observe Hw.
  assert (W1 : whitelisted (getAccountStatus (enforcement w) user1) = false)
    by observe Hw.
  assert (F1 : frozen (getAccountStatus (enforcement w) user1) = false)
    by observe Hw.
  assert (W2 : whitelisted (getAccountStatus (enforcement w) user2) = false)
    by observe Hw.
  split.
  - rewrite Hin; [|discriminate|exact Hen]. rewrite W1, F1. reflexivity.
  - rewrite Hout by exact Hen. rewrite W2. reflexivity.
Defined.

(** A run of X21: the first spend of [user1], long after the zero window
    start, restarts the window. *)
Lemma recordSpending_rolls_over_witness :
  exists w st',
    beforeEach = Ok w
    /\ recordSpending (enforcement w) owner 100000 user1 95 = Ok st'
    /\ dailySpent (getAccountStatus st' user1) = 95
    /\ lastResetTimestamp (getAccountStatus st' user1) = 100000.
Proof.
  destruct (is_ok_inv beforeEach) as [w Hw]; [vm_compute; reflexivity|].
  exists w.
  destruct (is_ok_inv (recordSpending (enforcement w) owner 100000 user1 95))
    as [st' H]; [observe Hw|].
  exists st'. split; [exact Hw|]. split; [exact H|].
  destruct EnforcementMore.recordSpending_rolls_over as (_ & Hthm).
  destruct (Hthm _ _ _ _ _ _ H) as (Hover & _).
  apply Hover. apply N.leb_le. observe Hw.
Defined.

(** A run of X22: [user1] is given limit zero and is checked against the
    default. *)
Lemma zero_daily_limit_means_default_witness :
  exists w st',
    beforeEach = Ok w
    /\ setDailyLimit (enforcement w) owner user1 0 = Ok st'
    /\ _checkDailyLimit st' 100000 user1 5 = Ok false.
Proof.
  destruct (is_ok_inv beforeEach) as [w Hw]; [vm_compute; reflexivity|].
  exists w.
  destruct (is_ok_inv (setDailyLimit (enforcement w) owner user1 0))
    as [st' H]; [observe Hw|].
  exists st'. split; [exact Hw|]. split; [exact H|].
  rewrite (EnforcementMore.zero_daily_limit_means_default _ _ _ _ _ H).
  observe Hw.
Defined.

(** A run of X23: nothing is stored under id 42. *)
Lemma unknown_delayed_id_approves_and_executes_witness :
  exists w,
    beforeEach = Ok w
    /\ AccessControl.hasRole (roles (enforcement w)) ENFORCER_ROLE owner = true
    /\ delayedTransactions (enforcement w) !! 42 = None
    /\ exists st1,
         approveDelayedTransaction (enforcement w) owner 42 = Ok st1
         /\ is_ok (executeDelayedTransaction st1 0 42) = true.
Proof.
  destruct (is_ok_inv beforeEach) as [w Hw]; [vm_compute; reflexivity|].
  exists w. split; [exact Hw|].
  assert (Hrole : AccessControl.hasRole (roles (enforcement w)) ENFORCER_ROLE
                    owner = true) by observe Hw.
  assert (Hnone : delayedTransactions (enforcement w) !! 42 = None)
    by observe Hw.
  split; [exact Hrole|]. split; [exact Hnone|].
  destruct (EnforcementMore.unknown_delayed_id_approves_and_executes
              _ _ _ Hrole Hnone) as (st1 & Ha & _ & Hexec).
  exists st1. split; [exact Ha|].
  destruct (Hexec 0) as (st2 & -> & _). reflexivity.
Defined.

(** A run of X24: created at time 1000 and approved, the transfer is
    refused at time 2000. *)
Lemma created_transaction_waits_out_delay_witness :
  exists w r st2,
    beforeEach = Ok w
    /\ createDelayedTransaction hash_delayed (enforcement w) owner 1000 user1
         user2 5 [] = Ok r
    /\ approveDelayedTransaction r.1 owner r.2 = Ok st2
    /\ executeDelayedTransaction st2 2000 r.2 = Revert "Still delayed".
Proof.
  destruct (is_ok_inv beforeEach) as [w Hw]; [vm_compute; reflexivity|].
  exists w.
  destruct (is_ok_inv (r ← createDelayedTransaction hash_delayed
                             (enforcement w) owner 1000 user1 user2 5 [];
                       st2 ← approveDelayedTransaction r.1 owner r.2;
                       Ok (r, st2))) as [[[st1 i] st2] H]; [observe Hw|].
  apply bind_ok_inv in H as ([st1' i'] & Hc & H).
  apply bind_ok_inv in H as (st2' & Ha & H).
  injection H as -> -> ->. cbn [fst snd] in *.
  exists (st1, i), st2. split; [exact Hw|]. split; [exact Hc|].
  split; [exact Ha|].
  destruct (EnforcementMore.created_transaction_waits_out_delay
              hash_delayed _ _ _ _ _ _ _ _ _ _ _ Hc Ha) as (_ & Hwait & _).
  apply Hwait. apply N.ltb_lt. observe Hw.
Defined.

(** A run of X25: [user1] is whitelisted and taken off the list again. *)
Lemma whitelist_then_remove_restores_witness :
  exists w st2,
    beforeEach = Ok w
    /\ (e ← whitelistAccount (enforcement w) owner user1;
        removeFromWhitelist e owner user1) = Ok st2
    /\ whitelisted (getAccountStatus (enforcement w) user1) = false
    /\ checkTransaction (registry w) (oracle w) st2 1000 user1 user2 5
       = checkTransaction (registry w) (oracle w) (enforcement w) 1000 user1
           user2 5.
Proof.
  destruct (is_ok_inv beforeEach) as [w Hw]; [vm_compute; reflexivity|].
  exists w.
  match goal with
  | |- exists st2, _ /\ ?run = _ /\ _ =>
      destruct (is_ok_inv run) as [st2 H]; [observe Hw|]
  end.
  exists st2. split; [exact Hw|]. split; [exact H|].
  assert (Hwl : whitelisted (getAccountStatus (enforcement w) user1) = false)
    by observe Hw.
  split; [exact Hwl|].
  apply bind_ok_inv in H as (e & H1 & H2).
  destruct (EnforcementMore.whitelist_then_remove_restores
              _ _ _ _ _ _ H1 H2 Hwl) as (_ & Hthm).
  apply Hthm.
Defined.

End EnforcementMoreRuns.

(** ** RegulatoryNFT *)

Module ReportMore.
Import RegulatoryNFT ReportFacts.

(** X26.  In every state the contract can reach, every report is DRAFT,
    SUBMITTED, APPROVED or REJECTED (UNDER_REVIEW and ARCHIVED are never
    produced), and a sealed report is APPROVED: a report that is not
    approved, a rejected one in particular, is never sealed. *)
Theorem reachable_report_statuses st i :
  reachable st ->
  let r := reports st !!! i in
  (status r = DRAFT \/ status r = SUBMITTED \/ status r = APPROVED
   \/ status r = REJECTED)
  /\ (isSealed r = true -> status r = APPROVED)
  /\ (status r = REJECTED -> isSealed r = false).
Proof.
  intros Hreach r.
  destruct (proj2 (reachable_sound st Hreach) i) as [Hs Hseal].
  fold r in Hs, Hseal. split; [exact Hs|]. split; [exact Hseal|].
  intros Hrej. destruct (isSealed r); [|reflexivity].
  rewrite Hseal in Hrej by reflexivity. discriminate.
Qed.

(** X27.  From one completed call to the next the lifecycle only moves
    forward and a seal is final.  Starting in a state the contract is in
    between calls, one completed call (a [createReport] counted together
    with whatever its caller's receiver callback did) leaves a report's
    status, or finds it DRAFT, or takes it from SUBMITTED to APPROVED or
    REJECTED; so through any sequence of completed calls an APPROVED
    report stays APPROVED, a REJECTED report stays REJECTED and unsealed,
    a SUBMITTED report never returns to DRAFT, and a sealed report keeps
    every field.  On a sealed report [submitReport], [reviewReport],
    [updateReportData] and [sealReport] all fail.  (The report a
    [createReport] is minting is not covered while that call runs: its
    record is written after the callback.) *)
Theorem report_lifecycle_forward :
  (forall st st' i,
     reachable st -> step st st' ->
     let s := status (reports st !!! i) in
     let s' := status (reports st' !!! i) in
     s' = s
     \/ s = DRAFT
     \/ (s = SUBMITTED /\ (s' = APPROVED \/ s' = REJECTED)))
  /\ (forall st st' i,
        reachable st -> steps st st' ->
        (status (reports st !!! i) = APPROVED ->
         status (reports st' !!! i) = APPROVED)
        /\ (status (reports st !!! i) = REJECTED ->
            status (reports st' !!! i) = REJECTED
            /\ isSealed (reports st' !!! i) = false)
        /\ (status (reports st !!! i) = SUBMITTED ->
            status (reports st' !!! i) <> DRAFT))
  /\ (forall st st' i,
        reachable st -> isSealed (reports st !!! i) = true ->
        steps st st' ->
        reports st' !!! i = reports st !!! i)
  /\ (forall st i,
        isSealed (reports st !!! i) = true ->
        (forall sender, is_ok (submitReport st sender i) = false)
        /\ (forall sender now approve,
              is_ok (reviewReport st sender now i approve) = false)
        /\ (forall sender ipfs dh,
              is_ok (updateReportData st sender i ipfs dh) = false)
        /\ (forall sender, is_ok (sealReport st sender i) = false)).
Proof.
  split; [|split; [|split]].
  - intros st st' i Hreach Hstep. cbv zeta.
    destruct (step_advances _ _ (reachable_sound _ Hreach) Hstep)
      as (_ & _ & _ & _ & Hf).
    exact (Hf i).
  - intros st st' i Hreach Hsteps.
    destruct (steps_advance _ _ (reachable_sound _ Hreach) Hsteps)
      as ([_ Hwf] & _ & _ & _ & Hf).
    specialize (Hf i). destruct (Hwf i) as [_ Hseal].
    unfold forward in Hf. split; [|split].
    + intros Ha. rewrite Ha in Hf.
      destruct Hf as [Hf|[Hf|[Hf _]]]; [exact Hf|discriminate..].
    + intros Hr. rewrite Hr in Hf.
      assert (Hr' : status (reports st' !!! i) = REJECTED).
      { destruct Hf as [Hf|[Hf|[Hf _]]]; [exact Hf|discriminate..]. }
      split; [exact Hr'|].
      destruct (isSealed (reports st' !!! i)); [|reflexivity].
      rewrite Hseal in Hr' by reflexivity. discriminate.
    + intros Hs Hd. rewrite Hs, Hd in Hf.
      destruct Hf as [Hf|[Hf|[_ [Hf|Hf]]]]; discriminate.
  - intros st st' i Hreach Hsealed Hsteps.
    destruct (steps_advance _ _ (reachable_sound _ Hreach) Hsteps)
      as (_ & _ & _ & Hkeep & _).
    exact (Hkeep i Hsealed).
  - intros st i Hsealed. repeat split.
    + intros sender.
      destruct (submitReport st sender i) as [st'|e] eqn:H; [|reflexivity].
      apply submitReport_exact in H as (_ & _ & _ & Hu & _). congruence.
    + intros sender now approve.
      destruct (reviewReport st sender now i approve) as [st'|e] eqn:H;
        [|reflexivity].
      apply reviewReport_exact in H as (_ & Hu & _). congruence.
    + intros sender ipfs dh.
      destruct (updateReportData st sender i ipfs dh) as [st'|e] eqn:H;
        [|reflexivity].
      apply updateReportData_exact in H as (_ & _ & Hu & _). congruence.
    + intros sender.
      destruct (sealReport st sender i) as [st'|e] eqn:H; [|reflexivity].
      apply sealReport_exact in H as (_ & Hu & _). congruence.
Qed.

(** X28.  Approval does not fix a report's content: until the report is
    sealed its owner can replace the content reference and the data hash
    (a zero data hash included, which [createReport] refuses), whatever
    the status; the status, the reviewer and the review time stay, so an
    approved report is sealed with whatever content was set last. *)
Theorem unsealed_content_editable st sender i ipfs dh :
  _ownerOf st i = sender -> sender <> 0 ->
  isSealed (reports st !!! i) = false -> ipfs <> "" ->
  exists st',
    updateReportData st sender i ipfs dh = Ok st'
    /\ ipfsHash (reports st' !!! i) = ipfs
    /\ dataHash (reports st' !!! i) = dh
    /\ status (reports st' !!! i) = status (reports st !!! i)
    /\ reviewer (reports st' !!! i) = reviewer (reports st !!! i)
    /\ reviewTimestamp (reports st' !!! i) = reviewTimestamp (reports st !!! i)
    /\ isSealed (reports st' !!! i) = false.
Proof.
  intros Hown Hnz Hu Hipfs.
  unfold updateReportData, ownerOf. rewrite Hown, Hu.
  apply N.eqb_neq in Hnz. rewrite Hnz. cbn.
  rewrite N.eqb_refl. cbn.
  destruct ipfs as [|c ipfs]; [contradiction|]. cbn.
  eexists. split; [reflexivity|].
  rewrite getReport_setReport. cbn. auto 10.
Qed.

Section Digest.

Variable keccak256 : list Byte.byte -> bytes32.

(** X29.  [verifyReportData] accepts exactly the data whose digest is the
    stored one: after [createReport] with the digest of [data], whatever
    the caller's receiver callback did, [data] verifies and any other
    byte string verifies exactly when it has the same digest; after
    [updateReportData] with a new digest the check goes by the new
    one. *)
Theorem verifyReportData_follows_stored_digest :
  (forall onERC721Received st sender now rt subj ipfs data st' i,
     createReport onERC721Received st sender now rt subj ipfs
       (keccak256 data) = Ok (st', i) ->
     verifyReportData keccak256 st' i data = true
     /\ forall other,
          verifyReportData keccak256 st' i other = true
          <-> keccak256 other = keccak256 data)
  /\ (forall st sender i ipfs data st',
        updateReportData st sender i ipfs (keccak256 data) = Ok st' ->
        verifyReportData keccak256 st' i data = true
        /\ forall other,
             verifyReportData keccak256 st' i other = true
             <-> keccak256 other = keccak256 data).
Proof.
  split.
  - intros hook st sender now rt subj ipfs data st' i H.
    apply createReport_inv in H as (mid & st2 & _ & _ & ->).
    unfold verifyReportData, writeReport. cbn [reports].
    rewrite lookup_total_insert_eq. cbn.
    split; [apply N.eqb_refl|]. intros other. apply N.eqb_eq.
  - intros st sender i ipfs data st' H.
    apply updateReportData_exact in H as (_ & _ & _ & _ & ->).
    unfold verifyReportData. rewrite getReport_setReport. cbn.
    split; [apply N.eqb_refl|]. intros other. apply N.eqb_eq.
Qed.

End Digest.

(** X30.  Report ids are handed out in sequence from the counter.  In a
    state the contract is in between calls, a successful [createReport]
    returns the counter plus one, and whatever calls the caller's
    receiver callback made in between (nested [createReport]s, a
    transfer or a review of the new token included), the counter ends at
    or above that id, the report under it reads back through [getReport]
    as the DRAFT built from the call's arguments, and the id is the last
    entry of the subject's and of the issuer's list.  For an externally
    owned caller, which gets no callback, the counter ends at the id, the
    caller owns the token and the two lists are the old ones with the id
    appended.  When the callback reverts, the call reverts with its
    reason.  [getReport] reverts with "Report does not exist" for every
    id above the counter. *)
Theorem createReport_sequential_ids :
  (forall onERC721Received st sender now rt subj ipfs dh st' i,
     reachable st ->
     (forall m m', onERC721Received m = Ok m' -> steps m m') ->
     createReport onERC721Received st sender now rt subj ipfs dh
     = Ok (st', i) ->
     i = _tokenIdCounter st + 1
     /\ i <= _tokenIdCounter st'
     /\ getReport st' i
        = Ok (mkComplianceReport i rt DRAFT subj sender now 0 0 ipfs dh false)
     /\ (exists l, getSubjectReports st' subj = (l ++ [i])%list)
     /\ (exists l, getIssuerReports st' sender = (l ++ [i])%list)
     /\ reachable st')
  /\ (forall st sender now rt subj ipfs dh st' i,
        createReport noReceiverHook st sender now rt subj ipfs dh
        = Ok (st', i) ->
        i = _tokenIdCounter st + 1
        /\ _tokenIdCounter st' = i
        /\ getReport st' i
           = Ok (mkComplianceReport i rt DRAFT subj sender now 0 0 ipfs dh
                   false)
        /\ ownerOf st' i = Ok sender
        /\ getSubjectReports st' subj = (getSubjectReports st subj ++ [i])%list
        /\ getIssuerReports st' sender
           = (getIssuerReports st sender ++ [i])%list)
  /\ (forall onERC721Received st sender now rt subj ipfs dh mid i e,
        mintReport st sender subj ipfs dh = Ok (mid, i) ->
        onERC721Received mid = Revert e ->
        createReport onERC721Received st sender now rt subj ipfs dh
        = Revert e)
  /\ (forall st i,
        reachable st -> _tokenIdCounter st < i ->
        getReport st i = Revert "Report does not exist").
Proof.
  split; [|split; [|split]].
  - intros hook st sender now rt subj ipfs dh st' i Hreach Hhook H.
    apply createReport_inv in H as (mid & st2 & Hmint & Hrun & ->).
    pose proof (reachable_sound _ Hreach) as Hsound.
    destruct (advances_mintReport _ _ _ _ _ _ _ Hsound Hmint)
      as [Hmid [Hlo Hhi]].
    destruct (steps_advance _ _ (proj1 Hmid) (Hhook _ _ Hrun))
      as (_ & Hc & Ho & _).
    pose proof Hmint as Hexact.
    apply mintReport_exact in Hexact as (Hi & Hnz & Emid).
    assert (Hown : _ownerOf st2 i <> 0).
    { apply Ho. rewrite Emid. unfold _ownerOf. cbn.
      now rewrite lookup_insert_eq. }
    split; [exact Hi|]. split; [cbn; lia|]. split; [|split; [|split]].
    + unfold getReport, writeReport, _ownerOf in *. cbn [owners reports].
      apply N.eqb_neq in Hown. rewrite Hown. cbn.
      now rewrite lookup_total_insert_eq.
    + unfold getSubjectReports, writeReport, pushId. cbn [subjectReports].
      rewrite lookup_total_insert_eq. eauto.
    + unfold getIssuerReports, writeReport, pushId. cbn [issuerReports].
      rewrite lookup_total_insert_eq. eauto.
    + eapply reachable_step; [exact Hreach|].
      eapply step_createReport; [exact Hmint|exact (Hhook _ _ Hrun)].
  - intros st sender now rt subj ipfs dh st' i H.
    apply createReport_inv in H as (mid & st2 & Hmint & Hrun & ->).
    injection Hrun as <-.
    apply mintReport_exact in Hmint as (Hi & Hnz & ->).
    split; [exact Hi|]. split; [reflexivity|].
    unfold getReport, ownerOf, _ownerOf, getSubjectReports, getIssuerReports,
      writeReport, pushId.
    cbn [owners reports subjectReports issuerReports].
    rewrite lookup_insert_eq, !lookup_total_insert_eq. cbn [default].
    unfold id. apply N.eqb_neq in Hnz. rewrite Hnz. cbn. auto.
  - intros hook st sender now rt subj ipfs dh mid i e Hmint Hrun.
    unfold createReport. rewrite Hmint. cbn. rewrite Hrun. reflexivity.
  - intros st i Hreach Hi.
    destruct (proj1 (reachable_sound _ Hreach) i Hi) as [Ho _].
    unfold getReport. now rewrite Ho.
Qed.

End ReportMore.

Module ReportMoreRuns.
Import RegulatoryNFT Deployment.

(** Stand-in for keccak256 of a byte string in the runs below. *)
Definition hash_bytes (d : list Byte.byte) : bytes32 :=
  N.of_nat (length d) + 1.

(** A run of X26: a report is created, submitted and rejected. *)
Lemma reachable_report_statuses_witness :
  exists st,
    (r ← createReport noReceiverHook (constructor owner) owner 1000
           SUSPICIOUS_ACTIVITY user1 "QmTest123" 77;
     s1 ← submitReport r.1 owner r.2;
     reviewReport s1 owner 1001 r.2 false) = Ok st
    /\ status (reports st !!! 1) = REJECTED
    /\ isSealed (reports st !!! 1) = false.
Proof.
  match goal with
  | |- exists st, ?run = _ /\ _ =>
      destruct (is_ok_inv run) as [st H]; [vm_compute; reflexivity|]
  end.
  exists st. split; [exact H|].
  pose proof H as Hrun.
  apply bind_ok_inv in H as ([st1 i] & Hcreate & H).
  apply bind_ok_inv in H as (s1 & Hsubmit & Hreview).
  cbn [fst snd] in *.
  assert (Hrej : status (reports st !!! 1) = REJECTED) by observe Hrun.
  split; [exact Hrej|].
  refine (proj2 (proj2 (ReportMore.reachable_report_statuses st 1 _)) Hrej).
  eapply reachable_step; [|eapply step_reviewReport, Hreview].
  eapply reachable_step; [|eapply step_submitReport, Hsubmit].
  eapply reachable_step;
    [|eapply ReportFacts.step_createReport_plain, Hcreate].
  apply reachable_deployed.
Defined.

(** A run of X27, as in the integration test: a report is created,
    submitted, approved and sealed; a later update of it fails and a
    later [createReport] leaves it as it is. *)
Lemma report_lifecycle_forward_witness :
  exists p,
    (r ← createReport noReceiverHook (constructor owner) owner 1000
           SUSPICIOUS_ACTIVITY user1 "QmTest123" 77;
     s1 ← submitReport r.1 owner r.2;
     s2 ← reviewReport s1 owner 1001 r.2 true;
     s3 ← sealReport s2 owner r.2;
     r' ← createReport noReceiverHook s3 owner 1002 COMPLIANCE_AUDIT user2
            "QmTest456" 78;
     Ok (s3, r'.1)) = Ok p
    /\ isSealed (reports p.1 !!! 1) = true
    /\ is_ok (updateReportData p.1 owner 1 "QmOther" 79) = false
    /\ reports p.2 !!! 1 = reports p.1 !!! 1.
Proof.
  match goal with
  | |- exists p, ?run = _ /\ _ =>
      destruct (is_ok_inv run) as [p H]; [vm_compute; reflexivity|]
  end.
  exists p. split; [exact H|].
  pose proof H as Hrun.
  apply bind_ok_inv in H as ([st1 i] & Hcreate & H).
  apply bind_ok_inv in H as (s1 & Hsubmit & H).
  apply bind_ok_inv in H as (s2 & Hreview & H).
  apply bind_ok_inv in H as (s3 & Hseal & H).
  apply bind_ok_inv in H as ([st4 i'] & Hcreate' & H).
  cbn [fst snd] in *.
  assert (Hsealed : isSealed (reports p.1 !!! 1) = true) by observe Hrun.
  injection H as <-. cbn [fst snd] in *.
  destruct ReportMore.report_lifecycle_forward
    as (_ & _ & Hkeeps & Hfails).
  split; [exact Hsealed|]. split.
  - destruct (Hfails _ _ Hsealed) as (_ & _ & Hupdate & _). apply Hupdate.
  - apply Hkeeps; [|exact Hsealed|].
    + eapply reachable_step; [|eapply step_sealReport, Hseal].
      eapply reachable_step; [|eapply step_reviewReport, Hreview].
      eapply reachable_step; [|eapply step_submitReport, Hsubmit].
      eapply reachable_step;
        [|eapply ReportFacts.step_createReport_plain, Hcreate].
      apply reachable_deployed.
    + eapply steps_cons;
        [eapply ReportFacts.step_createReport_plain, Hcreate'|].
      apply steps_refl.
Defined.

(** A run of X28: an approved report gets a zero data hash. *)
Lemma unsealed_content_editable_witness :
  exists st,
    (r ← createReport noReceiverHook (constructor owner) owner 1000
           SUSPICIOUS_ACTIVITY user1 "QmTest123" 77;
     s1 ← submitReport r.1 owner r.2;
     reviewReport s1 owner 1001 r.2 true) = Ok st
    /\ _ownerOf st 1 = owner
    /\ isSealed (reports st !!! 1) = false
    /\ status (reports st !!! 1) = APPROVED
    /\ exists st',
         updateReportData st owner 1 "QmTest456" 0 = Ok st'
         /\ dataHash (reports st' !!! 1) = 0
         /\ status (reports st' !!! 1) = APPROVED.
Proof.
  match goal with
  | |- exists st, ?run = _ /\ _ =>
      destruct (is_ok_inv run) as [st H]; [vm_compute; reflexivity|]
  end.
  exists st. split; [exact H|].
  assert (Hown : _ownerOf st 1 = owner) by observe H.
  assert (Hu : isSealed (reports st !!! 1) = false) by observe H.
  assert (Happ : status (reports st !!! 1) = APPROVED) by observe H.
  repeat (split; [assumption|]).
  destruct (ReportMore.unsealed_content_editable st owner 1 "QmTest456" 0)
    as (st' & Hupd & _ & Hdh & Hstatus & _).
  - exact Hown.
  - discriminate.
  - exact Hu.
  - discriminate.
  - exists st'. split; [exact Hupd|]. split; [exact Hdh|].
    rewrite Hstatus. exact Happ.
Defined.

(** A run of X29: a report on four bytes of data. *)
Lemma verifyReportData_follows_stored_digest_witness :
  exists r,
    createReport noReceiverHook (constructor owner) owner 1000
      SUSPICIOUS_ACTIVITY user1 "QmTest123"
      (hash_bytes [Byte.x74; Byte.x65; Byte.x73; Byte.x74]) = Ok r
    /\ verifyReportData hash_bytes r.1 r.2
         [Byte.x74; Byte.x65; Byte.x73; Byte.x74] = true.
Proof.
  match goal with
  | |- exists r, ?run = _ /\ _ =>
      destruct (is_ok_inv run) as [[st' i] H]; [vm_compute; reflexivity|]
  end.
  exists (st', i). split; [exact H|].
  destruct (ReportMore.verifyReportData_follows_stored_digest hash_bytes)
    as (Hthm & _).
  exact (proj1 (Hthm _ _ _ _ _ _ _ _ _ _ H)).
Defined.

(** A run of X30: the report desk creates the first report of a fresh
    contract and reviews and seals it from its receiver callback; the
    report is number 1 and reads back as the DRAFT of the call. *)
Lemma createReport_sequential_ids_witness :
  exists r,
    createReport (reportDesk_onERC721Received 1000) (constructor reportDesk)
      reportDesk 1000 SUSPICIOUS_ACTIVITY user1 "QmTest123" 77 = Ok r
    /\ r.2 = 1
    /\ getReport r.1 r.2
       = Ok (mkComplianceReport r.2 SUSPICIOUS_ACTIVITY DRAFT user1 reportDesk
               1000 0 0 "QmTest123" 77 false).
Proof.
  match goal with
  | |- exists r, ?run = _ /\ _ =>
      destruct (is_ok_inv run) as [[st' i] H]; [vm_compute; reflexivity|]
  end.
  exists (st', i). split; [exact H|].
  assert (Hcalls : forall m m',
            reportDesk_onERC721Received 1000 m = Ok m' -> steps m m').
  { intros m m' Hm. unfold reportDesk_onERC721Received in Hm.
    cbv zeta in Hm.
    apply bind_ok_inv in Hm as (s1 & Hsubmit & Hm).
    apply bind_ok_inv in Hm as (s2 & Hreview & Hseal).
    eapply steps_cons; [eapply step_submitReport, Hsubmit|].
    eapply steps_cons; [eapply step_reviewReport, Hreview|].
    eapply steps_cons; [eapply step_sealReport, Hseal|].
    apply steps_refl. }
  destruct ReportMore.createReport_sequential_ids as (Hthm & _).
  destruct (Hthm _ _ _ _ _ _ _ _ _ _ (reachable_deployed reportDesk)
              Hcalls H) as (Hi & _ & Hget & _).
  split; [exact Hi|exact Hget].
Defined.

End ReportMoreRuns.
